(** * OpenRouter provider plugin: streaming protocol handler, retry
      controller and preference store

    A shallow embedding of [src/streamManager.ts] (both revisions carried by
    the repository) and of the public API of [src/main.ts], followed by the
    properties the specification states about them.

    Conventions of the embedding.
    - A JavaScript string is the list of its code points ([jsstring]).
    - A value that can come out of [JSON.parse] is a [json]; [undefined] is
      [None] at type [option json].
    - The platform (number formatting, [JSON.parse]) is an interface
      ([JSNumber], [JSONParser]); the repository's code is written against it.
    - Effects (callbacks, console, notices, timers, HTTP requests) are
      collected in order by the writer/exception monad [Eff].
    - What the platform and the program throw are objects ([error]); a
      callback of the caller may also throw [null] or [undefined]
      ([thrown], [completion]).
    - An object used as a dictionary is the finite map of its own
      properties, read with [object_get] and written with [object_set],
      which account for what it inherits from [Object.prototype]. *)

From Stdlib Require Import NArith ZArith QArith List String Ascii Bool Lia.
From Stdlib.Strings Require Import Byte.
From Stdlib Require DecimalString.
From stdpp Require Import gmap list.
Import ListNotations.

Local Open Scope N_scope.
Local Open Scope list_scope.

(** The components of a pair are elaborated against the type expected of
    the pair, so that a run can be written [(t, s, Returned a)]. *)
Arguments pair {A B}%_type_scope & a b.

(** ** JavaScript strings *)

Module JSString.

Definition jsstring : Type := list N.

(** [lit "abc"] is the JavaScript literal ["abc"] (ASCII literals only). *)
Definition lit (s : string) : jsstring :=
  List.map N_of_ascii (list_ascii_of_string s).

Definition eqb (a b : jsstring) : bool := bool_decide (a = b).

(** [s.startsWith(p)] *)
Fixpoint startsWith (p s : jsstring) : bool :=
  match p, s with
  | [], _ => true
  | _ :: _, [] => false
  | a :: p', b :: s' => (a =? b) && startsWith p' s'
  end.

(** [s.indexOf(p)], [None] standing for -1. *)
Fixpoint indexOf (p s : jsstring) : option nat :=
  if startsWith p s then Some O
  else match s with
       | [] => None
       | _ :: s' => S <$> indexOf p s'
       end.

(** [s.includes(p)] *)
Definition includes (p s : jsstring) : bool :=
  match indexOf p s with Some _ => true | None => false end.

(** [s.slice(n)] for a non-negative [n]. *)
Definition slice (n : nat) (s : jsstring) : jsstring := drop n s.

(** White space and line terminators, as [String.prototype.trim] sees them. *)
Definition is_space (c : N) : bool :=
  ((9 <=? c) && (c <=? 13)) || (c =? 32) || (c =? 160) || (c =? 5760)
  || ((8192 <=? c) && (c <=? 8202)) || (c =? 8232) || (c =? 8233)
  || (c =? 8239) || (c =? 8287) || (c =? 12288) || (c =? 65279).

Fixpoint trimStart (s : jsstring) : jsstring :=
  match s with
  | c :: s' => if is_space c then trimStart s' else s
  | [] => []
  end.

Definition trimEnd (s : jsstring) : jsstring := rev (trimStart (rev s)).

(** [s.trim()] *)
Definition trim (s : jsstring) : jsstring := trimEnd (trimStart s).

(** [s.split(sep)] for a one-character separator: the pieces between
    separators, always at least one piece. *)
Fixpoint split (sep : N) (s : jsstring) : list jsstring :=
  match s with
  | [] => [ [] ]
  | c :: s' =>
      if c =? sep then [] :: split sep s'
      else match split sep s' with
           | piece :: rest => (c :: piece) :: rest
           | [] => [ [c] ]
           end
  end.

(** [arr.join(sep)] *)
Fixpoint join (sep : jsstring) (l : list jsstring) : jsstring :=
  match l with
  | [] => []
  | [x] => x
  | x :: rest => x ++ sep ++ join sep rest
  end.

(** Decimal representation of a non-negative integer. *)
Definition of_N (n : N) : jsstring :=
  lit (DecimalString.NilZero.string_of_uint (N.to_uint n)).

(** ASCII upper-casing of one code point: the canonicalisation a regular
    expression with flag [i] (and without flag [u]) applies to the letters
    used by this program. *)
Definition ascii_upper (c : N) : N :=
  if (97 <=? c) && (c <=? 122) then c - 32 else c.

(** Case-insensitive [startsWith], for an upper-case ASCII pattern. *)
Fixpoint startsWith_ci (p s : jsstring) : bool :=
  match p, s with
  | [], _ => true
  | _ :: _, [] => false
  | a :: p', b :: s' => (a =? ascii_upper b) && startsWith_ci p' s'
  end.

Fixpoint indexOf_ci (p s : jsstring) : option nat :=
  if startsWith_ci p s then Some O
  else match s with
       | [] => None
       | _ :: s' => S <$> indexOf_ci p s'
       end.

(** [s.match(/<think>([\s\S]*?)<\/think>/)]: the capture group of the
    leftmost match, that is the text between the first opening tag and the
    first closing tag after it; [None] when there is no match. *)
Definition think_match (s : jsstring) : option jsstring :=
  match indexOf (lit "<think>") s with
  | None => None
  | Some i =>
      let rest := drop (i + 7) s in
      match indexOf (lit "</think>") rest with
      | None => None
      | Some j => Some (take j rest)
      end
  end.

(** [s.replace(/<think>[\s\S]*?<\/think>/gi, empty)]: every match, left to
    right, is removed.  Each round consumes at least the two tags, so the
    length of the string is fuel enough. *)
Fixpoint strip_think_from (fuel : nat) (s : jsstring) : jsstring :=
  match fuel with
  | O => s
  | S fuel' =>
      match indexOf_ci (lit "<THINK>") s with
      | None => s
      | Some i =>
          let rest := drop (i + 7) s in
          match indexOf_ci (lit "</THINK>") rest with
          | None => s
          | Some j => take i s ++ strip_think_from fuel' (drop (j + 8) rest)
          end
      end
  end.

Definition strip_think (s : jsstring) : jsstring :=
  strip_think_from (length s) s.

End JSString.
Export JSString.

Example think_match_example :
  think_match (lit "a<think>plan</think>b</think>") = Some (lit "plan").
Proof. reflexivity. Qed.

Example strip_think_example :
  strip_think (lit "<Think>x</THINK>Hi<think>y</think>!<think>") = lit "Hi!<think>".
Proof. reflexivity. Qed.

Example split_example :
  split 10 (lit "ab" ++ [10] ++ lit "c" ++ [10]) = [lit "ab"; lit "c"; []].
Proof. reflexivity. Qed.

Example trim_example : trim (lit "  data: x " ++ [13]) = lit "data: x".
Proof. reflexivity. Qed.

Example of_N_example : of_N 429 = lit "429".
Proof. reflexivity. Qed.

(** ** JavaScript values that come out of JSON *)

Module JS.

(** The platform's numbers: the program only tests them for truth and
    formats them. *)
Class JSNumber := {
  number : Type;
  number_is_zero : number -> bool;
  number_to_string : number -> jsstring
}.

(** A thrown value: an [Error] object, of which the program reads [name]. *)
Record error := { name : jsstring; message : jsstring }.

Definition TypeError : error := {| name := lit "TypeError"; message := [] |}.
Definition SyntaxError : error := {| name := lit "SyntaxError"; message := [] |}.

(** [new Error(msg)] *)
Definition Error (msg : jsstring) : error :=
  {| name := lit "Error"; message := msg |}.

(** What a [catch] clause receives: a value whose properties can be read,
    or [null] or [undefined], which a callback is free to throw and whose
    properties cannot. *)
Inductive thrown :=
| Value (e : error)
| Nullish.
Coercion Value : error >-> thrown.

(** ** Plain objects used as dictionaries

    [o[k]] on an object created by a literal or by [JSON.parse]: an own
    property if there is one, and else what [Object.prototype] holds. *)

(** The property names of [Object.prototype] (ECMAScript, with the
    accessors of its annex B). *)
Definition Object_prototype : list jsstring :=
  [lit "constructor"; lit "hasOwnProperty"; lit "isPrototypeOf";
   lit "propertyIsEnumerable"; lit "toLocaleString"; lit "toString"; lit "valueOf";
   lit "__proto__"; lit "__defineGetter__"; lit "__defineSetter__";
   lit "__lookupGetter__"; lit "__lookupSetter__"].

(** What [o[k]] evaluates to, [undefined] apart: the own value, or the
    value inherited at [k], which is a function or, at [__proto__],
    [Object.prototype] itself. *)
Inductive property (A : Type) :=
| Own (a : A)
| Inherited (k : jsstring).
Arguments Own {A} a.
Arguments Inherited {A} k.

(** [o[k]]; [None] is [undefined]. *)
Definition object_get {A} (o : gmap jsstring A) (k : jsstring) : option (property A) :=
  match o !! k with
  | Some v => Some (Own v)
  | None => if bool_decide (k ∈ Object_prototype) then Some (Inherited k) else None
  end.

(** [o[k] = v] for a string or a number [v].  Every property of
    [Object.prototype] is a writable data property, which the assignment
    shadows by an own one, but for [__proto__]: that is an accessor whose
    setter ignores a value that is neither an object nor [null], so that
    nothing is stored unless an own [__proto__] exists already (as
    [JSON.parse] may have created). *)
Definition object_set {A} (o : gmap jsstring A) (k : jsstring) (v : A) : gmap jsstring A :=
  match o !! k with
  | None => if bool_decide (k = lit "__proto__") then o else <[k := v]> o
  | Some _ => <[k := v]> o
  end.

Section Values.
Context `{JSNumber}.

Set Warnings "-register-all".
Inductive json :=
| JNull
| JBool (b : bool)
| JNum (n : number)
| JStr (s : jsstring)
| JArr (items : list json)
| JObj (props : list (jsstring * json)).

(** Truthiness of a value; [None] is [undefined]. *)
Definition truthy (o : option json) : bool :=
  match o with
  | None | Some JNull => false
  | Some (JBool b) => b
  | Some (JNum n) => negb (number_is_zero n)
  | Some (JStr s) => match s with [] => false | _ => true end
  | Some (JArr _) | Some (JObj _) => true
  end.

(** [a || b] where [b] is a JSON value. *)
Definition or_else (o : option json) (d : json) : json :=
  match o with
  | Some v => if truthy o then v else d
  | None => d
  end.

(** Own property [k] of a parsed object. *)
Fixpoint own (k : jsstring) (props : list (jsstring * json)) : option json :=
  match props with
  | [] => None
  | (k', v) :: rest => if JSString.eqb k k' then Some v else own k rest
  end.

(** [o[k] = v] on the own properties of an object: an existing property
    keeps its place. *)
Fixpoint set_own (k : jsstring) (v : json) (props : list (jsstring * json))
    : list (jsstring * json) :=
  match props with
  | [] => [(k, v)]
  | (k', v') :: rest =>
      if JSString.eqb k k' then (k, v) :: rest else (k', v') :: set_own k v rest
  end.

(** [v.k] for a value [v] that is neither [null] nor [undefined] and a
    key [k] that no prototype defines (the program reads [choices],
    [delta], [message], [content], [reasoning] and [error]). *)
Definition get (v : json) (k : jsstring) : option json :=
  match v with
  | JObj props => own k props
  | _ => None
  end.

(** [o?.k] *)
Definition opt_get (o : option json) (k : jsstring) : option json :=
  match o with
  | None | Some JNull => None
  | Some v => get v k
  end.

(** First UTF-16 code unit of a code point. *)
Definition first_code_unit (c : N) : N :=
  if c <=? 65535 then c else 55296 + (c - 65536) / 1024.

(** [o?.[0]] *)
Definition opt_index0 (o : option json) : option json :=
  match o with
  | None | Some JNull => None
  | Some (JArr items) => head items
  | Some (JStr s) => (fun c => JStr [first_code_unit c]) <$> head s
  | Some (JObj props) => own (lit "0") props
  | Some _ => None
  end.

(** [ToString(v)]: [None] when the conversion throws a [TypeError]
    (an object whose own [toString] property shadows the inherited
    method). *)
Fixpoint ToString (v : json) : option jsstring :=
  match v with
  | JNull => Some (lit "null")
  | JBool true => Some (lit "true")
  | JBool false => Some (lit "false")
  | JNum n => Some (number_to_string n)
  | JStr s => Some s
  | JArr items =>
      join (lit ",") <$>
      (fix elements (l : list json) : option (list jsstring) :=
         match l with
         | [] => Some []
         | x :: rest =>
             match (match x with JNull => Some [] | _ => ToString x end),
                   elements rest with
             | Some a, Some b => Some (a :: b)
             | _, _ => None
             end
         end) items
  | JObj props =>
      match own (lit "toString") props with
      | Some _ => None
      | None => Some (lit "[object Object]")
      end
  end.

(** ** Effects *)

(** What a call does to the outside world, in the order it does it. *)
Inductive status_op :=
| setConnecting | setThinking | setGenerating | updateProgress
| setSuccess | setError (msg : jsstring) | setRateLimited (delay : Q).

Inductive notice :=
| RateLimitNotice (delay : Q)
| ApiKeyMissingNotice.

Inductive effect :=
| HttpRequest (method url authorization : jsstring) (payload : option json)
| OnToken (token : json)
| OnReasoning (reasoning : json)
| OnComplete (fullText : json)
| OnError (e : error)
| ConsoleWarn (line : jsstring)
| ConsoleLog (msg : jsstring)
| ConsoleError (e : thrown)
| Notice (n : notice)
| StatusBar (op : status_op)
| SetTimeout (delay : Q)
| SaveData.

(** How a promise of the platform settles, and how the program's own code
    ends: with a value, or with a thrown object. *)
Inductive outcome (A : Type) :=
| Returned (a : A)
| Thrown (e : error).
Arguments Returned {A} a.
Arguments Thrown {A} e.

(** How a computation that calls functions of the caller ends: as above,
    or with [null] or [undefined] thrown. *)
Inductive completion (A : Type) :=
| Settled (o : outcome A)
| ThrownNullish.
Arguments Settled {A} o.
Arguments ThrownNullish {A}.
Coercion Settled : outcome >-> completion.

(** A computation over mutable state [S]: from the state it starts in, the
    effects it performs, the state it leaves and how it ends.  A [throw]
    keeps the assignments made before it, as in JavaScript. *)
Definition Eff (S A : Type) : Type := S -> list effect * S * completion A.

Definition ret {S A} (a : A) : Eff S A := fun s => ([], s, Returned a).

Definition bind {S A B} (m : Eff S A) (f : A -> Eff S B) : Eff S B :=
  fun s =>
    match m s with
    | (t, s1, Settled (Returned a)) => let '(t', s2, r) := f a s1 in (t ++ t', s2, r)
    | (t, s1, Settled (Thrown e)) => (t, s1, Thrown e)
    | (t, s1, ThrownNullish) => (t, s1, ThrownNullish)
    end.

(** [throw e] for an object [e]. *)
Definition throw {S A} (e : error) : Eff S A := fun s => ([], s, Thrown e).

(** [throw v] for a value that was caught. *)
Definition rethrow {S A} (v : thrown) : Eff S A :=
  fun s => ([], s, match v with Value e => Thrown e | Nullish => ThrownNullish end).

Definition emit {S} (x : effect) : Eff S unit := fun s => ([x], s, Returned tt).

Definition read {S} : Eff S S := fun s => ([], s, Returned s).

Definition modify {S} (f : S -> S) : Eff S unit := fun s => ([], f s, Returned tt).

(** [try { m } catch (e) { h e }] *)
Definition try_catch {S A} (m : Eff S A) (h : thrown -> Eff S A) : Eff S A :=
  fun s =>
    match m s with
    | (t, s1, Settled (Thrown e)) => let '(t', s2, r) := h (Value e) s1 in (t ++ t', s2, r)
    | (t, s1, ThrownNullish) => let '(t', s2, r) := h Nullish s1 in (t ++ t', s2, r)
    | done => done
    end.

(** Awaiting a promise whose settlement the environment decides. *)
Definition await {S A} (p : outcome A) : Eff S A := fun s => ([], s, p).

Definition lift_option {S A} (o : option A) (e : error) : Eff S A :=
  match o with Some a => ret a | None => throw e end.

(** [for (const x of l) body x] *)
Fixpoint for_of {S A} (l : list A) (body : A -> Eff S unit) : Eff S unit :=
  match l with
  | [] => ret tt
  | x :: rest => bind (body x) (fun _ => for_of rest body)
  end.

(** A function handed over by the caller: it has no access to the locals of
    the code that calls it. *)
Definition Callback (A : Type) : Type := A -> Eff unit unit.

Definition call {S A} (f : Callback A) (a : A) : Eff S unit :=
  fun s => let '(t, _, r) := f a tt in (t, s, r).

(** Running a callee on locals of its own. *)
Definition invoke {S S' A} (m : Eff S' A) (locals : S') : Eff S A :=
  fun s => let '(t, _, r) := m locals in (t, s, r).

Definition effects {S A} (run : list effect * S * completion A) : list effect :=
  fst (fst run).
Definition final {S A} (run : list effect * S * completion A) : S :=
  snd (fst run).
Definition result {S A} (run : list effect * S * completion A) : completion A :=
  snd run.

(** [if (o) { body o }] *)
Definition when_truthy {S} (o : option json) (body : json -> Eff S unit) : Eff S unit :=
  match o with
  | Some v => if truthy o then body v else ret tt
  | None => ret tt
  end.

(** [o.k]: reading a property of [undefined] or [null] throws. *)
Definition member {S} (o : option json) (k : jsstring) : Eff S (option json) :=
  match o with
  | None | Some JNull => throw TypeError
  | Some v => ret (get v k)
  end.

(** The platform's [JSON.parse]; [None] when it throws a [SyntaxError]. *)
Class JSONParser := { JSON_parse : jsstring -> option json }.

End Values.

Arguments Returned {A} a.
Arguments Thrown {A} e.
Arguments Settled {A} o.
Arguments ThrownNullish {A}.
Arguments JSONParser {_}.

End JS.
Export JS.

Declare Scope eff_scope.
Delimit Scope eff_scope with eff.
Notation "x <- m ;; k" := (bind m (fun x => k))
  (at level 100, m at next level, right associativity) : eff_scope.
Notation "m ;;; k" := (bind m (fun _ => k))
  (at level 100, right associativity) : eff_scope.

Local Open Scope eff_scope.

(** ** [TextDecoder("utf-8")] used with [{ stream: true }]

    The decoder of the Encoding Standard: a byte-at-a-time machine whose
    state survives from one [decode] call to the next, so that a character
    cut by a chunk boundary is completed by the following chunk.  Malformed
    input yields U+FFFD (the decoder is not [fatal]); a leading byte order
    mark is dropped ([ignoreBOM] is off). *)

Module TextDecoder.

Record state := {
  code_point : N;
  bytes_seen : N;
  bytes_needed : N;
  lower_boundary : N;
  upper_boundary : N;
  BOM_seen : bool
}.

Definition fresh : state :=
  {| code_point := 0; bytes_seen := 0; bytes_needed := 0;
     lower_boundary := 128; upper_boundary := 191; BOM_seen := false |}.

Definition idle (st : state) : state :=
  {| code_point := 0; bytes_seen := 0; bytes_needed := 0;
     lower_boundary := 128; upper_boundary := 191; BOM_seen := BOM_seen st |}.

Definition expect (st : state) (needed cp lo hi : N) : state :=
  {| code_point := cp; bytes_seen := 0; bytes_needed := needed;
     lower_boundary := lo; upper_boundary := hi; BOM_seen := BOM_seen st |}.

Definition within (lo hi b : N) : bool := (lo <=? b) && (b <=? hi).

(** A byte read when no sequence is open. *)
Definition lead (st : state) (b : N) : state * list N :=
  if within 0 127 b then (idle st, [b])
  else if within 194 223 b then (expect st 1 (N.land b 31) 128 191, [])
  else if within 224 239 b then
    (expect st 2 (N.land b 15)
       (if b =? 224 then 160 else 128) (if b =? 237 then 159 else 191), [])
  else if within 240 244 b then
    (expect st 3 (N.land b 7)
       (if b =? 240 then 144 else 128) (if b =? 244 then 143 else 191), [])
  else (idle st, [65533]).

(** The decoder's handler: the code points one byte gives rise to.  A byte
    that cannot continue the open sequence closes it with U+FFFD and is
    read again as a lead byte. *)
Definition handler (st : state) (b : N) : state * list N :=
  if bytes_needed st =? 0 then lead st b
  else if within (lower_boundary st) (upper_boundary st) b then
    let cp := N.lor (N.shiftl (code_point st) 6) (N.land b 63) in
    if bytes_seen st + 1 =? bytes_needed st then (idle st, [cp])
    else ({| code_point := cp; bytes_seen := bytes_seen st + 1;
             bytes_needed := bytes_needed st;
             lower_boundary := 128; upper_boundary := 191;
             BOM_seen := BOM_seen st |}, [])
  else let '(st', out) := lead (idle st) b in (st', 65533 :: out).

(** Output of one code point: the first one of the stream is dropped when
    it is the byte order mark. *)
Definition output (st : state) (c : N) : state * list N :=
  if BOM_seen st then (st, [c])
  else
    let st' := {| code_point := code_point st; bytes_seen := bytes_seen st;
                  bytes_needed := bytes_needed st;
                  lower_boundary := lower_boundary st;
                  upper_boundary := upper_boundary st; BOM_seen := true |} in
    (st', if c =? 65279 then [] else [c]).

Fixpoint outputs (st : state) (cs : list N) : state * list N :=
  match cs with
  | [] => (st, [])
  | c :: rest =>
      let '(st1, o1) := output st c in
      let '(st2, o2) := outputs st1 rest in
      (st2, o1 ++ o2)
  end.

Definition push (st : state) (b : byte) : state * list N :=
  let '(st1, cs) := handler st (Byte.to_N b) in outputs st1 cs.

(** [decoder.decode(value, { stream: true })] *)
Fixpoint decode (st : state) (value : list byte) : state * jsstring :=
  match value with
  | [] => (st, [])
  | b :: rest =>
      let '(st1, o1) := push st b in
      let '(st2, o2) := decode st1 rest in
      (st2, o1 ++ o2)
  end.

End TextDecoder.

(** U+00E9 arrives as C3 A9; cut between the two bytes, the first call
    yields nothing and the second the character. *)
Example decode_split_character :
  let '(st1, o1) := TextDecoder.decode TextDecoder.fresh [xc3] in
  let '(_, o2) := TextDecoder.decode st1 [xa9] in
  (o1, o2) = ([], [233]).
Proof. reflexivity. Qed.

Example decode_euro_sign :
  snd (TextDecoder.decode TextDecoder.fresh [xe2; x82; xac]) = [8364].
Proof. reflexivity. Qed.

Example decode_malformed :
  snd (TextDecoder.decode TextDecoder.fresh [xc3; x41; xff]) = [65533; 65; 65533].
Proof. reflexivity. Qed.

Example decode_bom :
  snd (TextDecoder.decode TextDecoder.fresh [xef; xbb; xbf; x41]) = [65].
Proof. reflexivity. Qed.

(** ** What [fetch] resolves to *)

Module Fetch.
Section Fetch.
Context `{JSNumber}.

(** The body as the reader delivers it: the chunks, then either the end of
    the stream ([None]) or a rejected [read()] (a network failure, or an
    [AbortError] when the caller aborts). *)
Record body_stream := {
  chunks : list (list byte);
  rejection : option error
}.

Record response := {
  status : N;
  statusText : jsstring;
  content_type : option jsstring;   (* headers.get("content-type") *)
  json_body : outcome json;         (* how response.json() settles *)
  body : option body_stream         (* response.body, null when absent *)
}.

Definition ok (r : response) : bool := (200 <=? status r) && (status r <=? 299).

End Fetch.
End Fetch.
Export Fetch.

(** ** [StreamManager.streamRequest] *)

Module StreamManager.
Section StreamManager.
Context `{JSNumber} `{!JSONParser}.

(** Of the [let] variables of a call, [fullText] is the one assigned inside
    a [try] block: it is the state of the computation.  [buffer] and the
    decoder are carried by the reading loop. *)
Definition locals : Type := jsstring.

Definition initial : locals := [].

(** [fullText += v] *)
Definition append_fullText (v : json) : Eff locals unit :=
  s <- lift_option (ToString v) TypeError ;;
  modify (fun fullText => fullText ++ s).

(** [`Bearer ${apiKey}`] *)
Definition bearer (apiKey : jsstring) : jsstring := lit "Bearer " ++ apiKey.

(** The message of the error thrown for a response that is not [ok]. *)
Definition api_error_message (response : response) : Eff locals jsstring :=
  let errorMsg := lit "API Error " ++ of_N (status response) in
  try_catch
    (errorJson <- await (json_body response) ;;
     let message := opt_get (opt_get (Some errorJson) (lit "error")) (lit "message") in
     match message with
     | Some m =>
         if truthy message then
           text <- lift_option (ToString m) TypeError ;;
           ret (errorMsg ++ lit ": " ++ text)
         else ret errorMsg
     | None => ret errorMsg
     end)
    (fun e => ret (errorMsg ++ lit ": " ++ statusText response)).

(** The [while (true)] loop over [reader.read()], common to both revisions
    of the file; [on_line] is the body of the inner [for]. *)
Fixpoint read_loop (on_line : jsstring -> Eff locals unit)
    (chunks : list (list byte)) (rejection : option error)
    (decoder : TextDecoder.state) (buffer : jsstring) : Eff locals unit :=
  match chunks with
  | [] =>
      match rejection with
      | Some e => throw e
      | None => ret tt                     (* done: break *)
      end
  | value :: rest =>
      let '(decoder, chunk) := TextDecoder.decode decoder value in
      let lines := split 10 (buffer ++ chunk) in
      let buffer := List.last lines [] in  (* lines.pop(), or the empty string *)
      for_of (removelast lines) on_line ;;;
      read_loop on_line rest rejection decoder buffer
  end.

(** The outer [catch].  Reading [error.name] throws a [TypeError] when what
    was caught is [null] or [undefined]; nothing catches that one. *)
Definition on_failure (onError : Callback error) (error : thrown) : Eff locals unit :=
  match error with
  | Nullish => throw TypeError
  | Value error =>
      if JSString.eqb (name error) (lit "AbortError")
      then emit (ConsoleLog (lit "Stream aborted"))
      else emit (ConsoleError error) ;;; call onError error
  end.

(** [{ ...requestBody, stream: true }] *)
Definition with_stream (requestBody : list (jsstring * json)) : list (jsstring * json) :=
  set_own (lit "stream") (JBool true) requestBody.

(** *** Revision of [src/streamManager.ts] *)

Definition on_line_v1 (onToken : Callback json) (line : jsstring) : Eff locals unit :=
  let trimmed := trim line in
  if negb (truthy (Some (JStr trimmed))) || JSString.eqb trimmed (lit "data: [DONE]")
  then ret tt                              (* continue *)
  else if startsWith (lit "data: ") trimmed then
    try_catch
      (data <- lift_option (JSON_parse (slice 6 trimmed)) SyntaxError ;;
       choices <- member (Some data) (lit "choices") ;;
       let delta := opt_get (opt_get (opt_index0 choices) (lit "delta")) (lit "content") in
       when_truthy delta (fun delta =>
          append_fullText delta ;;;
          call onToken delta) ;;;
       choices <- member (Some data) (lit "choices") ;;
       if truthy (opt_get (opt_index0 choices) (lit "finish_reason"))
       then ret tt else ret tt)
      (fun e => emit (ConsoleWarn line))
  else ret tt.

(** [net] is how the [fetch] call settles.  The [abortController] argument
    is not a parameter here: its effect is an [AbortError] thrown by [fetch]
    or by a read of the body, which is part of [net].  (A caller that aborts
    with a reason of its own gets that reason thrown instead; it is an
    object here, as all that the platform throws.) *)
Definition streamRequest_v1 (net : outcome response)
    (url apiKey : jsstring) (requestBody : list (jsstring * json))
    (onToken : Callback json) (onError : Callback error)
    (onComplete : Callback json) : Eff locals unit :=
  try_catch
    (emit (HttpRequest (lit "POST") url (bearer apiKey)
             (Some (JObj (with_stream requestBody)))) ;;;
     response <- await net ;;
     (if negb (ok response) then
        errorMsg <- api_error_message response ;;
        throw (Error errorMsg)
      else ret tt) ;;;
     match body response with
     | None => throw (Error (lit "No response body"))
     | Some stream =>
         read_loop (on_line_v1 onToken) (chunks stream) (rejection stream)
           TextDecoder.fresh [] ;;;
         fullText <- read ;;
         call onComplete (JStr fullText)
     end)
    (on_failure onError).

(** *** Revision with the reasoning callback and the JSON fallback
        ([src/unnamed/part_000]) *)

Definition on_line (onToken : Callback json) (onReasoning : option (Callback json))
    (line : jsstring) : Eff locals unit :=
  let trimmed := trim line in
  if negb (truthy (Some (JStr trimmed))) || JSString.eqb trimmed (lit "data: [DONE]")
  then ret tt                              (* continue *)
  else if startsWith (lit "data: ") trimmed then
    try_catch
      (data <- lift_option (JSON_parse (slice 6 trimmed)) SyntaxError ;;
       choices <- member (Some data) (lit "choices") ;;
       when_truthy (opt_get (opt_index0 choices) (lit "delta")) (fun delta =>
         when_truthy (get delta (lit "content")) (fun content =>
           append_fullText content ;;;
           call onToken content) ;;;
         match onReasoning with
         | Some onReasoning => when_truthy (get delta (lit "reasoning")) (call onReasoning)
         | None => ret tt
         end))
      (fun e => emit (ConsoleWarn line))
  else ret tt.

(** [content.includes("<think>")] for a value that is a string, or any other
    truthy JSON value: arrays have an [includes] of their own, the rest have
    none and the call throws. *)
Definition content_includes_think (content : json) : Eff locals bool :=
  match content with
  | JStr s => ret (includes (lit "<think>") s)
  | JArr items =>
      ret (existsb (fun x => match x with
                             | JStr s => JSString.eqb s (lit "<think>")
                             | _ => false
                             end) items)
  | _ => throw TypeError
  end.

(** [content.match(/<think>([\s\S]*?)<\/think>/)], group 1. *)
Definition content_match_think (content : json) : Eff locals (option jsstring) :=
  match content with
  | JStr s => ret (think_match s)
  | _ => throw TypeError
  end.

(** The single-document branch, entered when the content type declares JSON. *)
Definition fallback (response : response) (onToken onComplete : Callback json)
    (onReasoning : option (Callback json)) : Eff locals unit :=
  json <- await (json_body response) ;;
  choices <- member (Some json) (lit "choices") ;;
  when_truthy (opt_index0 choices) (fun choice =>
    let content := or_else (opt_get (get choice (lit "message")) (lit "content")) (JStr []) in
    let reasoning := or_else (opt_get (get choice (lit "message")) (lit "reasoning")) (JStr []) in
    match truthy (Some reasoning), onReasoning with
    | true, Some onReasoning => call onReasoning reasoning
    | _, _ =>
        found <- content_includes_think content ;;
        if found then
          thinkMatch <- content_match_think content ;;
          match thinkMatch, onReasoning with
          | Some inner, Some onReasoning => call onReasoning (JStr inner)
          | _, _ => ret tt
          end
        else ret tt
    end ;;;
    when_truthy (Some content) (call onToken) ;;;
    call onComplete content).

(** The arguments are those of the source but for [abortController] (see
    [streamRequest_v1]); an absent [onReasoning] is [None]. *)
Definition streamRequest (net : outcome response)
    (url apiKey : jsstring) (requestBody : list (jsstring * json))
    (onToken : Callback json) (onError : Callback error)
    (onComplete : Callback json) (onReasoning : option (Callback json))
    : Eff locals unit :=
  try_catch
    (emit (HttpRequest (lit "POST") url (bearer apiKey)
             (Some (JObj (with_stream requestBody)))) ;;;
     response <- await net ;;
     (if negb (ok response) then
        errorMsg <- api_error_message response ;;
        throw (Error errorMsg)
      else ret tt) ;;;
     match body response with
     | None => throw (Error (lit "No response body"))
     | Some stream =>
         let contentType := match content_type response with
                            | Some (c :: t) => c :: t
                            | _ => []
                            end in
         if includes (lit "application/json") contentType then
           fallback response onToken onComplete onReasoning   (* then return *)
         else
           read_loop (on_line onToken onReasoning) (chunks stream) (rejection stream)
             TextDecoder.fresh [] ;;;
           fullText <- read ;;
           call onComplete (JStr fullText)
     end)
    (on_failure onError).

End StreamManager.
End StreamManager.

(** ** A platform to run the model on

    Numbers are the integers, printed in decimal; [JSON.parse] reads JSON
    whose numbers are integer literals.  This instance is what the examples
    below are evaluated with; the theorems hold for every platform. *)

Module Platform.

Definition Z_to_string (z : Z) : jsstring :=
  match z with
  | Zneg p => lit "-" ++ of_N (Npos p)
  | _ => of_N (Z.to_N z)
  end.

#[export] Instance integers : JSNumber :=
  {| number := Z; number_is_zero := Z.eqb 0; number_to_string := Z_to_string |}.

Fixpoint skip_ws (s : jsstring) : jsstring :=
  match s with
  | c :: s' => if (c =? 32) || (c =? 9) || (c =? 10) || (c =? 13) then skip_ws s' else s
  | [] => []
  end.

Definition digit (c : N) : option N :=
  if (48 <=? c) && (c <=? 57) then Some (c - 48) else None.

Definition hex_digit (c : N) : option N :=
  if (48 <=? c) && (c <=? 57) then Some (c - 48)
  else if (97 <=? c) && (c <=? 102) then Some (c - 87)
  else if (65 <=? c) && (c <=? 70) then Some (c - 55)
  else None.

Fixpoint digits (acc : N) (s : jsstring) : N * jsstring :=
  match s with
  | c :: s' => match digit c with Some d => digits (10 * acc + d) s' | None => (acc, s) end
  | [] => (acc, [])
  end.

(** An integer literal: no leading zero, no fraction, no exponent. *)
Definition parse_number (s : jsstring) : option (Z * jsstring) :=
  let '(neg, s1) := match s with 45 :: r => (true, r) | _ => (false, s) end in
  match s1 with
  | c :: r =>
      match digit c with
      | Some d =>
          let '(n, rest) := if d =? 0 then (0, r) else digits d r in
          match rest with
          | 46 :: _ | 101 :: _ | 69 :: _ => None
          | c' :: _ => if (d =? 0) && (48 <=? c') && (c' <=? 57) then None
                       else Some (if neg then (- Z.of_N n)%Z else Z.of_N n, rest)
          | [] => Some (if neg then (- Z.of_N n)%Z else Z.of_N n, rest)
          end
      | None => None
      end
  | [] => None
  end.

(** The characters of a string literal, after the opening quote. *)
Fixpoint parse_chars (s : jsstring) : option (jsstring * jsstring) :=
  match s with
  | 34 :: rest => Some ([], rest)
  | 92 :: 117 :: a :: b :: c :: d :: rest =>
      match hex_digit a, hex_digit b, hex_digit c, hex_digit d, parse_chars rest with
      | Some a, Some b, Some c, Some d, Some (t, r) =>
          Some (((a * 16 + b) * 16 + c) * 16 + d :: t, r)
      | _, _, _, _, _ => None
      end
  | 92 :: e :: rest =>
      let unescaped :=
        if (e =? 34) || (e =? 92) || (e =? 47) then Some e
        else if e =? 98 then Some 8 else if e =? 102 then Some 12
        else if e =? 110 then Some 10 else if e =? 114 then Some 13
        else if e =? 116 then Some 9 else None in
      match unescaped, parse_chars rest with
      | Some c, Some (t, r) => Some (c :: t, r)
      | _, _ => None
      end
  | c :: rest =>
      if c <? 32 then None
      else match parse_chars rest with
           | Some (t, r) => Some (c :: t, r)
           | None => None
           end
  | [] => None
  end.

Fixpoint parse_value (fuel : nat) (s : jsstring) : option (json * jsstring) :=
  match fuel with
  | O => None
  | S fuel =>
      match skip_ws s with
      | 110 :: 117 :: 108 :: 108 :: r => Some (JNull, r)
      | 116 :: 114 :: 117 :: 101 :: r => Some (JBool true, r)
      | 102 :: 97 :: 108 :: 115 :: 101 :: r => Some (JBool false, r)
      | 34 :: r =>
          match parse_chars r with
          | Some (str, r') => Some (JStr str, r')
          | None => None
          end
      | 91 :: r =>
          match skip_ws r with
          | 93 :: r' => Some (JArr [], r')
          | _ => parse_elements fuel r []
          end
      | 123 :: r =>
          match skip_ws r with
          | 125 :: r' => Some (JObj [], r')
          | _ => parse_members fuel r []
          end
      | s' =>
          match parse_number s' with
          | Some (z, r) => Some (JNum z, r)
          | None => None
          end
      end
  end
with parse_elements (fuel : nat) (s : jsstring) (acc : list json)
    : option (json * jsstring) :=
  match fuel with
  | O => None
  | S fuel =>
      match parse_value fuel s with
      | Some (v, r) =>
          match skip_ws r with
          | 44 :: r' => parse_elements fuel r' (acc ++ [v])
          | 93 :: r' => Some (JArr (acc ++ [v]), r')
          | _ => None
          end
      | None => None
      end
  end
with parse_members (fuel : nat) (s : jsstring) (acc : list (jsstring * json))
    : option (json * jsstring) :=
  match fuel with
  | O => None
  | S fuel =>
      match skip_ws s with
      | 34 :: r =>
          match parse_chars r with
          | Some (k, r1) =>
              match skip_ws r1 with
              | 58 :: r2 =>
                  match parse_value fuel r2 with
                  | Some (v, r3) =>
                      match skip_ws r3 with
                      | 44 :: r4 => parse_members fuel r4 (set_own k v acc)
                      | 125 :: r4 => Some (JObj (set_own k v acc), r4)
                      | _ => None
                      end
                  | None => None
                  end
              | _ => None
              end
          | None => None
          end
      | _ => None
      end
  end.

Definition parse (text : jsstring) : option json :=
  match parse_value (2 * length text + 2) text with
  | Some (v, rest) => match skip_ws rest with [] => Some v | _ => None end
  | None => None
  end.

#[export] Instance parser : JSONParser := {| JSON_parse := parse |}.

End Platform.

(** JSON text is written with apostrophes standing for the double quotes. *)
Definition text (s : string) : jsstring :=
  List.map (fun c => if c =? 39 then 34 else c) (lit s).

Example parse_hello :
  Platform.parse (text "{'choices':[{'message':{'content':'Hello'}}]}")
  = Some (JObj [(lit "choices",
                 JArr [JObj [(lit "message", JObj [(lit "content", JStr (lit "Hello"))])]])]).
Proof. reflexivity. Qed.

Example parse_rejects : Platform.parse (text "{'choices':[") = None.
Proof. reflexivity. Qed.

(** ** The plugin: [OpenRouterProvider] of [src/main.ts] *)

Module OpenRouterProvider.
Section OpenRouterProvider.
Context `{JSNumber} `{!JSONParser}.

(** [this.settings]; of the two objects used as dictionaries the record
    holds the own properties: they are read with [object_get] and written
    with [object_set]. *)
Record OpenRouterSettings := {
  apiKey : jsstring;
  apiUrl : jsstring;
  favoriteModels : list jsstring;
  modelContextLengths : gmap jsstring number;
  pluginModels : gmap jsstring jsstring
}.

Definition DEFAULT_SETTINGS : OpenRouterSettings :=
  {| apiKey := [];
     apiUrl := lit "https://openrouter.ai/api/v1/chat/completions";
     favoriteModels := [lit "google/gemini-2.0-flash-exp:free";
                        lit "openai/gpt-4o-mini";
                        lit "anthropic/claude-3-haiku"];
     modelContextLengths := ∅;
     pluginModels := ∅ |}.

Record RequestBody := {
  model : jsstring;
  extra : list (jsstring * json)          (* messages and free-form fields *)
}.

Definition payload (requestBody : RequestBody) : list (jsstring * json) :=
  (lit "model", JStr (model requestBody)) :: extra requestBody.

(** What [requestUrl] resolves to; reading [json] may throw. *)
Record RequestUrlResponse := {
  status : N;
  json : outcome JS.json
}.

Definition saveSettings : Eff OpenRouterSettings unit := emit SaveData.

(** [a || b] on strings that may be [undefined]. *)
Definition string_or (a : option jsstring) (b : jsstring) : jsstring :=
  match a with
  | Some (c :: t) => c :: t
  | _ => b
  end.

Definition getApiKey : Eff OpenRouterSettings jsstring :=
  s <- read ;; ret (apiKey s).

Definition setApiKey (key : jsstring) : Eff OpenRouterSettings unit :=
  modify (fun s => {| apiKey := key; apiUrl := apiUrl s;
                      favoriteModels := favoriteModels s;
                      modelContextLengths := modelContextLengths s;
                      pluginModels := pluginModels s |}) ;;;
  saveSettings.

(** [pluginModels[pluginId] || favoriteModels[0] || "google/..."]: the
    first operand is read on a plain object, so that for a [pluginId] that
    names a property of [Object.prototype] and has no entry of its own the
    answer is the inherited value, which is truthy and not a string. *)
Definition getModel (pluginId : jsstring) : Eff OpenRouterSettings (property jsstring) :=
  s <- read ;;
  ret (match object_get (pluginModels s) pluginId with
       | Some (Own (c :: t)) => Own (c :: t)
       | Some (Inherited k) => Inherited k
       | _ => Own (string_or (head (favoriteModels s))
                     (lit "google/gemini-2.0-flash-exp:free"))
       end).

Definition setModel (pluginId modelId : jsstring) : Eff OpenRouterSettings unit :=
  modify (fun s => {| apiKey := apiKey s; apiUrl := apiUrl s;
                      favoriteModels := favoriteModels s;
                      modelContextLengths := modelContextLengths s;
                      pluginModels := object_set (pluginModels s) pluginId modelId |}) ;;;
  saveSettings ;;;
  emit (ConsoleLog (lit "Plugin model saved:")).

Definition getFavorites : Eff OpenRouterSettings (list jsstring) :=
  s <- read ;; ret (favoriteModels s).

(** [favorites.includes(modelId)] *)
Definition array_includes (favorites : list jsstring) (modelId : jsstring) : bool :=
  existsb (JSString.eqb modelId) favorites.

Definition addFavorite (modelId : jsstring) (contextLength : option number)
    : Eff OpenRouterSettings unit :=
  s <- read ;;
  let favorites := favoriteModels s in
  (if negb (array_includes favorites modelId) then
     modify (fun s => {| apiKey := apiKey s; apiUrl := apiUrl s;
                         favoriteModels := favorites ++ [modelId];   (* push *)
                         modelContextLengths := modelContextLengths s;
                         pluginModels := pluginModels s |})
   else ret tt) ;;;
  match contextLength with
  | Some n =>
      if negb (number_is_zero n) then
        modify (fun s => {| apiKey := apiKey s; apiUrl := apiUrl s;
                            favoriteModels := favoriteModels s;
                            modelContextLengths :=
                              object_set (modelContextLengths s) modelId n;
                            pluginModels := pluginModels s |})
      else ret tt
  | None => ret tt
  end ;;;
  saveSettings ;;;
  emit (ConsoleLog (lit "Favorites saved:")).

Definition removeFavorite (modelId : jsstring) : Eff OpenRouterSettings unit :=
  modify (fun s => {| apiKey := apiKey s; apiUrl := apiUrl s;
                      favoriteModels :=
                        List.filter (fun m => negb (JSString.eqb m modelId)) (favoriteModels s);
                      modelContextLengths := modelContextLengths s;
                      pluginModels := pluginModels s |}) ;;;
  saveSettings ;;;
  emit (ConsoleLog (lit "Favorites after remove:")).

(** Lines 158-168 of [fetchCredits] reduce the two answers to a figure with
    floating-point arithmetic and [toFixed]; that part is the platform's. *)
Variable credit_figure : RequestUrlResponse -> RequestUrlResponse -> outcome jsstring.

(** [null] is [None]. *)
Definition fetchCredits (answers : outcome (RequestUrlResponse * RequestUrlResponse))
    : Eff OpenRouterSettings (option jsstring) :=
  s <- read ;;
  if negb (truthy (Some (JStr (apiKey s)))) then ret None
  else
    try_catch
      (emit (HttpRequest (lit "GET") (lit "https://openrouter.ai/api/v1/credits")
               (StreamManager.bearer (apiKey s)) None) ;;;
       emit (HttpRequest (lit "GET") (lit "https://openrouter.ai/api/v1/auth/key")
               (StreamManager.bearer (apiKey s)) None) ;;;
       both <- await answers ;;
       figure <- await (credit_figure (fst both) (snd both)) ;;
       ret (Some figure))
      (fun e => emit (ConsoleError e) ;;; ret None).

(** [response.json.choices[0].message.content = v], on a document whose
    [choices?.[0]?.message?.content] was found. *)
Definition assign_content (v : JS.json) (document : JS.json) : JS.json :=
  let in_message (message : JS.json) :=
    match message with
    | JObj props => JObj (set_own (lit "content") v props)
    | other => other
    end in
  let in_choice (choice : JS.json) :=
    match choice with
    | JObj props =>
        match own (lit "message") props with
        | Some message => JObj (set_own (lit "message") (in_message message) props)
        | None => choice
        end
    | other => other
    end in
  let in_choices (choices : JS.json) :=
    match choices with
    | JArr (first :: rest) => JArr (in_choice first :: rest)
    | JObj props =>
        match own (lit "0") props with
        | Some first => JObj (set_own (lit "0") (in_choice first) props)
        | None => choices
        end
    | other => other
    end in
  match document with
  | JObj props =>
      match own (lit "choices") props with
      | Some choices => JObj (set_own (lit "choices") (in_choices choices) props)
      | None => document
      end
  | other => other
  end.

(** "Clean <think> tags from reasoning models". *)
Definition clean_think (response : RequestUrlResponse)
    : Eff OpenRouterSettings RequestUrlResponse :=
  document <- await (json response) ;;
  let content :=
    opt_get (opt_get (opt_index0 (opt_get (Some document) (lit "choices")))
               (lit "message")) (lit "content") in
  match content with
  | Some c =>
      if truthy content then
        match c with
        | JStr s =>
            ret {| status := status response;
                   json := Returned (assign_content (JStr (trim (strip_think s))) document) |}
        | _ => throw TypeError              (* no [replace] on this value *)
        end
      else ret response
  | None => ret response
  end.

(** The message of the error thrown for a status of 400 and above. *)
Definition api_error_message (response : RequestUrlResponse)
    : Eff OpenRouterSettings jsstring :=
  let errorMsg := lit "API Error " ++ of_N (status response) in
  try_catch
    (errJson <- await (json response) ;;
     let message := opt_get (opt_get (Some errJson) (lit "error")) (lit "message") in
     match message with
     | Some m =>
         if truthy message then
           text <- lift_option (ToString m) TypeError ;;
           ret (errorMsg ++ lit ": " ++ text)
         else ret errorMsg
     | None => ret errorMsg
     end)
    (fun e => ret errorMsg).

(** One run of the [try] block of [fetchWithRetry]: it ends with [return
    response] ([inl]), with [continue] and the new delay ([inr]), or throws. *)
Definition attempt (transport : nat -> outcome RequestUrlResponse)
    (requestBody : RequestBody) (i : nat) (delay : Q)
    : Eff OpenRouterSettings (RequestUrlResponse + Q) :=
  emit (StatusBar setGenerating) ;;;
  s <- read ;;
  emit (HttpRequest (lit "POST") (apiUrl s) (StreamManager.bearer (apiKey s))
          (Some (JObj (payload requestBody)))) ;;;
  response <- await (transport i) ;;
  if status response =? 429 then
    emit (Notice (RateLimitNotice delay)) ;;;
    emit (StatusBar (setRateLimited delay)) ;;;
    emit (SetTimeout delay) ;;;
    ret (inr (delay * 2)%Q)
  else
    (if 400 <=? status response then
       errorMsg <- api_error_message response ;;
       throw (Error errorMsg)
     else ret tt) ;;;
    cleaned <- clean_think response ;;
    emit (StatusBar setSuccess) ;;;
    ret (inl cleaned).

(** The [for] loop, [remaining] iterations before [i < retries] fails; when
    it does the function ends without a [return], that is with [undefined]
    ([None]). *)
Fixpoint attempts (transport : nat -> outcome RequestUrlResponse)
    (requestBody : RequestBody) (retries : nat) (remaining i : nat) (delay : Q)
    : Eff OpenRouterSettings (option RequestUrlResponse) :=
  match remaining with
  | O => ret None
  | S remaining' =>
      step <- try_catch (attempt transport requestBody i delay)
                (fun error =>
                   if Nat.eqb i (retries - 1) then
                     emit (StatusBar (setError (lit "API Failed"))) ;;;
                     rethrow error
                   else
                     emit (SetTimeout delay) ;;;
                     ret (inr (delay * (3 # 2))%Q)) ;;
      match step with
      | inl response => ret (Some response)
      | inr delay' => attempts transport requestBody retries remaining' (S i) delay'
      end
  end.

(** [transport i] is how the request of iteration [i] settles.  [retries] is
    a count; [delay] is a number of milliseconds, kept exact. *)
Definition fetchWithRetry (transport : nat -> outcome RequestUrlResponse)
    (requestBody : RequestBody) (retries : nat) (delay : Q)
    : Eff OpenRouterSettings (option RequestUrlResponse) :=
  emit (StatusBar setConnecting) ;;;
  attempts transport requestBody retries retries 0 delay.

(** The defaults of the signature: [retries = 3], [delay = 2000]. *)
Definition fetchWithRetry_default (transport : nat -> outcome RequestUrlResponse)
    (requestBody : RequestBody) : Eff OpenRouterSettings (option RequestUrlResponse) :=
  fetchWithRetry transport requestBody 3 2000.

(** The method of the plugin; it delegates to the stream manager of
    [src/streamManager.ts]. *)
Definition streamRequest (net : outcome response) (requestBody : RequestBody)
    (onToken onComplete : Callback JS.json) (onError : Callback error)
    : Eff OpenRouterSettings unit :=
  s <- read ;;
  let apiKey := apiKey s in
  if negb (truthy (Some (JStr apiKey))) then
    emit (Notice ApiKeyMissingNotice)      (* return *)
  else
    emit (StatusBar setConnecting) ;;;
    (if includes (lit "deepseek") (model requestBody)
        || includes (lit "reasoner") (model requestBody)
     then emit (StatusBar setThinking) else ret tt) ;;;
    invoke
      (StreamManager.streamRequest_v1 net (apiUrl s) apiKey (payload requestBody)
         (fun token => emit (StatusBar updateProgress) ;;; call onToken token)
         (fun error => emit (StatusBar (setError (lit "Stream Error"))) ;;; call onError error)
         (fun fullText => emit (StatusBar setSuccess) ;;; call onComplete fullText))
      StreamManager.initial.

End OpenRouterProvider.
End OpenRouterProvider.

(** * Properties *)

(** ** The laws of [Eff] the proofs use *)

Section EffLaws.
Context `{JSNumber}.

Lemma bind_assoc {S A B C} (m : Eff S A) (f : A -> Eff S B) (g : B -> Eff S C) s :
  bind (bind m f) g s = bind m (fun a => bind (f a) g) s.
Proof.
  unfold bind. destruct (m s) as [[t s1] [[a|e]|]]; [|reflexivity|reflexivity].
  destruct (f a s1) as [[t1 s2] [[b|e]|]]; [|reflexivity|reflexivity].
  destruct (g b s2) as [[t2 s3] r]. now rewrite app_assoc.
Qed.

Lemma bind_ext {S A B} (m : Eff S A) (f g : A -> Eff S B) s :
  (forall a s', f a s' = g a s') -> bind m f s = bind m g s.
Proof.
  intros E. unfold bind. destruct (m s) as [[t s1] [[a|e]|]]; [|reflexivity|reflexivity].
  now rewrite E.
Qed.

Lemma bind_ret_l {S A B} (a : A) (f : A -> Eff S B) s : bind (ret a) f s = f a s.
Proof. unfold bind, ret. now destruct (f a s) as [[t s'] r]. Qed.

Lemma for_of_app {S A} (l1 l2 : list A) (body : A -> Eff S unit) s :
  for_of (l1 ++ l2) body s = bind (for_of l1 body) (fun _ => for_of l2 body) s.
Proof.
  revert s. induction l1 as [|x l1 IH]; intros s; simpl.
  - now rewrite bind_ret_l.
  - rewrite bind_assoc. apply bind_ext. intros _ s'. apply IH.
Qed.

Lemma bind_cong_l {S A B} (m m' : Eff S A) (f : A -> Eff S B) s :
  m s = m' s -> bind m f s = bind m' f s.
Proof. intros E. unfold bind. now rewrite E. Qed.

Lemma try_catch_cong {S A} (m m' : Eff S A) (h : thrown -> Eff S A) s :
  m s = m' s -> try_catch m h s = try_catch m' h s.
Proof. intros E. unfold try_catch. now rewrite E. Qed.

Lemma bind_await {S A B} (a : A) (f : A -> Eff S B) s :
  bind (await (Returned a)) f s = f a s.
Proof. unfold bind, await. now destruct (f a s) as [[t s'] r]. Qed.

Lemma bind_for_of_app {S A B} (l1 l2 : list A) (body : A -> Eff S unit)
    (k : unit -> Eff S B) s :
  bind (for_of (l1 ++ l2) body) k s =
  bind (for_of l1 body) (fun _ => bind (for_of l2 body) k) s.
Proof.
  rewrite (bind_cong_l _ _ _ _ (for_of_app l1 l2 body s)). apply bind_assoc.
Qed.

End EffLaws.

(** ** The preference store *)

Section Store.
Context `{JSNumber}.
Import OpenRouterProvider.

(** How often [id] occurs in a list of favourites. *)
Definition occurrences (id : jsstring) (l : list jsstring) : nat :=
  length (List.filter (JSString.eqb id) l).

Inductive favorite_op :=
| Add (modelId : jsstring) (contextLength : option number)
| Remove (modelId : jsstring).

Definition perform (op : favorite_op) : Eff OpenRouterSettings unit :=
  match op with
  | Add modelId contextLength => addFavorite modelId contextLength
  | Remove modelId => removeFavorite modelId
  end.

Lemma eqb_eq (a b : jsstring) : JSString.eqb a b = true <-> a = b.
Proof. unfold JSString.eqb. apply bool_decide_eq_true. Qed.

Lemma eqb_refl (a : jsstring) : JSString.eqb a a = true.
Proof. now apply eqb_eq. Qed.

Lemma array_includes_In (l : list jsstring) (id : jsstring) :
  array_includes l id = true <-> In id l.
Proof.
  unfold array_includes. rewrite existsb_exists. split.
  - intros (x & Hx & E). apply eqb_eq in E. now subst.
  - intros Hin. exists id. split; [assumption | apply eqb_refl].
Qed.

Lemma favorites_addFavorite id ctx s :
  favoriteModels (final (addFavorite id ctx s)) =
  if array_includes (favoriteModels s) id then favoriteModels s
  else favoriteModels s ++ [id].
Proof.
  unfold addFavorite, final, bind, read, modify, ret, saveSettings, emit.
  destruct (array_includes (favoriteModels s) id); simpl;
    destruct ctx as [n|]; simpl; try destruct (number_is_zero n); reflexivity.
Qed.

Lemma favorites_removeFavorite id s :
  favoriteModels (final (removeFavorite id s)) =
  List.filter (fun m => negb (JSString.eqb m id)) (favoriteModels s).
Proof. reflexivity. Qed.

Lemma NoDup_snoc (l : list jsstring) (id : jsstring) :
  ~ In id l -> List.NoDup l -> List.NoDup (l ++ [id]).
Proof.
  intros Hnot Hl. induction Hl as [|x l Hx Hl IH]; simpl.
  - constructor; [intros [] | constructor].
  - constructor.
    + rewrite in_app_iff. intros [Hin | [E | []]]; [contradiction|].
      subst. apply Hnot. now left.
    + apply IH. intros Hin. apply Hnot. now right.
Qed.

Lemma perform_NoDup op s :
  List.NoDup (favoriteModels s) -> List.NoDup (favoriteModels (final (perform op s))).
Proof.
  intros Hs. destruct op as [id ctx | id]; cbn [perform].
  - rewrite favorites_addFavorite.
    destruct (array_includes (favoriteModels s) id) eqn:E; [assumption|].
    apply NoDup_snoc; [|assumption].
    intros Hin. apply array_includes_In in Hin. congruence.
  - rewrite favorites_removeFavorite. now apply List.NoDup_filter.
Qed.

Lemma for_of_perform_NoDup ops s :
  List.NoDup (favoriteModels s) ->
  List.NoDup (favoriteModels (final (for_of ops perform s))).
Proof.
  revert s. induction ops as [|op ops IH]; intros s Hs; [assumption|].
  cbn [for_of]. unfold bind.
  pose proof (perform_NoDup op s Hs) as H1.
  destruct (perform op s) as [[t s1] [[[]|e]|]] eqn:E; cbn [final fst snd] in *.
  - specialize (IH s1 H1). destruct (for_of ops perform s1) as [[t' s2] r]. exact IH.
  - exact H1.
  - exact H1.
Qed.

Lemma occurrences_absent (l : list jsstring) id : ~ In id l -> occurrences id l = 0%nat.
Proof.
  unfold occurrences. induction l as [|x l IH]; simpl; [reflexivity|].
  intros Hnot. destruct (JSString.eqb id x) eqn:E.
  - apply eqb_eq in E. subst. exfalso. apply Hnot. now left.
  - apply IH. intros Hin. apply Hnot. now right.
Qed.

Lemma occurrences_NoDup (l : list jsstring) id :
  List.NoDup l -> In id l -> occurrences id l = 1%nat.
Proof.
  unfold occurrences. induction 1 as [|x l Hx Hl IH]; simpl; [intros []|].
  intros [E | Hin].
  - subst. rewrite eqb_refl. simpl. f_equal. now apply occurrences_absent.
  - destruct (JSString.eqb id x) eqn:E.
    + apply eqb_eq in E. subst. contradiction.
    + now apply IH.
Qed.

Lemma filter_absent (l : list jsstring) id :
  ~ In id l -> List.filter (fun m => negb (JSString.eqb m id)) l = l.
Proof.
  induction l as [|x l IH]; simpl; [reflexivity|].
  intros Hnot. destruct (JSString.eqb x id) eqn:E; simpl.
  - apply eqb_eq in E. subst. exfalso. apply Hnot. now left.
  - f_equal. apply IH. intros Hin. apply Hnot. now right.
Qed.

Lemma filter_sublist (f : jsstring -> bool) (l : list jsstring) :
  sublist (List.filter f l) l.
Proof.
  induction l as [|x l IH]; simpl; [constructor|].
  destruct (f x); now constructor.
Qed.

Lemma In_after_addFavorite id ctx s : In id (favoriteModels (final (addFavorite id ctx s))).
Proof.
  rewrite favorites_addFavorite.
  destruct (array_includes (favoriteModels s) id) eqn:E.
  - now apply array_includes_In.
  - apply in_or_app. right. now left.
Qed.

(** C8. Starting from a list of favourites without duplicates (the default
    settings are one), no sequence of [addFavorite] and [removeFavorite]
    calls produces a duplicate; after two [addFavorite(id)] calls in a row
    the list holds [id] exactly once; [removeFavorite(id)] leaves the list
    as it is when [id] is absent, and in every case keeps the remaining
    entries in their order. *)
Theorem favorites_never_duplicated (s0 : OpenRouterSettings) (ops : list favorite_op)
    (id : jsstring) (ctx1 ctx2 : option number) :
  List.NoDup (favoriteModels s0) ->
  let s := final (for_of ops perform s0) in
  List.NoDup (favoriteModels s)
  /\ occurrences id
       (favoriteModels (final ((addFavorite id ctx1 ;;; addFavorite id ctx2) s))) = 1%nat
  /\ (~ In id (favoriteModels s) ->
      favoriteModels (final (removeFavorite id s)) = favoriteModels s)
  /\ sublist (favoriteModels (final (removeFavorite id s))) (favoriteModels s).
Proof.
  intros H0 s. pose proof (for_of_perform_NoDup ops s0 H0) as Hs. fold s in Hs.
  split; [exact Hs|]. split; [|split].
  - pose proof (perform_NoDup (Add id ctx1) s Hs) as H1.
    pose proof (In_after_addFavorite id ctx1 s) as I1.
    cbn [perform] in H1. unfold bind.
    destruct (addFavorite id ctx1 s) as [[t s1] [[[]|e]|]] eqn:E1; cbn [final fst snd] in *.
    + pose proof (perform_NoDup (Add id ctx2) s1 H1) as H2.
      pose proof (In_after_addFavorite id ctx2 s1) as I2.
      cbn [perform] in H2.
      destruct (addFavorite id ctx2 s1) as [[t' s2] r] eqn:E2; cbn [final fst snd] in *.
      now apply occurrences_NoDup.
    + now apply occurrences_NoDup.
    + now apply occurrences_NoDup.
  - intros Hnot. rewrite favorites_removeFavorite. now apply filter_absent.
  - rewrite favorites_removeFavorite. apply filter_sublist.
Qed.

(** Reading back what was assigned, but at [__proto__]. *)
Lemma object_get_set {A} (o : gmap jsstring A) (k : jsstring) (v : A) :
  k <> lit "__proto__" -> object_get (object_set o k v) k = Some (Own v).
Proof.
  intros Hk. unfold object_get, object_set.
  destruct (o !! k); [now rewrite lookup_insert_eq|].
  rewrite bool_decide_eq_false_2 by exact Hk. now rewrite lookup_insert_eq.
Qed.

Lemma object_set_lookup {A} (o : gmap jsstring A) (k : jsstring) (v : A) :
  k <> lit "__proto__" -> object_set o k v !! k = Some v.
Proof.
  intros Hk. unfold object_set.
  destruct (o !! k); [apply lookup_insert_eq|].
  rewrite bool_decide_eq_false_2 by exact Hk. apply lookup_insert_eq.
Qed.

(** An assignment at one key changes no other key. *)
Lemma object_get_set_other {A} (o : gmap jsstring A) (k k' : jsstring) (v : A) :
  k <> k' -> object_get (object_set o k v) k' = object_get o k'.
Proof.
  intros Hk. unfold object_get, object_set.
  destruct (o !! k); [now rewrite lookup_insert_ne|].
  destruct (bool_decide _); [reflexivity | now rewrite lookup_insert_ne].
Qed.

(** The assignment at [__proto__] that stores nothing. *)
Lemma object_set_proto {A} (o : gmap jsstring A) (v : A) :
  o !! lit "__proto__" = None -> object_set o (lit "__proto__") v = o.
Proof.
  intros Ho. unfold object_set. rewrite Ho. now rewrite bool_decide_eq_true_2.
Qed.

(** An entry that exists stays an entry. *)
Lemma object_set_is_Some {A} (o : gmap jsstring A) (k k' : jsstring) (v : A) :
  is_Some (o !! k') -> is_Some (object_set o k v !! k').
Proof.
  intros Hk'. unfold object_set.
  assert (is_Some (<[k := v]> o !! k')) as Hi.
  { destruct (decide (k = k')) as [->|Hne];
      [rewrite lookup_insert_eq; eauto | now rewrite lookup_insert_ne]. }
  destruct (o !! k); [exact Hi|]. now destruct (bool_decide _).
Qed.

(** C9, as amended. For every caller other than [__proto__] and every
    non-empty model identifier, [setModel(caller, modelId)] followed by
    [getModel(caller)] returns [modelId]. *)
Theorem setModel_getModel_roundtrip (s : OpenRouterSettings) (caller modelId : jsstring) :
  caller <> lit "__proto__" ->
  modelId <> [] ->
  result ((setModel caller modelId ;;; getModel caller) s) = Returned (Own modelId).
Proof.
  intros Hc Hne.
  unfold setModel, getModel, result, bind, modify, read, ret, saveSettings, emit.
  cbn [fst snd pluginModels]. rewrite (object_get_set _ _ _ Hc).
  destruct modelId; [contradiction | reflexivity].
Qed.

End Store.

(** ** The retry controller *)

Section Retry.
Context `{JSNumber} `{!JSONParser}.
Import OpenRouterProvider.

(** Number of HTTP requests among the effects of a run. *)
Definition requests (t : list effect) : nat :=
  length (List.filter (fun x => match x with HttpRequest _ _ _ _ => true | _ => false end) t).

(** The timed waits of a run, in order. *)
Fixpoint waits (t : list effect) : list Q :=
  match t with
  | [] => []
  | SetTimeout delay :: rest => delay :: waits rest
  | _ :: rest => waits rest
  end.

Lemma waits_app t1 t2 : waits (t1 ++ t2) = waits t1 ++ waits t2.
Proof.
  induction t1 as [|x t1 IH]; simpl; [reflexivity|].
  destruct x; simpl; now rewrite ?IH.
Qed.

Lemma requests_app t1 t2 : (requests (t1 ++ t2) = requests t1 + requests t2)%nat.
Proof. unfold requests. now rewrite List.filter_app, length_app. Qed.

(** [choices?.[0]?.message?.content] of a document. *)
Definition message_content (document : JS.json) : option JS.json :=
  opt_get (opt_get (opt_index0 (opt_get (Some document) (lit "choices")))
             (lit "message")) (lit "content").

(** The request [fetchWithRetry] sends. *)
Definition request_of (s : OpenRouterSettings) (requestBody : RequestBody) : effect :=
  HttpRequest (lit "POST") (apiUrl s) (StreamManager.bearer (apiKey s))
    (Some (JObj (payload requestBody))).


Lemma api_error_message_pure response s :
  exists msg, api_error_message response s = ([], s, Returned msg).
Proof.
  unfold api_error_message, try_catch, bind, await, ret, lift_option, throw.
  destruct (json response) as [doc|e]; [|eauto].
  destruct (opt_get _ _) as [m|]; [|eauto].
  destruct (truthy (Some m)); [|eauto].
  destruct (ToString m); eauto.
Qed.

Lemma clean_think_pure response s :
  effects (clean_think response s) = [] /\ final (clean_think response s) = s.
Proof.
  unfold clean_think, bind, await, ret, throw, effects, final.
  destruct (json response) as [doc|e]; [|now split].
  destruct (opt_get _ _) as [c|]; [|now split].
  destruct (truthy (Some c)); [|now split].
  destruct c; now split.
Qed.

(** An attempt that throws has sent its request and done nothing else. *)
Lemma attempt_thrown transport requestBody i delay s e :
  result (attempt transport requestBody i delay s) = Thrown e ->
  attempt transport requestBody i delay s =
  ([StatusBar setGenerating; request_of s requestBody], s, Thrown e).
Proof.
  unfold attempt, bind, emit, read, await, ret, result. simpl.
  destruct (transport i) as [r|e0]; simpl.
  - destruct (status r =? 429); simpl; [discriminate|].
    destruct (400 <=? status r); simpl.
    + destruct (api_error_message_pure r s) as [msg ->]. simpl.
      intros [= <-]. reflexivity.
    + pose proof (clean_think_pure r s) as [Ht Hs].
      destruct (clean_think r s) as [[t s1] [[c|e1]|]];
        unfold effects, final in *; simpl in *; [discriminate| |discriminate].
      intros [= <-]. now subst.
  - intros [= <-]. reflexivity.
Qed.


Lemma attempts_failure transport requestBody retries n i delay s e :
  result (attempt transport requestBody i delay s) = Thrown e ->
  i <> (retries - 1)%nat ->
  attempts transport requestBody retries (S n) i delay s =
  let '(t, s', out) :=
    attempts transport requestBody retries n (S i) (delay * (3 # 2))%Q s in
  ([StatusBar setGenerating; request_of s requestBody; SetTimeout delay] ++ t, s', out).
Proof.
  intros Ht Hi. cbn [attempts]. unfold bind at 1, try_catch.
  rewrite (attempt_thrown _ _ _ _ _ _ Ht).
  apply Nat.eqb_neq in Hi. rewrite Hi.
  unfold bind, emit, ret. simpl.
  now destruct (attempts transport requestBody retries n (S i) (delay * (3 # 2))%Q s)
    as [[t s'] out].
Qed.

(** A failure of the attempt of index [retries - 1] reaches the caller. *)
Lemma attempts_last_failure transport requestBody retries n i delay s e :
  result (attempt transport requestBody i delay s) = Thrown e ->
  i = (retries - 1)%nat ->
  attempts transport requestBody retries (S n) i delay s =
  ([StatusBar setGenerating; request_of s requestBody;
    StatusBar (setError (lit "API Failed"))], s, Thrown e).
Proof.
  intros Ht Hi. cbn [attempts]. unfold bind at 1, try_catch.
  rewrite (attempt_thrown _ _ _ _ _ _ Ht).
  apply Nat.eqb_eq in Hi. rewrite Hi. reflexivity.
Qed.

Lemma attempt_success transport requestBody i delay s r document :
  transport i = Returned r -> status r <> 429 -> status r < 400 ->
  json r = Returned document ->
  (forall c, message_content document = Some c -> truthy (Some c) = true ->
             exists text, c = JStr text) ->
  exists response,
    attempt transport requestBody i delay s =
    ([StatusBar setGenerating; request_of s requestBody; StatusBar setSuccess],
     s, Returned (inl response))
    /\ status response = status r.
Proof.
  intros Ht Hne Hlt Hj Hc. unfold attempt, bind, emit, read, await, ret. rewrite Ht.
  apply N.eqb_neq in Hne. rewrite Hne.
  assert ((400 <=? status r) = false) as -> by (apply N.leb_gt; assumption).
  unfold clean_think, bind, await, ret, throw. rewrite Hj.
  fold (message_content document).
  destruct (message_content document) as [c|] eqn:Ec; [|eexists; split; reflexivity].
  destruct (truthy (Some c)) eqn:Tc; [|eexists; split; reflexivity].
  destruct (Hc c eq_refl Tc) as [text ->]. eexists; split; reflexivity.
Qed.


(** Every request answered 429: the loop runs out and the call returns
    [undefined]. *)
Definition always_rate_limited : nat -> outcome RequestUrlResponse :=
  fun _ => Returned {| status := 429; json := Thrown SyntaxError |}.



(** The default run of the same input: three requests, waits of 2, 4 and 8
    seconds, then [undefined]. *)
Example rate_limited_default_run (s : OpenRouterSettings) (requestBody : RequestBody) :
  let run := fetchWithRetry_default always_rate_limited requestBody s in
  result run = Returned None /\ waits (effects run) = [2000; 2000 * 2; 2000 * 2 * 2]%Q.
Proof. split; reflexivity. Qed.

(** ** The credential guard *)

Definition ok_response : RequestUrlResponse :=
  {| status := 200; json := Returned (JObj []) |}.

Lemma streamRequest_without_key net requestBody onToken onComplete onError s :
  apiKey s = [] ->
  streamRequest net requestBody onToken onComplete onError s =
  ([Notice ApiKeyMissingNotice], s, Returned tt).
Proof. intros E. unfold streamRequest, bind, read, emit. simpl. now rewrite E. Qed.

Lemma fetchCredits_without_key credit_figure answers s :
  apiKey s = [] -> fetchCredits credit_figure answers s = ([], s, Returned None).
Proof. intros E. unfold fetchCredits, bind, read, ret. simpl. now rewrite E. Qed.

(** C2, at the failing input. With the empty API key of the default settings
    [fetchWithRetry] does not stop: it sends the request, with the
    authorization header [Bearer ] followed by nothing, and returns what the
    transport answers. *)
Theorem fetchWithRetry_sends_without_key (requestBody : RequestBody) (delay : Q) :
  apiKey DEFAULT_SETTINGS = []
  /\ fetchWithRetry (fun _ => Returned ok_response) requestBody 3 delay DEFAULT_SETTINGS =
     ([StatusBar setConnecting; StatusBar setGenerating;
       HttpRequest (lit "POST") (apiUrl DEFAULT_SETTINGS) (lit "Bearer ")
         (Some (JObj (payload requestBody)));
       StatusBar setSuccess],
      DEFAULT_SETTINGS, Returned (Some ok_response)).
Proof. split; reflexivity. Qed.

End Retry.

(** ** The streaming decoder *)

Section SplitLemmas.

Lemma split_not_nil sep s : split sep s <> [].
Proof.
  destruct s as [|c s]; simpl; [discriminate|].
  destruct (c =? sep); [discriminate|].
  destruct (split sep s); discriminate.
Qed.

Lemma last_app_r {A} (l l' : list A) d : l' <> [] -> List.last (l ++ l') d = List.last l' d.
Proof.
  intros Hne. induction l as [|x l IH]; simpl; [reflexivity|].
  destruct (l ++ l') eqn:E; [|assumption].
  apply app_eq_nil in E. destruct E. contradiction.
Qed.

(** Splitting a text that grows: the complete lines stay, the last piece is
    continued. *)
Lemma split_app sep x y :
  split sep (x ++ y) =
  removelast (split sep x) ++ split sep (List.last (split sep x) [] ++ y).
Proof.
  induction x as [|c x IH]; simpl; [reflexivity|].
  destruct (c =? sep) eqn:E.
  - rewrite IH. pose proof (split_not_nil sep x) as Hne.
    destruct (split sep x) as [|p rest]; [contradiction|]. reflexivity.
  - rewrite IH. pose proof (split_not_nil sep x) as Hne.
    destruct (split sep x) as [|p [|q rest]]; [contradiction| |].
    + simpl. rewrite E. reflexivity.
    + remember (q :: rest) as tail. simpl.
      destruct tail as [|q' rest']; [discriminate|]. reflexivity.
Qed.

(** A line without separator followed by the separator is one piece. *)
Lemma split_line sep line rest :
  forallb (fun c => negb (c =? sep)) line = true ->
  split sep (line ++ sep :: rest) = line :: split sep rest.
Proof.
  induction line as [|c line IH]; simpl.
  - intros _. now rewrite N.eqb_refl.
  - intros Hc. apply andb_true_iff in Hc as [Hc Hl].
    apply negb_true_iff in Hc. rewrite Hc, (IH Hl). reflexivity.
Qed.

End SplitLemmas.

Section Decoder.
Context `{JSNumber} `{!JSONParser}.
Import StreamManager.

Lemma decode_app st a b :
  TextDecoder.decode st (a ++ b) =
  let '(st1, o1) := TextDecoder.decode st a in
  let '(st2, o2) := TextDecoder.decode st1 b in
  (st2, o1 ++ o2).
Proof.
  revert st. induction a as [|x a IH]; intros st; simpl.
  - now destruct (TextDecoder.decode st b).
  - destruct (TextDecoder.push st x) as [st1 o1]. rewrite IH.
    destruct (TextDecoder.decode st1 a) as [st2 o2].
    destruct (TextDecoder.decode st2 b) as [st3 o3].
    now rewrite app_assoc.
Qed.

(** Two reads in a row do what one read of the two chunks together does. *)
Lemma read_loop_merge on_line c1 c2 rest rejection decoder buffer fullText :
  read_loop on_line (c1 :: c2 :: rest) rejection decoder buffer fullText =
  read_loop on_line ((c1 ++ c2) :: rest) rejection decoder buffer fullText.
Proof.
  cbn [read_loop]. rewrite decode_app.
  destruct (TextDecoder.decode decoder c1) as [st1 t1].
  destruct (TextDecoder.decode st1 c2) as [st2 t2].
  rewrite (app_assoc buffer t1 t2), (split_app 10 (buffer ++ t1) t2).
  set (L1 := split 10 (buffer ++ t1)).
  set (L2 := split 10 (List.last L1 [] ++ t2)).
  assert (L2 <> []) as Hne by apply split_not_nil.
  rewrite removelast_app, last_app_r by assumption.
  now rewrite bind_for_of_app.
Qed.

(** Chunk by chunk or all at once: the reading loop does the same. *)
Lemma read_loop_concat on_line chunks rejection fullText :
  read_loop on_line chunks rejection TextDecoder.fresh [] fullText =
  read_loop on_line [concat chunks] rejection TextDecoder.fresh [] fullText.
Proof.
  destruct chunks as [|c chunks].
  - cbn. unfold bind, ret. now destruct rejection.
  - generalize TextDecoder.fresh as decoder. generalize (@nil N) as buffer.
    revert c. induction chunks as [|c2 chunks IH]; intros c buffer decoder.
    + simpl concat. now rewrite app_nil_r.
    + rewrite read_loop_merge, IH. simpl concat. now rewrite app_assoc.
Qed.

(** The response [r] with a body delivered as [chunks]. *)
Definition with_chunks (r : response) (chunks : list (list byte))
    (rejection : option error) : response :=
  {| status := status r; statusText := statusText r;
     content_type := content_type r; json_body := json_body r;
     body := Some {| chunks := chunks; rejection := rejection |} |}.

(** C7. However the bytes of the body are cut into chunks (inside a
    character, inside a line, anywhere) the reading loop, and with it
    [streamRequest] in both revisions, performs the same calls in the same
    order as on the whole body delivered as one chunk. *)
Theorem chunk_boundary_independence (r : response) (chunks : list (list byte))
    (rejection : option error) (url apiKey : jsstring)
    (requestBody : list (jsstring * json))
    (onToken onComplete : Callback json) (onError : Callback error)
    (onReasoning : option (Callback json)) :
  (forall on_line fullText,
     read_loop on_line chunks rejection TextDecoder.fresh [] fullText =
     read_loop on_line [concat chunks] rejection TextDecoder.fresh [] fullText)
  /\ streamRequest (Returned (with_chunks r chunks rejection)) url apiKey requestBody
       onToken onError onComplete onReasoning initial =
     streamRequest (Returned (with_chunks r [concat chunks] rejection)) url apiKey
       requestBody onToken onError onComplete onReasoning initial
  /\ streamRequest_v1 (Returned (with_chunks r chunks rejection)) url apiKey requestBody
       onToken onError onComplete initial =
     streamRequest_v1 (Returned (with_chunks r [concat chunks] rejection)) url apiKey
       requestBody onToken onError onComplete initial.
Proof.
  split; [intros; apply read_loop_concat|]. split.
  - unfold streamRequest. apply try_catch_cong, bind_ext. intros _ s.
    rewrite !bind_await.
    change (api_error_message (with_chunks r [concat chunks] rejection))
      with (api_error_message (with_chunks r chunks rejection)).
    apply bind_ext. intros _ s'.
    cbn [with_chunks Fetch.body Fetch.chunks Fetch.rejection Fetch.content_type].
    destruct (includes _ _); [reflexivity|].
    apply bind_cong_l, read_loop_concat.
  - unfold streamRequest_v1. apply try_catch_cong, bind_ext. intros _ s.
    rewrite !bind_await.
    change (api_error_message (with_chunks r [concat chunks] rejection))
      with (api_error_message (with_chunks r chunks rejection)).
    apply bind_ext. intros _ s'.
    cbn [with_chunks Fetch.body Fetch.chunks Fetch.rejection].
    apply bind_cong_l, read_loop_concat.
Qed.



End Decoder.

(** ** Frames and malformed lines *)

Section Frames.
Context `{JSNumber} `{!JSONParser}.
Import StreamManager.

(** Callbacks that only record that they were called. *)
Definition record_token : Callback json := fun token => emit (OnToken token).
Definition record_reasoning : Callback json := fun reasoning => emit (OnReasoning reasoning).
Definition record_complete : Callback json := fun fullText => emit (OnComplete fullText).
Definition record_error : Callback error := fun e => emit (OnError e).

(** The lines of an event-stream body, by what they carry. *)
Inductive sse_line :=
| TextFrame (line token : jsstring)          (* data: {...delta.content = token...} *)
| ReasoningFrame (line reasoning : jsstring) (* data: {...delta.reasoning...} *)
| Malformed (line : jsstring)                (* data: followed by what is not JSON *)
| Separator (line : jsstring).               (* a blank line, or data: [DONE] *)

Definition line_of (item : sse_line) : jsstring :=
  match item with
  | TextFrame line _ | ReasoningFrame line _ | Malformed line | Separator line => line
  end.

Definition newline_free (line : jsstring) : bool :=
  forallb (fun c => negb (c =? 10)) line.

(** What follows [data: ] on a data line other than the sentinel. *)
Definition data_payload (line : jsstring) : option jsstring :=
  let trimmed := trim line in
  if startsWith (lit "data: ") trimmed && negb (JSString.eqb trimmed (lit "data: [DONE]"))
  then Some (slice 6 trimmed) else None.

(** [choices[0].delta] of a parsed event. *)
Definition frame_delta (data : json) : option json :=
  match data with
  | JNull => None
  | _ => opt_get (opt_index0 (get data (lit "choices"))) (lit "delta")
  end.

Definition is_text (o : option json) (expected : jsstring) : bool :=
  match o with
  | Some (JStr (c :: t)) => JSString.eqb (c :: t) expected
  | _ => false
  end.

(** The line is what its constructor says it is. *)
Definition well_formed (item : sse_line) : bool :=
  newline_free (line_of item) &&
  match item with
  | TextFrame line token =>
      match data_payload line with
      | Some text =>
          match JSON_parse text with
          | Some data =>
              match frame_delta data with
              | Some delta =>
                  truthy (Some delta)
                  && is_text (get delta (lit "content")) token
                  && negb (truthy (get delta (lit "reasoning")))
              | None => false
              end
          | None => false
          end
      | None => false
      end
  | ReasoningFrame line reasoning =>
      match data_payload line with
      | Some text =>
          match JSON_parse text with
          | Some data =>
              match frame_delta data with
              | Some delta =>
                  truthy (Some delta)
                  && negb (truthy (get delta (lit "content")))
                  && is_text (get delta (lit "reasoning")) reasoning
              | None => false
              end
          | None => false
          end
      | None => false
      end
  | Malformed line =>
      match data_payload line with
      | Some text => match JSON_parse text with None => true | Some _ => false end
      | None => false
      end
  | Separator line =>
      JSString.eqb (trim line) [] || JSString.eqb (trim line) (lit "data: [DONE]")
  end.

(** The body made of these lines, each ended by a line feed. *)
Definition body_text (items : list sse_line) : jsstring :=
  List.concat (List.map (fun item => line_of item ++ [10]) items).

(** What the revision with reasoning is expected to do for a line. *)
Definition expected (item : sse_line) : list effect :=
  match item with
  | TextFrame _ token => [OnToken (JStr token)]
  | ReasoningFrame _ reasoning => [OnReasoning (JStr reasoning)]
  | Malformed line => [ConsoleWarn line]
  | Separator _ => []
  end.

(** The first revision has no reasoning callback. *)
Definition expected_v1 (item : sse_line) : list effect :=
  match item with
  | TextFrame _ token => [OnToken (JStr token)]
  | Malformed line => [ConsoleWarn line]
  | ReasoningFrame _ _ | Separator _ => []
  end.

(** The text a line contributes to [fullText]. *)
Definition text_delta (item : sse_line) : jsstring :=
  match item with
  | TextFrame _ token => token
  | _ => []
  end.

Definition full_text (items : list sse_line) : jsstring :=
  List.concat (List.map text_delta items).

Lemma split_body_text items :
  forallb (fun item => newline_free (line_of item)) items = true ->
  split 10 (body_text items) = List.map line_of items ++ [ [] ].
Proof.
  induction items as [|item items IH]; simpl; [reflexivity|].
  intros Hall. apply andb_true_iff in Hall as [Hn Hall].
  unfold body_text in *. simpl. rewrite <- app_assoc. simpl.
  rewrite split_line by exact Hn. now rewrite IH.
Qed.

Lemma data_payload_Some line text :
  data_payload line = Some text ->
  negb (truthy (Some (JStr (trim line)))) || JSString.eqb (trim line) (lit "data: [DONE]") = false
  /\ startsWith (lit "data: ") (trim line) = true
  /\ slice 6 (trim line) = text.
Proof.
  unfold data_payload. destruct (startsWith _ _) eqn:Es; [|discriminate].
  destruct (JSString.eqb _ _) eqn:Ed; [discriminate|]. simpl. intros [= <-].
  repeat split. destruct (trim line); [discriminate Es | reflexivity].
Qed.

Lemma is_text_Some o expected :
  is_text o expected = true -> o = Some (JStr expected) /\ truthy o = true.
Proof.
  destruct o as [[| | |[|c t]| |]|]; simpl; try discriminate.
  intros E. apply eqb_eq in E. subst. now split.
Qed.

Lemma when_truthy_false {S} (o : option json) (body : json -> Eff S unit) s :
  truthy o = false -> when_truthy o body s = ([], s, Returned tt).
Proof. intros E. unfold when_truthy. destruct o; [rewrite E|]; reflexivity. Qed.

Lemma member_data {S} (data : json) (delta : json) (s : S) :
  frame_delta data = Some delta ->
  member (Some data) (lit "choices") s = ([], s, Returned (get data (lit "choices")))
  /\ opt_get (opt_index0 (get data (lit "choices"))) (lit "delta") = Some delta.
Proof. destruct data; simpl; try discriminate; intros E; now split. Qed.

(** What one well-formed line does, in the revision with reasoning. *)
Lemma on_line_expected item fullText :
  well_formed item = true ->
  on_line record_token (Some record_reasoning) (line_of item) fullText =
  (expected item, fullText ++ text_delta item, Returned tt).
Proof.
  unfold well_formed. intros W. apply andb_true_iff in W as [_ W].
  destruct item as [line token | line reasoning | line | line]; cbn [line_of] in *.
  - destruct (data_payload line) as [text|] eqn:Ep; [|discriminate].
    destruct (JSON_parse text) as [data|] eqn:Ej; [|discriminate].
    destruct (frame_delta data) as [delta|] eqn:Ed; [|discriminate].
    apply andb_true_iff in W as [W Wr]. apply andb_true_iff in W as [Wd Wc].
    apply is_text_Some in Wc as [Ec Tc]. apply negb_true_iff in Wr.
    apply data_payload_Some in Ep as (E1 & E2 & E3).
    unfold on_line. rewrite E1, E2, E3, Ej.
    unfold try_catch, bind at 1. unfold lift_option, ret. unfold bind at 1.
    destruct (member_data (S := locals) data delta fullText Ed) as [-> ->].
    unfold when_truthy at 1. rewrite Wd. unfold bind at 1.
    rewrite Ec. unfold when_truthy at 1. rewrite <- Ec, Tc.
    unfold append_fullText, bind, lift_option, ret, modify, call, record_token, emit.
    cbn [ToString].
    rewrite (when_truthy_false _ _ _ Wr). reflexivity.
  - destruct (data_payload line) as [text|] eqn:Ep; [|discriminate].
    destruct (JSON_parse text) as [data|] eqn:Ej; [|discriminate].
    destruct (frame_delta data) as [delta|] eqn:Ed; [|discriminate].
    apply andb_true_iff in W as [W Wr]. apply andb_true_iff in W as [Wd Wc].
    apply is_text_Some in Wr as [Er Tr]. apply negb_true_iff in Wc.
    apply data_payload_Some in Ep as (E1 & E2 & E3).
    unfold on_line. rewrite E1, E2, E3, Ej.
    unfold try_catch, bind at 1. unfold lift_option, ret. unfold bind at 1.
    destruct (member_data (S := locals) data delta fullText Ed) as [-> ->].
    unfold when_truthy at 1. rewrite Wd. unfold bind at 1.
    rewrite (when_truthy_false _ _ _ Wc).
    rewrite Er. unfold when_truthy. rewrite <- Er, Tr.
    unfold call, record_reasoning, emit. cbn. now rewrite app_nil_r.
  - destruct (data_payload line) as [text|] eqn:Ep; [|discriminate].
    destruct (JSON_parse text) as [data|] eqn:Ej; [discriminate|].
    apply data_payload_Some in Ep as (E1 & E2 & E3).
    unfold on_line. rewrite E1, E2, E3, Ej. cbn. now rewrite app_nil_r.
  - unfold on_line.
    assert (negb (truthy (Some (JStr (trim line))))
            || JSString.eqb (trim line) (lit "data: [DONE]") = true) as ->.
    { apply orb_true_iff in W as [W|W]; [|now rewrite W, orb_true_r].
      apply eqb_eq in W. now rewrite W. }
    cbn. now rewrite app_nil_r.
Qed.

Lemma opt_get_truthy (delta : json) k :
  truthy (Some delta) = true -> opt_get (Some delta) k = get delta k.
Proof. destruct delta; simpl; now try discriminate. Qed.

(** The same in the first revision, which reads [delta?.content] only. *)
Lemma on_line_v1_expected item fullText :
  well_formed item = true ->
  on_line_v1 record_token (line_of item) fullText =
  (expected_v1 item, fullText ++ text_delta item, Returned tt).
Proof.
  unfold well_formed. intros W. apply andb_true_iff in W as [_ W].
  destruct item as [line token | line reasoning | line | line]; cbn [line_of] in *.
  - destruct (data_payload line) as [text|] eqn:Ep; [|discriminate].
    destruct (JSON_parse text) as [data|] eqn:Ej; [|discriminate].
    destruct (frame_delta data) as [delta|] eqn:Ed; [|discriminate].
    apply andb_true_iff in W as [W Wr]. apply andb_true_iff in W as [Wd Wc].
    apply is_text_Some in Wc as [Ec Tc]. apply negb_true_iff in Wr.
    apply data_payload_Some in Ep as (E1 & E2 & E3).
    unfold on_line_v1. rewrite E1, E2, E3, Ej.
    unfold try_catch, bind at 1. unfold lift_option, ret. unfold bind at 1.
    destruct (member_data (S := locals) data delta fullText Ed) as [Em Eo].
    rewrite Em, Eo, (opt_get_truthy _ _ Wd). unfold bind at 1.
    rewrite Ec. unfold when_truthy at 1. rewrite <- Ec, Tc.
    unfold append_fullText, bind, lift_option, ret, modify, call, record_token, emit.
    cbn [ToString].
    destruct (member_data (S := locals) data delta (fullText ++ token) Ed) as [-> _].
    destruct (truthy (opt_get _ _)); reflexivity.
  - destruct (data_payload line) as [text|] eqn:Ep; [|discriminate].
    destruct (JSON_parse text) as [data|] eqn:Ej; [|discriminate].
    destruct (frame_delta data) as [delta|] eqn:Ed; [|discriminate].
    apply andb_true_iff in W as [W Wr]. apply andb_true_iff in W as [Wd Wc].
    apply negb_true_iff in Wc.
    apply data_payload_Some in Ep as (E1 & E2 & E3).
    unfold on_line_v1. rewrite E1, E2, E3, Ej.
    unfold try_catch, bind at 1. unfold lift_option, ret. unfold bind at 1.
    destruct (member_data (S := locals) data delta fullText Ed) as [Em Eo].
    rewrite Em, Eo, (opt_get_truthy _ _ Wd). unfold bind at 1.
    rewrite (when_truthy_false _ _ _ Wc). unfold bind. rewrite Em.
    destruct (truthy (opt_get _ _)); cbn; now rewrite app_nil_r.
  - destruct (data_payload line) as [text|] eqn:Ep; [|discriminate].
    destruct (JSON_parse text) as [data|] eqn:Ej; [discriminate|].
    apply data_payload_Some in Ep as (E1 & E2 & E3).
    unfold on_line_v1. rewrite E1, E2, E3, Ej. cbn. now rewrite app_nil_r.
  - unfold on_line_v1.
    assert (negb (truthy (Some (JStr (trim line))))
            || JSString.eqb (trim line) (lit "data: [DONE]") = true) as ->.
    { apply orb_true_iff in W as [W|W]; [|now rewrite W, orb_true_r].
      apply eqb_eq in W. now rewrite W. }
    cbn. now rewrite app_nil_r.
Qed.

(** A handler that does, line by line, what [effect_of] lists. *)
Lemma for_of_lines (handler : jsstring -> Eff locals unit)
    (effect_of : sse_line -> list effect) items fullText :
  (forall item text, well_formed item = true ->
     handler (line_of item) text = (effect_of item, text ++ text_delta item, Returned tt)) ->
  forallb well_formed items = true ->
  for_of (List.map line_of items) handler fullText =
  (flat_map effect_of items, fullText ++ full_text items, Returned tt).
Proof.
  intros Hh. revert fullText.
  induction items as [|item items IH]; intros fullText W; simpl.
  - unfold ret, full_text. simpl. now rewrite app_nil_r.
  - apply andb_true_iff in W as [W1 W]. unfold bind.
    rewrite (Hh item fullText W1), (IH _ W). unfold full_text. simpl.
    now rewrite app_assoc.
Qed.

Lemma well_formed_newline_free items :
  forallb well_formed items = true ->
  forallb (fun item => newline_free (line_of item)) items = true.
Proof.
  induction items as [|item items IH]; simpl; [reflexivity|].
  intros W. apply andb_true_iff in W as [W1 W]. rewrite (IH W), andb_true_r.
  unfold well_formed in W1. now apply andb_true_iff in W1 as [W1 _].
Qed.

(** The reading loop over a body made of well-formed items. *)
Lemma read_loop_items (handler : jsstring -> Eff locals unit)
    (effect_of : sse_line -> list effect) items chunks fullText :
  (forall item text, well_formed item = true ->
     handler (line_of item) text = (effect_of item, text ++ text_delta item, Returned tt)) ->
  forallb well_formed items = true ->
  snd (TextDecoder.decode TextDecoder.fresh (concat chunks)) = body_text items ->
  read_loop handler chunks None TextDecoder.fresh [] fullText =
  (flat_map effect_of items, fullText ++ full_text items, Returned tt).
Proof.
  intros Hh W Hd. rewrite read_loop_concat. cbn [read_loop].
  destruct (TextDecoder.decode TextDecoder.fresh (concat chunks)) as [st decoded].
  simpl in Hd. subst decoded. rewrite app_nil_l.
  rewrite (split_body_text items (well_formed_newline_free items W)).
  rewrite removelast_last. unfold bind.
  rewrite (for_of_lines handler effect_of items fullText Hh W).
  unfold ret. now rewrite app_nil_r.
Qed.

(** The request both revisions send. *)
Definition stream_request_of (url apiKey : jsstring)
    (requestBody : list (jsstring * json)) : effect :=
  HttpRequest (lit "POST") url (bearer apiKey) (Some (JObj (with_stream requestBody))).

(** The content type does not send the response to the JSON branch. *)
Definition declares_json (r : response) : bool :=
  includes (lit "application/json")
    match content_type r with
    | Some (c :: t) => c :: t
    | _ => []
    end.

Definition is_delta (x : effect) : bool :=
  match x with
  | OnToken _ | OnReasoning _ => true
  | _ => false
  end.

Definition is_frame (item : sse_line) : bool :=
  match item with
  | TextFrame _ _ | ReasoningFrame _ _ => true
  | _ => false
  end.

(** The delta a frame carries. *)
Definition delta_of (item : sse_line) : list effect :=
  match item with
  | TextFrame _ token => [OnToken (JStr token)]
  | ReasoningFrame _ reasoning => [OnReasoning (JStr reasoning)]
  | _ => []
  end.

Lemma deltas_of_expected items :
  List.filter is_delta (flat_map expected items) = flat_map delta_of (List.filter is_frame items).
Proof.
  induction items as [|item items IH]; simpl; [reflexivity|].
  rewrite List.filter_app, IH. now destruct item.
Qed.

Lemma length_flat_map_delta_of items :
  Forall (fun item => is_frame item = true) items ->
  length (flat_map delta_of items) = length items.
Proof.
  induction 1 as [|item items Hf _ IH]; simpl; [reflexivity|].
  rewrite length_app, IH. now destruct item.
Qed.

(** C6. A streaming body of [N] frames, each carrying a delta, among which
    any number of lines that fail to parse ([data: ] followed by what
    [JSON.parse] rejects) and of blank or sentinel lines stand at any
    positions: in both revisions the call ends normally; the reasoning
    revision invokes the callbacks of the [N] deltas in order, warns once
    for each malformed line and completes with the concatenation of the text
    deltas; the first revision does the same with the text deltas. *)
Theorem malformed_lines_are_skipped (items : list sse_line) (r : response)
    (chunks : list (list byte)) (url apiKey : jsstring)
    (requestBody : list (jsstring * json)) :
  forallb well_formed items = true ->
  ok r = true ->
  declares_json r = false ->
  body r = Some {| chunks := chunks; rejection := None |} ->
  snd (TextDecoder.decode TextDecoder.fresh (concat chunks)) = body_text items ->
  let run := streamRequest (Returned r) url apiKey requestBody
               record_token record_error record_complete (Some record_reasoning) initial in
  let run_v1 := streamRequest_v1 (Returned r) url apiKey requestBody
                  record_token record_error record_complete initial in
  run = (stream_request_of url apiKey requestBody
           :: flat_map expected items ++ [OnComplete (JStr (full_text items))],
         full_text items, Returned tt)
  /\ List.filter is_delta (effects run) = flat_map delta_of (List.filter is_frame items)
  /\ length (List.filter is_delta (effects run)) = length (List.filter is_frame items)
  /\ run_v1 = (stream_request_of url apiKey requestBody
                 :: flat_map expected_v1 items ++ [OnComplete (JStr (full_text items))],
               full_text items, Returned tt).
Proof.
  intros W Hok Hct Hb Hd run run_v1.
  assert (run = (stream_request_of url apiKey requestBody
                   :: flat_map expected items ++ [OnComplete (JStr (full_text items))],
                 full_text items, Returned tt)) as Hrun.
  { unfold run, streamRequest, try_catch, bind, emit, await, ret.
    rewrite Hok, Hb.
    destruct (includes _ _) eqn:E; [change (declares_json r = true) in E; congruence|].
    cbn [negb Fetch.chunks Fetch.rejection].
    rewrite (read_loop_items _ expected items chunks initial
               (fun item text => on_line_expected item text) W Hd).
    reflexivity. }
  split; [exact Hrun|]. split; [|split].
  - rewrite Hrun. unfold effects. cbn [fst]. simpl List.filter.
    rewrite List.filter_app, deltas_of_expected. simpl. now rewrite app_nil_r.
  - rewrite Hrun. unfold effects. cbn [fst]. simpl List.filter.
    rewrite List.filter_app, deltas_of_expected. simpl. rewrite app_nil_r.
    apply length_flat_map_delta_of. apply List.Forall_forall. intros item Hin.
    now apply List.filter_In in Hin.
  - unfold run_v1, streamRequest_v1, try_catch, bind, emit, await, ret.
    rewrite Hok, Hb. cbn [negb Fetch.chunks Fetch.rejection].
    rewrite (read_loop_items _ expected_v1 items chunks initial
               (fun item text => on_line_v1_expected item text) W Hd).
    reflexivity.
Qed.

(** ** The single-document fallback *)

(** [json.choices?.[0]] of a document that is not [null]. *)
Definition first_choice (document : json) : option json :=
  opt_index0 (get document (lit "choices")).


Lemma member_not_null {S} (document : json) k (s : S) :
  document <> JNull -> member (Some document) k s = ([], s, Returned (get document k)).
Proof. destruct document; try reflexivity. congruence. Qed.


(** C10, as amended. When the content type declares JSON and the body
    parses to a document other than [null] without a first element under
    [choices], or with a falsy one, [streamRequest] sends its request and
    returns: whatever the callbacks are, none of them is invoked. *)
Theorem fallback_without_choice_is_silent (r : response) (document : json)
    (stream : body_stream) (url apiKey : jsstring) (requestBody : list (jsstring * json))
    (onToken onComplete : Callback json) (onError : Callback error)
    (onReasoning : option (Callback json)) :
  ok r = true ->
  body r = Some stream ->
  declares_json r = true ->
  json_body r = Returned document ->
  document <> JNull ->
  truthy (first_choice document) = false ->
  streamRequest (Returned r) url apiKey requestBody
    onToken onError onComplete onReasoning initial =
  ([stream_request_of url apiKey requestBody], initial, Returned tt).
Proof.
  intros Hok Hb Hct Hj Hn Hc.
  unfold streamRequest, try_catch, bind, emit, await, ret.
  rewrite Hok, Hb.
  destruct (includes _ _) eqn:E; [|change (declares_json r = false) in E; congruence].
  cbn [negb]. unfold fallback, bind, await. rewrite Hj.
  rewrite (member_not_null _ _ _ Hn). fold (first_choice document).
  now rewrite (when_truthy_false _ _ _ Hc).
Qed.

(** The document of the specification's example:
    [{"choices":[{"message":{"content":"Hello"}}]}]. *)
Definition hello_document : json :=
  JObj [(lit "choices",
         JArr [JObj [(lit "message", JObj [(lit "content", JStr (lit "Hello"))])]])].






(** C1, at the failing input. A 200 response that declares JSON and whose
    body is [{}]: the call sends its request and returns without a terminal
    callback, neither [onComplete] nor [onError], although nothing was
    aborted. *)
Theorem fallback_without_choice_fires_no_terminal (url apiKey : jsstring)
    (requestBody : list (jsstring * json)) :
  streamRequest
    (Returned {| status := 200; statusText := lit "OK";
                 content_type := Some (lit "application/json");
                 json_body := Returned (JObj []);
                 body := Some {| chunks := []; rejection := None |} |})
    url apiKey requestBody
    record_token record_error record_complete (Some record_reasoning) initial =
  ([stream_request_of url apiKey requestBody], initial, Returned tt).
Proof. reflexivity. Qed.

(** ** The order of the callbacks *)

Definition is_terminal (x : effect) : bool :=
  match x with
  | OnComplete _ | OnError _ => true
  | _ => false
  end.

(** Only token and reasoning callbacks and console output. *)
Definition no_terminal (t : list effect) : bool :=
  forallb (fun x => negb (is_terminal x)) t.

(** Nothing is called back after a terminal callback. *)
Fixpoint disciplined (t : list effect) : bool :=
  match t with
  | [] => true
  | x :: rest =>
      if is_terminal x
      then forallb (fun y => negb (is_delta y || is_terminal y)) rest
      else disciplined rest
  end.

Definition terminals (t : list effect) : list effect := List.filter is_terminal t.

Lemma no_terminal_app t1 t2 :
  no_terminal (t1 ++ t2) = no_terminal t1 && no_terminal t2.
Proof. apply forallb_app. Qed.

Lemma disciplined_after t1 t2 :
  no_terminal t1 = true -> disciplined (t1 ++ t2) = disciplined t2.
Proof.
  induction t1 as [|x t1 IH]; simpl; [reflexivity|].
  intros Hq. apply andb_true_iff in Hq as [Hx Hq].
  apply negb_true_iff in Hx. rewrite Hx. now apply IH.
Qed.

Lemma terminals_after t1 t2 :
  no_terminal t1 = true -> terminals (t1 ++ t2) = terminals t2.
Proof.
  unfold terminals. induction t1 as [|x t1 IH]; simpl; [reflexivity|].
  intros Hq. apply andb_true_iff in Hq as [Hx Hq].
  apply negb_true_iff in Hx. rewrite Hx. now apply IH.
Qed.

(** A line handler that never throws and never reports an end. *)
Definition quiet (handler : jsstring -> Eff locals unit) : Prop :=
  forall line fullText, exists t fullText',
    handler line fullText = (t, fullText', Returned tt) /\ no_terminal t = true.

(** With recording callbacks a line never throws and never reports an end. *)
Lemma on_line_quiet (onReasoning : option (Callback json)) :
  onReasoning = None \/ onReasoning = Some record_reasoning ->
  quiet (on_line record_token onReasoning).
Proof.
  intros HR line fullText.
  unfold on_line, try_catch, bind, lift_option, member, when_truthy, append_fullText,
    call, record_token, emit, ret, throw, modify.
  destruct (negb _ || _); [now eexists _, _|].
  destruct (startsWith _ _); [|now eexists _, _].
  destruct (JSON_parse _) as [data|]; [|now eexists _, _].
  destruct data; try (now eexists _, _).
  all: cbn [get].
  all: try (destruct (opt_get _ _) as [delta|]; [|now eexists _, _];
            destruct (truthy (Some delta)); [|now eexists _, _];
            destruct (get delta (lit "content")) as [content|];
            [destruct (truthy (Some content));
             [destruct (ToString content); [|now eexists _, _]|]|];
            destruct HR as [-> | ->]; try (now eexists _, _);
            unfold record_reasoning, emit;
            destruct (get delta (lit "reasoning")) as [reasoning|];
            try destruct (truthy (Some reasoning)); now eexists _, _).
Qed.

Lemma for_of_quiet handler lines fullText :
  quiet handler ->
  exists t fullText',
    for_of lines handler fullText = (t, fullText', Returned tt)
    /\ no_terminal t = true.
Proof.
  intros Hq. revert fullText.
  induction lines as [|line lines IH]; intros fullText; simpl; [now eexists _, _|].
  destruct (Hq line fullText) as (t1 & f1 & E1 & Q1).
  destruct (IH f1) as (t2 & f2 & E2 & Q2).
  exists (t1 ++ t2), f2. unfold bind. rewrite E1, E2. split; [reflexivity|].
  now rewrite no_terminal_app, Q1, Q2.
Qed.

(** The reading loop reports no end either: it returns when the stream is
    done and throws what a rejected read throws. *)
Lemma read_loop_quiet handler chunks rejection decoder buffer fullText :
  quiet handler ->
  exists t fullText',
    read_loop handler chunks rejection decoder buffer fullText =
    (t, fullText', match rejection with Some e => Thrown e | None => Returned tt end)
    /\ no_terminal t = true.
Proof.
  intros Hq. revert decoder buffer fullText.
  induction chunks as [|value chunks IH]; intros decoder buffer fullText; cbn [read_loop].
  - destruct rejection; now eexists _, _.
  - destruct (TextDecoder.decode decoder value) as [decoder' chunk].
    destruct (for_of_quiet handler (removelast (split 10 (buffer ++ chunk)))
                fullText Hq) as (t1 & f1 & E1 & Q1).
    destruct (IH decoder' (List.last (split 10 (buffer ++ chunk)) []) f1)
      as (t2 & f2 & E2 & Q2).
    exists (t1 ++ t2), f2. unfold bind. rewrite E1, E2. split; [reflexivity|].
    now rewrite no_terminal_app, Q1, Q2.
Qed.

(** How the [try] block may end before the outer [catch] sees it: normally,
    having reported at most one end and nothing after it, or by a throw
    before any end was reported. *)
Definition ends_well {A} (run : list effect * locals * completion A) : bool :=
  match run with
  | (t, _, Settled (Returned _)) => disciplined t && (length (terminals t) <=? 1)%nat
  | (t, _, _) => no_terminal t
  end.

(** The part of the fallback that follows [const reasoning = ...]. *)
Lemma fallback_choice_ends_well (content reasoning : json)
    (onReasoning : option (Callback json)) fullText :
  onReasoning = None \/ onReasoning = Some record_reasoning ->
  ends_well
    ((match truthy (Some reasoning), onReasoning with
      | true, Some onReasoning => call onReasoning reasoning
      | _, _ =>
          found <- content_includes_think content ;;
          if found then
            thinkMatch <- content_match_think content ;;
            match thinkMatch, onReasoning with
            | Some inner, Some onReasoning => call onReasoning (JStr inner)
            | _, _ => ret tt
            end
          else ret tt
      end ;;;
      when_truthy (Some content) (call record_token) ;;;
      call record_complete content) fullText) = true.
Proof.
  intros HR.
  unfold bind, when_truthy, content_includes_think, content_match_think, call,
    record_token, record_complete, emit, ret, throw.
  destruct HR as [-> | ->]; unfold record_reasoning, emit;
    destruct (truthy (Some reasoning)); destruct content as [|b|n|text|items|props];
    cbn [truthy]; try reflexivity.
  all: try (destruct b; reflexivity).
  all: try (destruct (negb (number_is_zero n)); reflexivity).
  all: try (destruct (existsb _ items); reflexivity).
  all: try (destruct (includes _ text); try destruct (think_match text);
            destruct text; reflexivity).
  all: try (destruct text; reflexivity).
Qed.

Lemma ends_well_passes {A} (run : list effect * locals * completion A) :
  ends_well run = true ->
  ends_well (let '(t', s2, r0) := run in ([] ++ t', s2, r0)) = true.
Proof. now destruct run as [[t s] out]. Qed.

Lemma fallback_ends_well (r : response) (onReasoning : option (Callback json)) fullText :
  onReasoning = None \/ onReasoning = Some record_reasoning ->
  ends_well (fallback r record_token record_complete onReasoning fullText) = true.
Proof.
  intros HR. unfold fallback. unfold bind at 1, await.
  destruct (json_body r) as [document|e]; [|reflexivity].
  unfold bind at 1.
  assert (member (Some document) (lit "choices") fullText = ([], fullText, Thrown TypeError)
          \/ member (Some document) (lit "choices") fullText =
             ([], fullText, Returned (get document (lit "choices")))) as [-> | ->]
    by (destruct document; auto); [reflexivity|].
  unfold when_truthy at 1.
  destruct (opt_index0 _) as [choice|]; [|reflexivity].
  destruct (truthy (Some choice)); [|reflexivity].
  pose proof (fallback_choice_ends_well
                (or_else (opt_get (get choice (lit "message")) (lit "content")) (JStr []))
                (or_else (opt_get (get choice (lit "message")) (lit "reasoning")) (JStr []))
                onReasoning fullText HR) as Hw.
  do 2 apply ends_well_passes. exact Hw.
Qed.

Lemma ends_well_bind {A B} (m : Eff locals A) (f : A -> Eff locals B) s t s1 out :
  m s = (t, s1, out) ->
  no_terminal t = true ->
  (forall a, out = Returned a -> ends_well (f a s1) = true) ->
  ends_well (bind m f s) = true.
Proof.
  intros E Q Hf. unfold bind. rewrite E. destruct out as [[a|e]|]; [|exact Q|exact Q].
  specialize (Hf a eq_refl). destruct (f a s1) as [[t' s2] [[b|e]|]]; simpl in *.
  - now rewrite (disciplined_after _ _ Q), (terminals_after _ _ Q).
  - now rewrite no_terminal_app, Q.
  - now rewrite no_terminal_app, Q.
Qed.

Lemma api_error_message_quiet (response : response) (s : locals) :
  exists msg, api_error_message response s = ([], s, Returned msg).
Proof.
  unfold api_error_message, try_catch, bind, await, ret, lift_option, throw.
  destruct (json_body response) as [doc|e]; [|eauto].
  destruct (opt_get _ _) as [m|]; [|eauto].
  destruct (truthy (Some m)); [|eauto].
  destruct (ToString m); eauto.
Qed.

(** The outer [catch] turns a throw into one [onError], or into silence
    when the call was aborted. *)
Lemma on_failure_closes (m : Eff locals unit) s :
  ends_well (m s) = true ->
  let t := effects (try_catch m (on_failure record_error) s) in
  disciplined t = true /\ (length (terminals t) <= 1)%nat.
Proof.
  intros Hw. unfold try_catch, effects.
  destruct (m s) as [[t s1] [[a|e]|]]; simpl in *.
  - apply andb_true_iff in Hw as [Hd Hl]. split; [exact Hd|]. now apply Nat.leb_le.
  - unfold on_failure. destruct (JSString.eqb (name e) (lit "AbortError")); simpl;
      rewrite (disciplined_after _ _ Hw), (terminals_after _ _ Hw); simpl; auto.
  - rewrite (disciplined_after _ _ Hw), (terminals_after _ _ Hw); simpl; auto.
Qed.

(** Whatever the network does, with or without a reasoning callback: token
    and reasoning callbacks come before the terminal callback, at most one
    terminal callback is made, and nothing is called after it. *)
Lemma terminal_callback_discipline (net : outcome response) (url apiKey : jsstring)
    (requestBody : list (jsstring * json)) (onReasoning : option (Callback json)) :
  onReasoning = None \/ onReasoning = Some record_reasoning ->
  let t := effects (streamRequest net url apiKey requestBody
                      record_token record_error record_complete onReasoning initial) in
  disciplined t = true /\ (length (terminals t) <= 1)%nat.
Proof.
  intros HR. unfold streamRequest. apply on_failure_closes.
  eapply ends_well_bind; [reflexivity | reflexivity |]. intros _ _.
  eapply ends_well_bind; [reflexivity | reflexivity |]. intros response [= ->].
  destruct (api_error_message_quiet response initial) as [msg Em].
  destruct (negb (ok response)).
  { eapply ends_well_bind;
      [unfold bind; rewrite Em; reflexivity | reflexivity | intros a [=]]. }
  eapply ends_well_bind; [reflexivity | reflexivity |].
  intros _ _. destruct (body response) as [stream|]; [|reflexivity].
  destruct (includes _ _); [now apply fallback_ends_well|].
  destruct (read_loop_quiet _ (chunks stream) (rejection stream)
              TextDecoder.fresh [] initial (on_line_quiet onReasoning HR))
    as (t & f & E & Q).
  eapply ends_well_bind; [exact E | exact Q |]. intros _ _. reflexivity.
Qed.

(** The streaming path ends with exactly one terminal callback, unless the
    read was aborted: [onComplete] when the stream is drained, [onError]
    when a read fails. *)
Lemma streaming_terminal (r : response) (stream : body_stream) (url apiKey : jsstring)
    (requestBody : list (jsstring * json)) (onReasoning : option (Callback json)) :
  onReasoning = None \/ onReasoning = Some record_reasoning ->
  ok r = true ->
  body r = Some stream ->
  declares_json r = false ->
  exists fullText,
    terminals (effects (streamRequest (Returned r) url apiKey requestBody
                          record_token record_error record_complete onReasoning initial)) =
    match rejection stream with
    | None => [OnComplete (JStr fullText)]
    | Some e => if JSString.eqb (name e) (lit "AbortError") then [] else [OnError e]
    end.
Proof.
  intros HR Hok Hb Hct.
  destruct (read_loop_quiet _ (chunks stream) (rejection stream)
              TextDecoder.fresh [] initial (on_line_quiet onReasoning HR))
    as (t & f & E & Q).
  exists f. unfold streamRequest, try_catch, bind, emit, await, ret.
  rewrite Hok, Hb.
  destruct (includes _ _) eqn:Ei; [change (declares_json r = true) in Ei; congruence|].
  cbn [negb]. rewrite E. unfold effects, on_failure.
  destruct (rejection stream) as [e|]; simpl.
  - destruct (JSString.eqb (name e) (lit "AbortError")); simpl;
      now rewrite (terminals_after t _ Q).
  - now rewrite (terminals_after t _ Q).
Qed.

Lemma on_line_v1_quiet : quiet (on_line_v1 record_token).
Proof.
  intros line fullText.
  unfold on_line_v1, try_catch, bind, lift_option, member, when_truthy, append_fullText,
    call, record_token, emit, ret, throw, modify.
  destruct (negb _ || _); [now eexists _, _|].
  destruct (startsWith _ _); [|now eexists _, _].
  destruct (JSON_parse _) as [data|]; [|now eexists _, _].
  destruct data; try (now eexists _, _).
  all: cbn [get].
  all: destruct (opt_get (opt_get _ _) _) as [delta|];
    [destruct (truthy (Some delta)); [destruct (ToString delta); [|now eexists _, _]|]|];
    destruct (truthy _); now eexists _, _.
Qed.

(** The caller's abort reaches the call as an [AbortError], thrown by
    [fetch] or by a read of the body. *)
Definition aborted_v1 (net : outcome response) : bool :=
  match net with
  | Thrown e => JSString.eqb (name e) (lit "AbortError")
  | Returned r =>
      ok r && match body r with
              | Some stream =>
                  match rejection stream with
                  | Some e => JSString.eqb (name e) (lit "AbortError")
                  | None => false
                  end
              | None => false
              end
  end.

(** The revision without fallback keeps the whole contract: deltas first,
    then exactly one terminal callback, and none at all after an abort. *)
Lemma terminal_callback_v1 (net : outcome response) (url apiKey : jsstring)
    (requestBody : list (jsstring * json)) :
  let t := effects (streamRequest_v1 net url apiKey requestBody
                      record_token record_error record_complete initial) in
  disciplined t = true
  /\ length (terminals t) = if aborted_v1 net then 0%nat else 1%nat.
Proof.
  assert (forall (e : error) s, on_failure record_error e s =
            (if JSString.eqb (name e) (lit "AbortError")
             then [ConsoleLog (lit "Stream aborted")]
             else [ConsoleError e; OnError e], s, Returned tt)) as Hf.
  { intros e s. unfold on_failure.
    now destruct (JSString.eqb (name e) (lit "AbortError")). }
  assert (forall t' (e : error),
            no_terminal t' = true ->
            let t := t' ++ (if JSString.eqb (name e) (lit "AbortError")
                            then [ConsoleLog (lit "Stream aborted")]
                            else [ConsoleError e; OnError e]) in
            disciplined t = true
            /\ length (terminals t) =
               if JSString.eqb (name e) (lit "AbortError") then 0%nat else 1%nat) as Hc.
  { intros t' e Q. cbv zeta.
    rewrite (disciplined_after _ _ Q), (terminals_after _ _ Q).
    now destruct (JSString.eqb (name e) (lit "AbortError")). }
  cbv zeta.
  remember (streamRequest_v1 net url apiKey requestBody
              record_token record_error record_complete initial) as run eqn:Hrun.
  unfold streamRequest_v1, try_catch in Hrun.
  unfold bind at 1 in Hrun. unfold emit in Hrun.
  destruct net as [r|e]; cbn [aborted_v1].
  - rewrite bind_await in Hrun.
    destruct (ok r) eqn:Hok; cbn [negb andb] in *.
    + unfold bind at 1 in Hrun. unfold ret at 1 in Hrun.
      destruct (body r) as [stream|].
      * destruct (read_loop_quiet _ (chunks stream) (rejection stream)
                    TextDecoder.fresh [] initial on_line_v1_quiet) as (t & f & E & Q).
        unfold bind at 1 in Hrun. rewrite E in Hrun.
        destruct (rejection stream) as [e|].
        -- rewrite Hf in Hrun. subst run. unfold effects. cbn [fst snd].
           apply (Hc ([stream_request_of url apiKey requestBody] ++ [] ++ t) e).
           now rewrite !no_terminal_app, Q.
        -- unfold bind, read, call, record_complete, emit in Hrun.
           subst run. unfold effects. cbn [fst snd].
           change (disciplined (([stream_request_of url apiKey requestBody] ++ [] ++ t)
                                  ++ [OnComplete (JStr f)]) = true
                   /\ length (terminals (([stream_request_of url apiKey requestBody]
                                             ++ [] ++ t) ++ [OnComplete (JStr f)])) = 1%nat).
           rewrite disciplined_after, terminals_after
             by now rewrite !no_terminal_app, Q.
           now split.
      * unfold throw in Hrun. rewrite Hf in Hrun. subst run. unfold effects. cbn [fst snd].
        apply (Hc [stream_request_of url apiKey requestBody]
                 (Error (lit "No response body"))). reflexivity.
    + unfold bind at 1 in Hrun. unfold bind at 1 in Hrun.
      destruct (api_error_message_quiet r initial) as [msg Em]. rewrite Em in Hrun.
      unfold throw in Hrun. rewrite Hf in Hrun. subst run. unfold effects. cbn [fst snd].
      apply (Hc [stream_request_of url apiKey requestBody] (Error msg)). reflexivity.
  - unfold bind, await in Hrun. rewrite Hf in Hrun. subst run. unfold effects.
    cbn [fst snd].
    apply (Hc [stream_request_of url apiKey requestBody] e). reflexivity.
Qed.

End Frames.

(** * The theorems on concrete inputs

    Everything below runs on [Platform]: integers for numbers and the
    parser of [Platform.parse]. *)

Section Instances.
Import Platform.
Import OpenRouterProvider.

(** The bytes of an ASCII text. *)
Definition ascii_bytes (s : jsstring) : list byte :=
  List.map (fun c => match Byte.of_N c with Some b => b | None => x00 end) s.

Lemma default_favorites_NoDup : List.NoDup (favoriteModels DEFAULT_SETTINGS).
Proof.
  apply List.NoDup_cons_iff; split.
  { intros [E | [E | []]]; vm_compute in E; discriminate E. }
  apply List.NoDup_cons_iff; split.
  { intros [E | []]; vm_compute in E; discriminate E. }
  apply List.NoDup_cons_iff; split; [intros [] | constructor].
Defined.

Lemma favorites_never_duplicated_witness :
  let s := final (for_of [Add (H := integers) (lit "x/model") (Some 8000%Z);
                          Remove (lit "openai/gpt-4o-mini");
                          Add (lit "x/model") None] perform DEFAULT_SETTINGS) in
  List.NoDup (favoriteModels DEFAULT_SETTINGS)
  /\ List.NoDup (favoriteModels s)
  /\ occurrences (lit "x/model")
       (favoriteModels
          (final ((addFavorite (lit "x/model") None ;;; addFavorite (lit "x/model") None) s)))
     = 1%nat.
Proof.
  intros s. split; [exact default_favorites_NoDup|].
  destruct (favorites_never_duplicated DEFAULT_SETTINGS
              [Add (H := integers) (lit "x/model") (Some 8000%Z); Remove (lit "openai/gpt-4o-mini");
               Add (lit "x/model") None]
              (lit "x/model") None None default_favorites_NoDup) as (H1 & H2 & _).
  split; [exact H1 | exact H2].
Defined.

Lemma flashcards_is_no_prototype_key : lit "ai-flashcards" <> lit "__proto__".
Proof. intros E. vm_compute in E. discriminate E. Defined.

Example getModel_after_empty_setModel :
  result ((setModel (lit "ai-flashcards") [] ;;; getModel (lit "ai-flashcards"))
            DEFAULT_SETTINGS)
  = Returned (Own (lit "google/gemini-2.0-flash-exp:free")).
Proof.
  unfold setModel, getModel, result, bind, modify, read, ret, saveSettings, emit.
  cbn [fst snd pluginModels].
  now rewrite (object_get_set _ _ _ flashcards_is_no_prototype_key).
Qed.

(** With the caller [__proto__] nothing is stored, and [getModel] answers
    with what every object inherits at that name. *)
Example getModel_after_setModel_for_proto :
  (setModel (lit "__proto__") (lit "x/model") ;;; getModel (lit "__proto__"))
    DEFAULT_SETTINGS
  = ([SaveData; ConsoleLog (lit "Plugin model saved:")], DEFAULT_SETTINGS,
     Returned (Inherited (lit "__proto__"))).
Proof.
  unfold setModel, getModel, bind, modify, read, ret, saveSettings, emit.
  cbn [fst snd pluginModels DEFAULT_SETTINGS].
  rewrite (object_set_proto ∅ (lit "x/model") (lookup_empty _)).
  unfold object_get. rewrite lookup_empty. reflexivity.
Qed.

(** C9 as stated fails twice over: after [setModel] with the empty string
    the identifier is falsy and [getModel(caller)] falls back to the first
    favourite; and for the caller [__proto__] the assignment stores nothing,
    whatever the model identifier. *)
Lemma setModel_getModel_empty_model :
  ~ (forall (s : OpenRouterSettings) (caller modelId : jsstring),
       result ((setModel caller modelId ;;; getModel caller) s) = Returned (Own modelId))
  /\ ~ (forall (s : OpenRouterSettings) (caller modelId : jsstring),
          modelId <> [] ->
          result ((setModel caller modelId ;;; getModel caller) s)
          = Returned (Own modelId)).
Proof.
  split.
  - intros Hall. specialize (Hall DEFAULT_SETTINGS (lit "ai-flashcards") []).
    rewrite getModel_after_empty_setModel in Hall. discriminate Hall.
  - intros Hall.
    specialize (Hall DEFAULT_SETTINGS (lit "__proto__") (lit "x/model")).
    unfold result in Hall. rewrite getModel_after_setModel_for_proto in Hall.
    cbn [snd] in Hall.
    assert (lit "x/model" <> []) as Hne by (intros E; vm_compute in E; discriminate E).
    specialize (Hall Hne). discriminate Hall.
Qed.

Lemma setModel_getModel_roundtrip_witness :
  lit "ai-flashcards" <> lit "__proto__"
  /\ lit "openai/gpt-4o-mini" <> []
  /\ result ((setModel (lit "ai-flashcards") (lit "openai/gpt-4o-mini") ;;;
              getModel (lit "ai-flashcards")) DEFAULT_SETTINGS)
     = Returned (Own (lit "openai/gpt-4o-mini")).
Proof.
  split; [exact flashcards_is_no_prototype_key|]. split; [discriminate|].
  apply (setModel_getModel_roundtrip DEFAULT_SETTINGS);
    [exact flashcards_is_no_prototype_key | discriminate].
Defined.

(** Two rate limits, then the answer. *)
Definition twice_rate_limited : nat -> outcome RequestUrlResponse :=
  fun i =>
    match i with
    | 0%nat | 1%nat => Returned {| status := 429; json := Thrown SyntaxError |}
    | _ => Returned {| status := 200; json := Returned hello_document |}
    end.

Definition hello_request : RequestBody :=
  {| model := lit "openai/gpt-4o-mini"; extra := [] |}.


End Instances.

Section StreamInstances.
Import Platform.
Import StreamManager.


Definition json_response (document : json) : response :=
  {| Fetch.status := 200; statusText := lit "OK";
     content_type := Some (lit "application/json; charset=utf-8");
     json_body := Returned document;
     body := Some {| chunks := []; rejection := None |} |}.


Example hello_fallback :
  effects (streamRequest (Returned (json_response hello_document)) (lit "u") (lit "k") []
             record_token record_error record_complete (Some record_reasoning)
             StreamManager.initial)
  = [stream_request_of (lit "u") (lit "k") [];
     OnToken (JStr (lit "Hello")); OnComplete (JStr (lit "Hello"))].
Proof. reflexivity. Qed.

Lemma fallback_without_choice_is_silent_witness :
  streamRequest (Returned (json_response (JObj [(lit "choices", JArr [])])))
    (lit "u") (lit "k") []
    record_token record_error record_complete (Some record_reasoning) StreamManager.initial
  = ([stream_request_of (lit "u") (lit "k") []], StreamManager.initial, Returned tt).
Proof.
  apply (fallback_without_choice_is_silent
           (json_response (JObj [(lit "choices", JArr [])]))
           (JObj [(lit "choices", JArr [])]) {| chunks := []; rejection := None |});
    try reflexivity.
  discriminate.
Defined.

(** An event stream with a two-byte character, a truncated frame, blank
    lines and the sentinel, cut in two inside the character. *)
Definition stream_items : list sse_line :=
  [TextFrame (text "data: {'choices':[{'delta':{'content':'caf" ++ [233] ++ text "'}}]}")
     (lit "caf" ++ [233]);
   Separator [];
   Malformed (text "data: {'choices':[{'delta'");
   ReasoningFrame (text "data: {'choices':[{'delta':{'reasoning':'thinking'}}]}" ++ [13])
     (lit "thinking");
   TextFrame (text "data: {'choices':[{'delta':{'content':'!'}}]}") (lit "!");
   Separator (text "data: [DONE]")].

Definition stream_chunks : list (list byte) :=
  [ascii_bytes (text "data: {'choices':[{'delta':{'content':'caf") ++ [xc3];
   [xa9] ++
   ascii_bytes (text "'}}]}" ++ [10; 10] ++ text "data: {'choices':[{'delta'" ++ [10]
                ++ text "data: {'choices':[{'delta':{'reasoning':'thinking'}}]}" ++ [13; 10]
                ++ text "data: {'choices':[{'delta':{'content':'!'}}]}" ++ [10]
                ++ text "data: [DONE]" ++ [10])].

Definition stream_response : response :=
  {| Fetch.status := 200; statusText := lit "OK";
     content_type := Some (lit "text/event-stream");
     json_body := Thrown SyntaxError;
     body := Some {| chunks := stream_chunks; rejection := None |} |}.

Lemma malformed_lines_are_skipped_witness :
  forallb well_formed stream_items = true
  /\ streamRequest (Returned stream_response) (lit "u") (lit "k") []
       record_token record_error record_complete (Some record_reasoning)
       StreamManager.initial
     = ([stream_request_of (lit "u") (lit "k") [];
         OnToken (JStr (lit "caf" ++ [233]));
         ConsoleWarn (text "data: {'choices':[{'delta'");
         OnReasoning (JStr (lit "thinking"));
         OnToken (JStr (lit "!"));
         OnComplete (JStr (lit "caf" ++ [233] ++ lit "!"))],
        lit "caf" ++ [233] ++ lit "!", Returned tt).
Proof.
  assert (forallb well_formed stream_items = true) as W by (vm_compute; reflexivity).
  split; [exact W|].
  destruct (malformed_lines_are_skipped stream_items stream_response stream_chunks
              (lit "u") (lit "k") [] W eq_refl eq_refl eq_refl) as (H1 & _).
  - vm_compute. reflexivity.
  - exact H1.
Defined.

(** The scenario of the specification: a text frame, a reasoning frame and
    the sentinel, separated by blank lines. *)
Example example_scenario :
  effects
    (streamRequest
       (Returned
          {| Fetch.status := 200; statusText := lit "OK";
             content_type := Some (lit "text/event-stream");
             json_body := Thrown SyntaxError;
             body := Some {| chunks :=
                               [ascii_bytes
                                  (text "data: {'choices':[{'delta':{'content':'Hi'}}]}"
                                   ++ [10; 10]
                                   ++ text "data: {'choices':[{'delta':{'reasoning':'thinking'}}]}"
                                   ++ [10; 10] ++ text "data: [DONE]" ++ [10; 10])];
                             rejection := None |} |})
       (lit "u") (lit "k") []
       record_token record_error record_complete (Some record_reasoning)
       StreamManager.initial)
  = [stream_request_of (lit "u") (lit "k") [];
     OnToken (JStr (lit "Hi")); OnReasoning (JStr (lit "thinking"));
     OnComplete (JStr (lit "Hi"))].
Proof. vm_compute. reflexivity. Qed.

(** The revision of [src/streamManager.ts] has no JSON branch: it reads the
    same document as an event stream, finds no data line and completes with
    the empty text. *)
Example hello_without_fallback :
  effects
    (streamRequest_v1
       (Returned
          {| Fetch.status := 200; statusText := lit "OK";
             content_type := Some (lit "application/json");
             json_body := Returned hello_document;
             body := Some {| chunks :=
                               [ascii_bytes
                                  (text "{'choices':[{'message':{'content':'Hello'}}]}")];
                             rejection := None |} |})
       (lit "u") (lit "k") []
       record_token record_error record_complete StreamManager.initial)
  = [stream_request_of (lit "u") (lit "k") []; OnComplete (JStr [])].
Proof. vm_compute. reflexivity. Qed.

(** A read aborted by the caller after the first token: the token is
    reported, the abort is logged, and no terminal callback follows. *)
Example aborted_mid_stream :
  effects
    (streamRequest
       (Returned
          {| Fetch.status := 200; statusText := lit "OK";
             content_type := Some (lit "text/event-stream");
             json_body := Thrown SyntaxError;
             body := Some {| chunks :=
                               [ascii_bytes
                                  (text "data: {'choices':[{'delta':{'content':'Hi'}}]}"
                                   ++ [10])];
                             rejection := Some {| name := lit "AbortError";
                                                  message := lit "The user aborted a request." |} |} |})
       (lit "u") (lit "k") []
       record_token record_error record_complete (Some record_reasoning)
       StreamManager.initial)
  = [stream_request_of (lit "u") (lit "k") [];
     OnToken (JStr (lit "Hi")); ConsoleLog (lit "Stream aborted")].
Proof. vm_compute. reflexivity. Qed.

(** The document [null] is another matter: reading [json.choices] throws
    and the failure is reported through [onError]. *)
Example null_document_reports_error :
  effects (streamRequest (Returned (json_response JNull)) (lit "u") (lit "k") []
             record_token record_error record_complete (Some record_reasoning)
             StreamManager.initial)
  = [stream_request_of (lit "u") (lit "k") []; ConsoleError TypeError; OnError TypeError].
Proof. reflexivity. Qed.

(** C10 as stated fails: the body [null] parses, it has no first element
    under [choices], and [onError] is called, since reading [choices] of
    [null] throws. *)
Lemma fallback_on_null_document_calls_onError :
  Platform.parse (lit "null") = Some JNull
  /\ ~ (forall (r : response) (document : json) (stream : body_stream),
          ok r = true ->
          body r = Some stream ->
          declares_json r = true ->
          json_body r = Returned document ->
          truthy (first_choice document) = false ->
          streamRequest (Returned r) (lit "u") (lit "k") []
            record_token record_error record_complete (Some record_reasoning)
            StreamManager.initial
          = ([stream_request_of (lit "u") (lit "k") []], StreamManager.initial,
             Returned tt)).
Proof.
  split; [reflexivity|]. intros Hall.
  specialize (Hall (json_response JNull) JNull {| chunks := []; rejection := None |}
                eq_refl eq_refl eq_refl eq_refl eq_refl).
  apply (f_equal effects) in Hall. rewrite null_document_reports_error in Hall.
  discriminate Hall.
Qed.

End StreamInstances.

(** * Further properties of the code *)

(** ** The preference store, continued *)

Section StoreMore.
Context `{JSNumber}.
Import OpenRouterProvider.

(** Number of times the settings were handed to [saveData]. *)
Definition saves (t : list effect) : nat :=
  length (List.filter (fun x => match x with SaveData => true | _ => false end) t).

Lemma string_or_nonempty (a : option jsstring) (b : jsstring) :
  b <> [] -> string_or a b <> [].
Proof. intros Hb. destruct a as [[|c t]|]; simpl; congruence. Qed.

(** X1. [getModel] never answers with the empty string, for any plugin and
    any state of the settings: a stored empty selection and an empty
    favourites list both fall through to the built-in default.  The answer is
    a non-empty string whenever the plugin id has an entry of its own or is
    no property name of [Object.prototype]; for one that is, and has no
    entry, the answer is the inherited value, which is no model identifier. *)
Theorem getModel_never_empty (s : OpenRouterSettings) (pluginId : jsstring) :
  exists answer,
    getModel pluginId s = ([], s, Returned answer)
    /\ answer <> Own []
    /\ (is_Some (pluginModels s !! pluginId) \/ pluginId ∉ Object_prototype ->
        exists modelId, answer = Own modelId /\ modelId <> [])
    /\ (pluginModels s !! pluginId = None -> pluginId ∈ Object_prototype ->
        answer = Inherited pluginId).
Proof.
  assert (string_or (head (favoriteModels s)) (lit "google/gemini-2.0-flash-exp:free")
          <> []) as Hd by (apply string_or_nonempty; discriminate).
  unfold getModel, bind, read, ret, object_get. cbn [fst snd].
  destruct (pluginModels s !! pluginId) as [[|c t]|] eqn:Es.
  - eexists. split; [reflexivity|]. split; [congruence|]. split; [eauto | discriminate].
  - eexists. split; [reflexivity|]. split; [discriminate|].
    split; [intros _; eexists; split; [reflexivity | discriminate] | discriminate].
  - destruct (bool_decide (pluginId ∈ Object_prototype)) eqn:Ep.
    + apply bool_decide_eq_true in Ep.
      eexists. split; [reflexivity|]. split; [discriminate|].
      split; [|reflexivity]. intros [[x Hx] | Hn]; [discriminate | contradiction].
    + apply bool_decide_eq_false in Ep.
      eexists. split; [reflexivity|]. split; [congruence|].
      split; [eauto | intros _ Hin; contradiction].
Qed.

(** X2. [setModel] for one plugin changes nothing for another: what
    [getModel] answers to the other plugin, the favourites and the API key
    are as before. *)
Theorem setModel_leaves_other_plugins (s : OpenRouterSettings)
    (pluginId other modelId : jsstring) :
  pluginId <> other ->
  result ((setModel pluginId modelId ;;; getModel other) s) = result (getModel other s)
  /\ favoriteModels (final (setModel pluginId modelId s)) = favoriteModels s
  /\ apiKey (final (setModel pluginId modelId s)) = apiKey s.
Proof.
  intros Hne. split; [|split; reflexivity].
  unfold setModel, getModel, result, bind, modify, read, ret, saveSettings, emit.
  cbn [fst snd pluginModels favoriteModels].
  now rewrite (object_get_set_other _ _ _ _ Hne).
Qed.

Lemma not_In_filter_out (l : list jsstring) id :
  ~ In id (List.filter (fun m => negb (JSString.eqb m id)) l).
Proof.
  intros Hin. apply List.filter_In in Hin as [_ Hn].
  rewrite eqb_refl in Hn. discriminate.
Qed.

(** X3. After [removeFavorite(id)] the identifier is gone from the list
    however often it occurred, a second call changes nothing more, and each
    call saves the settings once, also when there was nothing to remove. *)
Theorem removeFavorite_removes_every_copy (s : OpenRouterSettings) (id : jsstring) :
  ~ In id (favoriteModels (final (removeFavorite id s)))
  /\ final ((removeFavorite id ;;; removeFavorite id) s) = final (removeFavorite id s)
  /\ saves (effects (removeFavorite id s)) = 1%nat.
Proof.
  split; [|split; [|reflexivity]].
  - rewrite favorites_removeFavorite. apply not_In_filter_out.
  - unfold removeFavorite, final, bind, modify, saveSettings, emit. simpl.
    f_equal. apply filter_absent, not_In_filter_out.
Qed.

(** X4. [removeFavorite] touches neither the plugin selections nor the
    recorded context lengths: a plugin whose selected model is removed from
    the favourites still gets that model from [getModel]. *)
Theorem removeFavorite_keeps_selection (s : OpenRouterSettings)
    (pluginId id : jsstring) :
  pluginModels s !! pluginId = Some id ->
  id <> [] ->
  result ((removeFavorite id ;;; getModel pluginId) s) = Returned (Own id)
  /\ pluginModels (final (removeFavorite id s)) = pluginModels s
  /\ modelContextLengths (final (removeFavorite id s)) = modelContextLengths s.
Proof.
  intros Hsel Hne. split; [|split; reflexivity].
  unfold removeFavorite, getModel, result, bind, modify, read, ret, saveSettings, emit,
    object_get.
  cbn [fst snd pluginModels]. rewrite Hsel. destruct id; [contradiction | reflexivity].
Qed.

(** X5. Adding an identifier that is not a favourite and removing it again
    gives back the list of favourites as it was; a truthy context length
    passed to [addFavorite] stays recorded all the same, unless the
    identifier is [__proto__]: for that one, when it had no context length,
    nothing is recorded. *)
Theorem addFavorite_removeFavorite_roundtrip (s : OpenRouterSettings) (id : jsstring)
    (n : number) :
  ~ In id (favoriteModels s) ->
  number_is_zero n = false ->
  let s' := final ((addFavorite id (Some n) ;;; removeFavorite id) s) in
  favoriteModels s' = favoriteModels s
  /\ (id <> lit "__proto__" -> modelContextLengths s' !! id = Some n)
  /\ (id = lit "__proto__" -> modelContextLengths s !! id = None ->
      modelContextLengths s' = modelContextLengths s).
Proof.
  intros Hnot Hn s'.
  assert (array_includes (favoriteModels s) id = false) as Hinc.
  { destruct (array_includes (favoriteModels s) id) eqn:E; [|reflexivity].
    apply array_includes_In in E. contradiction. }
  unfold s', addFavorite, removeFavorite, final, bind, read, modify, ret, saveSettings, emit.
  cbn [fst snd favoriteModels modelContextLengths]. rewrite Hinc. cbn [negb fst snd].
  rewrite Hn. cbn [negb fst snd favoriteModels modelContextLengths]. split; [|split].
  - rewrite List.filter_app. simpl. rewrite eqb_refl. simpl.
    rewrite app_nil_r. now apply filter_absent.
  - intros Hid. unfold object_set.
    destruct (modelContextLengths s !! id); [apply lookup_insert_eq|].
    rewrite bool_decide_eq_false_2 by exact Hid. apply lookup_insert_eq.
  - intros -> Hnone. now apply object_set_proto.
Qed.

(** X6. Removing a favourite and adding it again puts it at the end of the
    list, whatever its place was, the others keeping their order. *)
Theorem readded_favorite_moves_to_end (s : OpenRouterSettings) (id : jsstring)
    (contextLength : option number) :
  favoriteModels (final ((removeFavorite id ;;; addFavorite id contextLength) s)) =
  List.filter (fun m => negb (JSString.eqb m id)) (favoriteModels s) ++ [id].
Proof.
  unfold bind.
  destruct (removeFavorite id s) as [[t s1] [[[]|e]|]] eqn:E;
    [|discriminate E|discriminate E].
  assert (favoriteModels s1 =
          List.filter (fun m => negb (JSString.eqb m id)) (favoriteModels s)) as Hs1.
  { apply (f_equal final) in E. unfold final in E. simpl in E. now subst s1. }
  pose proof (favorites_addFavorite id contextLength s1) as Ha.
  destruct (addFavorite id contextLength s1) as [[t' s2] r].
  unfold final in *. simpl in *. rewrite Ha.
  destruct (array_includes (favoriteModels s1) id) eqn:Ei.
  - apply array_includes_In in Ei. rewrite Hs1 in Ei.
    now apply not_In_filter_out in Ei.
  - now rewrite Hs1.
Qed.

Lemma perform_keeps_lengths op s k :
  is_Some (modelContextLengths s !! k) ->
  is_Some (modelContextLengths (final (perform op s)) !! k).
Proof.
  intros Hk. destruct op as [id ctx | id]; cbn [perform]; [|exact Hk].
  unfold addFavorite, final, bind, read, modify, ret, saveSettings, emit. simpl.
  destruct (negb (array_includes (favoriteModels s) id)); simpl;
    destruct ctx as [n|]; simpl; try exact Hk;
    destruct (negb (number_is_zero n)); simpl; try exact Hk;
    now apply object_set_is_Some.
Qed.

(** X7. No sequence of [addFavorite] and [removeFavorite] calls ever drops
    a recorded context length: a model that had one keeps having one, also
    after it has been removed from the favourites. *)
Theorem context_lengths_never_forgotten (s : OpenRouterSettings)
    (ops : list favorite_op) (k : jsstring) :
  is_Some (modelContextLengths s !! k) ->
  is_Some (modelContextLengths (final (for_of ops perform s)) !! k).
Proof.
  revert s. induction ops as [|op ops IH]; intros s Hk; [exact Hk|].
  cbn [for_of]. unfold bind.
  pose proof (perform_keeps_lengths op s k Hk) as H1.
  destruct (perform op s) as [[t s1] [[[]|e]|]]; unfold final in *; simpl in *.
  - specialize (IH s1 H1). now destruct (for_of ops perform s1) as [[t' s2] r].
  - exact H1.
  - exact H1.
Qed.

End StoreMore.

(** ** The retry controller, continued *)

Section RetryMore.
Context `{JSNumber}.
Import OpenRouterProvider.

(** Nothing in the [try] block throws [null] or [undefined]. *)
Lemma clean_think_object (r : RequestUrlResponse) s :
  result (clean_think r s) <> ThrownNullish.
Proof.
  unfold clean_think, bind, await, ret, throw, result.
  destruct (json r) as [document|e]; [|discriminate]. cbn [fst snd].
  destruct (opt_get _ _) as [c|]; [|discriminate].
  destruct (truthy (Some c)); [|discriminate]. destruct c; discriminate.
Qed.

Lemma attempt_object transport requestBody i delay s :
  result (attempt transport requestBody i delay s) <> ThrownNullish.
Proof.
  unfold attempt, bind, emit, read, await, ret, result. simpl.
  destruct (transport i) as [r|e0]; simpl; [|discriminate].
  destruct (status r =? 429); simpl; [discriminate|].
  destruct (400 <=? status r); simpl.
  - destruct (api_error_message_pure r s) as [msg ->]. discriminate.
  - pose proof (clean_think_object r s) as Hc. unfold result in Hc.
    destruct (clean_think r s) as [[t s1] [[c|e1]|]]; simpl in *;
      [discriminate | discriminate | contradiction].
Qed.

(** The three ways one run of the [try] block ends: it always sends one
    request and leaves the settings alone. *)
Lemma attempt_shape transport requestBody i delay s :
  exists tail out,
    attempt transport requestBody i delay s =
    ([StatusBar setGenerating; request_of s requestBody] ++ tail, s, out)
    /\ ((exists response, out = Returned (inl response) /\ tail = [StatusBar setSuccess])
        \/ (out = Returned (inr (delay * 2)%Q)
            /\ tail = [Notice (RateLimitNotice delay); StatusBar (setRateLimited delay);
                       SetTimeout delay])
        \/ (exists e, out = Thrown e /\ tail = [])).
Proof.
  pose proof (attempt_object transport requestBody i delay s) as Hobj.
  destruct (result (attempt transport requestBody i delay s)) as [[[response|d]|e]|] eqn:E;
    [| | |contradiction].
  - exists [StatusBar setSuccess], (Returned (inl response)). split; [|left; eauto].
    revert E. unfold attempt, bind, emit, read, await, ret, result. simpl.
    destruct (transport i) as [r|e0]; simpl; [|discriminate].
    destruct (status r =? 429); simpl; [discriminate|].
    destruct (400 <=? status r); simpl.
    + destruct (api_error_message_pure r s) as [msg ->]. discriminate.
    + pose proof (clean_think_pure r s) as [Ht Hs].
      destruct (clean_think r s) as [[t s1] [[c|e1]|]];
        unfold effects, final in *; simpl in *; [|discriminate|discriminate].
      intros [= <-]. now subst.
  - exists [Notice (RateLimitNotice delay); StatusBar (setRateLimited delay);
            SetTimeout delay], (Returned (inr (delay * 2)%Q)).
    split; [|right; left; eauto].
    revert E. unfold attempt, bind, emit, read, await, ret, result. simpl.
    destruct (transport i) as [r|e0]; simpl; [|discriminate].
    destruct (status r =? 429); simpl; [reflexivity|].
    destruct (400 <=? status r); simpl.
    + destruct (api_error_message_pure r s) as [msg ->]. discriminate.
    + destruct (clean_think r s) as [[t s1] [[c|e1]|]]; discriminate.
  - exists [], (Thrown e). split; [|right; right; eauto].
    now apply attempt_thrown.
Qed.

Lemma attempts_frame transport requestBody retries n i delay s :
  let run := attempts transport requestBody retries n i delay s in
  (requests (effects run) <= n)%nat
  /\ (length (waits (effects run)) <= n)%nat
  /\ final run = s
  /\ saves (effects run) = 0%nat.
Proof.
  revert i delay. induction n as [|n IH]; intros i delay; [repeat split; auto|].
  cbv zeta.
  remember (attempts transport requestBody retries (S n) i delay s) as run eqn:Hrun.
  cbn [attempts] in Hrun. unfold bind at 1, try_catch in Hrun.
  destruct (attempt_shape transport requestBody i delay s)
    as (tail & out & E & [(response & -> & ->) | [(-> & ->) | (e & -> & ->)]]);
    rewrite E in Hrun.
  - subst run. unfold ret, effects, final, requests, saves, request_of. simpl. repeat split; auto; lia.
  - specialize (IH (S i) (delay * 2)%Q). cbv zeta in IH.
    destruct (attempts transport requestBody retries n (S i) (delay * 2)%Q s)
      as [[t s'] out]. subst run. unfold effects, final, requests, saves, request_of in *. simpl in *.
    destruct IH as (H1 & H2 & H3 & H4). repeat split; auto; lia.
  - destruct (Nat.eqb i (retries - 1)).
    + subst run. unfold bind, emit, throw, effects, final, requests, saves, request_of. simpl.
      repeat split; auto; lia.
    + specialize (IH (S i) (delay * (3 # 2))%Q). cbv zeta in IH.
      unfold bind, emit, ret in Hrun. simpl in Hrun.
      destruct (attempts transport requestBody retries n (S i) (delay * (3 # 2))%Q s)
        as [[t s'] out]. subst run. unfold effects, final, requests, saves, request_of in *. simpl in *.
      destruct IH as (H1 & H2 & H3 & H4). repeat split; auto; lia.
Qed.

(** X8. Whatever the transport answers, [fetchWithRetry] sends at most
    [retries] requests and waits at most [retries] times; with [retries = 0]
    it sends nothing. *)
Theorem fetchWithRetry_bounded (transport : nat -> outcome RequestUrlResponse)
    (requestBody : RequestBody) (retries : nat) (delay : Q) (s : OpenRouterSettings) :
  let run := fetchWithRetry transport requestBody retries delay s in
  (requests (effects run) <= retries)%nat
  /\ (length (waits (effects run)) <= retries)%nat.
Proof.
  intros run. unfold run, fetchWithRetry, bind, emit.
  destruct (attempts_frame transport requestBody retries retries 0 delay s)
    as (H1 & H2 & _).
  destruct (attempts transport requestBody retries retries 0 delay s) as [[t s'] out].
  unfold effects in *. simpl in *. split; assumption.
Qed.

(** X9. [fetchWithRetry] reads the settings and never writes them: the
    settings it leaves are the ones it found, and nothing is saved. *)
Theorem fetchWithRetry_leaves_settings (transport : nat -> outcome RequestUrlResponse)
    (requestBody : RequestBody) (retries : nat) (delay : Q) (s : OpenRouterSettings) :
  let run := fetchWithRetry transport requestBody retries delay s in
  final run = s /\ saves (effects run) = 0%nat.
Proof.
  intros run. unfold run, fetchWithRetry, bind, emit.
  destruct (attempts_frame transport requestBody retries retries 0 delay s)
    as (_ & _ & H3 & H4).
  destruct (attempts transport requestBody retries retries 0 delay s) as [[t s'] out].
  unfold effects, final in *. simpl in *. split; assumption.
Qed.

(** The waits of [n] failures in a row that are not rate limits. *)
Fixpoint backoffs (delay : Q) (n : nat) : list Q :=
  match n with
  | O => []
  | S n' => delay :: backoffs (delay * (3 # 2))%Q n'
  end.

Lemma attempt_transport_thrown transport requestBody i delay s e :
  transport i = Thrown e ->
  result (attempt transport requestBody i delay s) = Thrown e.
Proof.
  intros Ht. unfold attempt, bind, emit, read, await, result. simpl. now rewrite Ht.
Qed.

Lemma attempts_all_thrown transport requestBody retries (errors : nat -> error) s :
  (forall i delay, (i < retries)%nat ->
     result (attempt transport requestBody i delay s) = Thrown (errors i)) ->
  forall n i delay,
    (i + S n = retries)%nat ->
    let run := attempts transport requestBody retries (S n) i delay s in
    result run = Thrown (errors (retries - 1)%nat)
    /\ requests (effects run) = S n
    /\ waits (effects run) = backoffs delay n
    /\ List.last (effects run) SaveData = StatusBar (setError (lit "API Failed")).
Proof.
  intros Hall. induction n as [|n IH]; intros i delay Hi.
  - assert (i = (retries - 1)%nat) as Hlast by lia.
    assert (result (attempt transport requestBody i delay s) = Thrown (errors i)) as Ht
      by (apply Hall; lia).
    cbv zeta. rewrite (attempts_last_failure _ _ _ _ _ _ _ _ Ht Hlast).
    rewrite <- Hlast. repeat split.
  - assert (i <> (retries - 1)%nat) as Hne by lia.
    assert (result (attempt transport requestBody i delay s) = Thrown (errors i)) as Ht
      by (apply Hall; lia).
    cbv zeta. rewrite (attempts_failure _ _ _ (S n) _ _ _ _ Ht Hne).
    specialize (IH (S i) (delay * (3 # 2))%Q ltac:(lia)). cbv zeta in IH.
    destruct (attempts transport requestBody retries (S n) (S i) (delay * (3 # 2))%Q s)
      as [[t s'] out]. unfold result, effects in *. cbn [fst snd] in *.
    destruct IH as (H1 & H2 & H3 & H4). split; [exact H1|]. split; [|split].
    + change (requests ([StatusBar setGenerating; request_of s requestBody;
                         SetTimeout delay] ++ t) = S (S n)).
      rewrite requests_app, H2. reflexivity.
    + change (waits ([StatusBar setGenerating; request_of s requestBody;
                      SetTimeout delay] ++ t) = delay :: backoffs (delay * (3 # 2))%Q n).
      rewrite waits_app, H3. reflexivity.
    + rewrite last_app_r; [exact H4|].
      intros ->. discriminate H2.
Qed.

Lemma fetchWithRetry_all_thrown transport requestBody retries (errors : nat -> error)
    delay s :
  (1 <= retries)%nat ->
  (forall i d, (i < retries)%nat ->
     result (attempt transport requestBody i d s) = Thrown (errors i)) ->
  let run := fetchWithRetry transport requestBody retries delay s in
  result run = Thrown (errors (retries - 1)%nat)
  /\ requests (effects run) = retries
  /\ waits (effects run) = backoffs delay (retries - 1)
  /\ List.last (effects run) SaveData = StatusBar (setError (lit "API Failed")).
Proof.
  intros Hpos Hall run. unfold run, fetchWithRetry, bind, emit.
  destruct retries as [|n]; [lia|].
  destruct (attempts_all_thrown transport requestBody (S n) errors s Hall n 0%nat delay
              eq_refl) as (H1 & H2 & H3 & H4).
  destruct (attempts transport requestBody (S n) (S n) 0 delay s) as [[t s'] out].
  unfold result, effects in *. cbn [fst snd] in *.
  split; [exact H1|]. split; [|split].
  - change (requests ([StatusBar setConnecting] ++ t) = S n).
    rewrite requests_app, H2. reflexivity.
  - change (waits ([StatusBar setConnecting] ++ t) = backoffs delay (S n - 1)).
    rewrite waits_app, H3. simpl. now rewrite Nat.sub_0_r.
  - change (List.last ([StatusBar setConnecting] ++ t) SaveData =
            StatusBar (setError (lit "API Failed"))).
    rewrite last_app_r; [exact H4|]. intros ->. discriminate H2.
Qed.

(** X10. When the transport throws on every attempt, [fetchWithRetry]
    sends exactly [retries] requests, waits between them [delay],
    [1.5 * delay], ... ([retries - 1] waits, none after the last attempt),
    sets the status bar to the error state and throws what the last attempt
    threw. *)
Theorem fetchWithRetry_gives_up (transport : nat -> outcome RequestUrlResponse)
    (errors : nat -> error) (requestBody : RequestBody) (retries : nat) (delay : Q)
    (s : OpenRouterSettings) :
  (1 <= retries)%nat ->
  (forall i, (i < retries)%nat -> transport i = Thrown (errors i)) ->
  let run := fetchWithRetry transport requestBody retries delay s in
  result run = Thrown (errors (retries - 1)%nat)
  /\ requests (effects run) = retries
  /\ waits (effects run) = backoffs delay (retries - 1)
  /\ List.last (effects run) SaveData = StatusBar (setError (lit "API Failed")).
Proof.
  intros Hpos Hall. apply fetchWithRetry_all_thrown; [exact Hpos|].
  intros i d Hi. apply attempt_transport_thrown. now apply Hall.
Qed.

Lemma startsWith_app (p x : jsstring) : startsWith p (p ++ x) = true.
Proof. induction p as [|c p IH]; simpl; [reflexivity|]. now rewrite N.eqb_refl. Qed.

(** [errJson?.error?.message] *)
Definition error_message (document : JS.json) : option JS.json :=
  opt_get (opt_get (Some document) (lit "error")) (lit "message").

Lemma api_error_message_cases (r : RequestUrlResponse) s :
  let prefix := lit "API Error " ++ of_N (status r) in
  exists msg,
    api_error_message r s = ([], s, Returned msg)
    /\ startsWith prefix msg = true
    /\ (forall document m, json r = Returned document ->
          error_message document = Some (JStr m) -> m <> [] ->
          msg = prefix ++ lit ": " ++ m)
    /\ (forall e, json r = Thrown e -> msg = prefix)
    /\ (forall document, json r = Returned document ->
          truthy (error_message document) = false -> msg = prefix).
Proof.
  intros prefix.
  unfold api_error_message, try_catch, bind, await, ret, lift_option, throw.
  fold prefix.
  destruct (json r) as [document|e].
  - fold (error_message document).
    destruct (error_message document) as [m|] eqn:Em.
    + destruct (truthy (Some m)) eqn:Tm.
      * destruct (ToString m) as [text|] eqn:Et.
        -- exists (prefix ++ lit ": " ++ text). split; [reflexivity|].
           split; [apply startsWith_app|]. split; [|split].
           ++ intros d m' [= <-] Hm' _. rewrite Em in Hm'. injection Hm' as ->.
              simpl in Et. now injection Et as <-.
           ++ discriminate.
           ++ intros d [= <-] Hf. rewrite Em in Hf. congruence.
        -- exists prefix. split; [reflexivity|].
           split; [rewrite <- (app_nil_r prefix) at 2; apply startsWith_app|].
           split; [|split].
           ++ intros d m' [= <-] Hm' _. rewrite Em in Hm'. injection Hm' as ->.
              discriminate Et.
           ++ discriminate.
           ++ reflexivity.
      * exists prefix. split; [reflexivity|].
        split; [rewrite <- (app_nil_r prefix) at 2; apply startsWith_app|].
        split; [|split].
        -- intros d m' [= <-] Hm' Hne. rewrite Em in Hm'. injection Hm' as ->.
           destruct m'; [contradiction | discriminate Tm].
        -- discriminate.
        -- reflexivity.
    + exists prefix. split; [reflexivity|].
      split; [rewrite <- (app_nil_r prefix) at 2; apply startsWith_app|].
      split; [|split]; [intros d m' [= <-] Hm'; rewrite Em in Hm'; discriminate
                       | discriminate | reflexivity].
  - exists prefix. split; [reflexivity|].
    split; [rewrite <- (app_nil_r prefix) at 2; apply startsWith_app|].
    split; [|split]; [discriminate | reflexivity | discriminate].
Qed.

(** X11. A transport that answers every request with the same error
    status (400 or more, other than 429) is asked [retries] times; then
    [fetchWithRetry] throws an [Error] whose message starts with
    [API Error <status>], followed by [: ] and the [error.message] of the
    JSON body when that is a non-empty string, and by nothing when the body
    cannot be read or carries no message. *)
Theorem fetchWithRetry_api_error (r : RequestUrlResponse) (requestBody : RequestBody)
    (retries : nat) (delay : Q) (s : OpenRouterSettings) :
  (1 <= retries)%nat ->
  400 <= status r ->
  status r <> 429 ->
  let prefix := lit "API Error " ++ of_N (status r) in
  let run := fetchWithRetry (fun _ => Returned r) requestBody retries delay s in
  exists msg,
    result run = Thrown (Error msg)
    /\ requests (effects run) = retries
    /\ startsWith prefix msg = true
    /\ (forall document m, json r = Returned document ->
          error_message document = Some (JStr m) -> m <> [] ->
          msg = prefix ++ lit ": " ++ m)
    /\ (forall e, json r = Thrown e -> msg = prefix).
Proof.
  intros Hpos Hge Hne prefix run.
  destruct (api_error_message_cases r s) as (msg & Em & Hs & Hm & Ht & _).
  exists msg.
  destruct (fetchWithRetry_all_thrown (fun _ => Returned r) requestBody retries
              (fun _ => Error msg) delay s Hpos) as (H1 & H2 & _).
  { intros i d _. unfold attempt, bind, emit, read, await, ret, result. simpl.
    apply N.eqb_neq in Hne. rewrite Hne.
    apply N.leb_le in Hge. rewrite Hge. now rewrite Em. }
  repeat split; assumption.
Qed.

(** The cleaning step goes through: the body is readable and its message
    content, when truthy, is a string. *)
Definition cleanable (r : RequestUrlResponse) : bool :=
  match json r with
  | Returned document =>
      match message_content document with
      | Some (JStr _) | None => true
      | Some c => negb (truthy (Some c))
      end
  | Thrown _ => false
  end.

(** The answer lets the attempt return. *)
Definition succeeds (o : outcome RequestUrlResponse) : bool :=
  match o with
  | Returned r => negb (status r =? 429) && negb (400 <=? status r) && cleanable r
  | Thrown _ => false
  end.

Lemma attempt_succeeds transport requestBody i delay s :
  succeeds (transport i) = true ->
  exists response,
    attempt transport requestBody i delay s =
    ([StatusBar setGenerating; request_of s requestBody; StatusBar setSuccess],
     s, Returned (inl response)).
Proof.
  unfold succeeds. destruct (transport i) as [r|e] eqn:Ht; [|discriminate].
  intros Hs. apply andb_true_iff in Hs as [Hs Hc]. apply andb_true_iff in Hs as [H1 H2].
  apply negb_true_iff in H1, H2. apply N.eqb_neq in H1. apply N.leb_gt in H2.
  unfold cleanable in Hc. destruct (json r) as [document|e] eqn:Hj; [|discriminate].
  destruct (attempt_success transport requestBody i delay s r document Ht H1 H2 Hj)
    as (response & E & _).
  - intros c Ec Tc. rewrite Ec in Hc.
    destruct c; try (rewrite Tc in Hc; discriminate). now eexists.
  - now exists response.
Qed.

Lemma clean_think_not_cleanable (r : RequestUrlResponse) s :
  cleanable r = false -> exists e, clean_think r s = ([], s, Thrown e).
Proof.
  unfold cleanable, clean_think, bind, await, ret, throw.
  destruct (json r) as [document|e]; [|eauto].
  fold (message_content document).
  destruct (message_content document) as [c|]; [|discriminate].
  destruct c; try discriminate; intros Hc; apply negb_false_iff in Hc;
    rewrite Hc; eauto.
Qed.

Lemma attempt_not_succeeds transport requestBody i delay s response :
  succeeds (transport i) = false ->
  result (attempt transport requestBody i delay s) <> Returned (inl response).
Proof.
  unfold succeeds, attempt, bind, emit, read, await, ret, result.
  destruct (transport i) as [r|e]; cbn [fst snd]; [|discriminate].
  destruct (status r =? 429); cbn [negb andb]; [discriminate|].
  destruct (400 <=? status r); cbn [negb andb].
  - destruct (api_error_message_pure r s) as [msg ->]. discriminate.
  - intros Hc. destruct (clean_think_not_cleanable r s Hc) as [e ->]. discriminate.
Qed.

Lemma attempts_returns transport requestBody retries n i delay s t response :
  attempt transport requestBody i delay s = (t, s, Returned (inl response)) ->
  attempts transport requestBody retries (S n) i delay s =
  (t ++ [], s, Returned (Some response)).
Proof.
  intros E. cbn [attempts]. unfold bind at 1, try_catch. now rewrite E.
Qed.

Lemma attempts_continues transport requestBody retries n i delay s t delay' :
  attempt transport requestBody i delay s = (t, s, Returned (inr delay')) ->
  attempts transport requestBody retries (S n) i delay s =
  let '(t', s', out) := attempts transport requestBody retries n (S i) delay' s in
  (t ++ t', s', out).
Proof.
  intros E. cbn [attempts]. unfold bind at 1, try_catch. now rewrite E.
Qed.

Lemma attempts_first_success transport requestBody retries s :
  forall k n i delay,
    (i + n = retries)%nat ->
    (k < n)%nat ->
    succeeds (transport (i + k)%nat) = true ->
    (forall j, (j < k)%nat -> succeeds (transport (i + j)%nat) = false) ->
    let run := attempts transport requestBody retries n i delay s in
    (exists response, result run = Returned (Some response))
    /\ requests (effects run) = S k
    /\ List.last (effects run) SaveData = StatusBar setSuccess.
Proof.
  induction k as [|k IH]; intros n i delay Hi Hk Hs Hf.
  - destruct n as [|n]; [lia|]. rewrite Nat.add_0_r in Hs.
    destruct (attempt_succeeds transport requestBody i delay s Hs) as (response & E).
    cbv zeta. rewrite (attempts_returns _ _ _ _ _ _ _ _ _ E).
    unfold result, effects. cbn [fst snd]. split; [eauto|]. now split.
  - destruct n as [|n]; [lia|].
    assert (succeeds (transport i) = false) as H0
      by (rewrite <- (Nat.add_0_r i); apply Hf; lia).
    specialize (IH n (S i)).
    assert (forall d,
              let run := attempts transport requestBody retries n (S i) d s in
              (exists response, result run = Returned (Some response))
              /\ requests (effects run) = S k
              /\ List.last (effects run) SaveData = StatusBar setSuccess) as IH'.
    { intros d. apply IH; [lia | lia | |].
      - now rewrite Nat.add_succ_comm.
      - intros j Hj. rewrite Nat.add_succ_comm. apply Hf. lia. }
    clear IH. cbv zeta.
    destruct (attempt_shape transport requestBody i delay s)
      as (tail & out & E & [(response & -> & ->) | [(-> & ->) | (e & -> & ->)]]).
    + exfalso. apply (attempt_not_succeeds transport requestBody i delay s response H0).
      now rewrite E.
    + rewrite (attempts_continues _ _ _ _ _ _ _ _ _ E).
      specialize (IH' (delay * 2)%Q). cbv zeta in IH'.
      destruct (attempts transport requestBody retries n (S i) (delay * 2)%Q s)
        as [[t s'] out]. unfold result, effects in *. cbn [fst snd] in *.
      destruct IH' as (H1 & H2 & H3). split; [exact H1|]. split.
      * rewrite requests_app, H2. reflexivity.
      * rewrite last_app_r; [exact H3|]. intros ->. discriminate H2.
    + assert (result (attempt transport requestBody i delay s) = Thrown e) as Ht
        by now rewrite E.
      assert (i <> (retries - 1)%nat) as Hlast by lia.
      rewrite (attempts_failure _ _ _ n _ _ _ _ Ht Hlast).
      specialize (IH' (delay * (3 # 2))%Q). cbv zeta in IH'.
      destruct (attempts transport requestBody retries n (S i) (delay * (3 # 2))%Q s)
        as [[t s'] out]. unfold result, effects in *. cbn [fst snd] in *.
      destruct IH' as (H1 & H2 & H3). split; [exact H1|]. split.
      * rewrite requests_app, H2. reflexivity.
      * rewrite last_app_r; [exact H3|]. intros ->. discriminate H2.
Qed.

(** X12. The first answer that lets an attempt return ends the call: if
    attempt [k] (counted from 0, [k < retries]) is the first whose answer is
    neither a 429, nor a status of 400 or more, nor unreadable, then
    [fetchWithRetry] returns a response after exactly [k + 1] requests and
    the last thing it does is to set the status bar to success. *)
Theorem fetchWithRetry_first_success (transport : nat -> outcome RequestUrlResponse)
    (requestBody : RequestBody) (retries k : nat) (delay : Q) (s : OpenRouterSettings) :
  (k < retries)%nat ->
  succeeds (transport k) = true ->
  (forall j, (j < k)%nat -> succeeds (transport j) = false) ->
  let run := fetchWithRetry transport requestBody retries delay s in
  (exists response, result run = Returned (Some response))
  /\ requests (effects run) = S k
  /\ List.last (effects run) SaveData = StatusBar setSuccess.
Proof.
  intros Hk Hs Hf run. unfold run, fetchWithRetry, bind, emit.
  destruct (attempts_first_success transport requestBody retries s k retries 0%nat delay
              eq_refl Hk Hs Hf) as (H1 & H2 & H3).
  destruct (attempts transport requestBody retries retries 0 delay s) as [[t s'] out].
  unfold result, effects in *. cbn [fst snd] in *.
  split; [exact H1|]. split.
  - change (requests ([StatusBar setConnecting] ++ t) = S k).
    rewrite requests_app, H2. reflexivity.
  - change (List.last ([StatusBar setConnecting] ++ t) SaveData = StatusBar setSuccess).
    rewrite last_app_r; [exact H3|]. intros ->. discriminate H2.
Qed.

Lemma own_set_own (k : jsstring) (v : JS.json) props : own k (set_own k v props) = Some v.
Proof.
  induction props as [|[k' v'] props IH]; simpl.
  - now rewrite eqb_refl.
  - destruct (JSString.eqb k k') eqn:E; simpl; [now rewrite eqb_refl | now rewrite E].
Qed.

(** Reading back what [assign_content] wrote. *)
Lemma message_content_assign (v c : JS.json) (document : JS.json) :
  message_content document = Some c ->
  message_content (assign_content v document) = Some v.
Proof.
  unfold message_content, assign_content.
  destruct document as [| | | | |props]; simpl; try discriminate.
  destruct (own (lit "choices") props) as [choices|] eqn:Ec; [|discriminate].
  simpl. rewrite own_set_own.
  destruct choices as [| | | text |[|first rest]|cprops]; simpl; try discriminate.
  - destruct text; simpl; discriminate.
  - destruct first as [| | | | |fprops]; simpl; try discriminate.
    destruct (own (lit "message") fprops) as [message|] eqn:Em; [|discriminate].
    simpl. rewrite own_set_own.
    destruct message as [| | | | |mprops]; simpl; try discriminate.
    intros _. apply own_set_own.
  - destruct (own (lit "0") cprops) as [first|] eqn:E0; [|discriminate].
    simpl. rewrite own_set_own.
    destruct first as [| | | | |fprops]; simpl; try discriminate.
    destruct (own (lit "message") fprops) as [message|] eqn:Em; [|discriminate].
    simpl. rewrite own_set_own.
    destruct message as [| | | | |mprops]; simpl; try discriminate.
    intros _. apply own_set_own.
Qed.

(** X13. When the first answer is a success whose message content is a
    non-empty string, the response [fetchWithRetry] returns keeps the status
    and carries, at [choices[0].message.content], that string with its
    think blocks removed and then trimmed. *)
Theorem fetchWithRetry_returns_cleaned_content
    (transport : nat -> outcome RequestUrlResponse) (r : RequestUrlResponse)
    (document : JS.json) (content : jsstring) (requestBody : RequestBody)
    (retries : nat) (delay : Q) (s : OpenRouterSettings) :
  (1 <= retries)%nat ->
  transport 0%nat = Returned r ->
  status r <> 429 ->
  status r < 400 ->
  json r = Returned document ->
  message_content document = Some (JStr content) ->
  content <> [] ->
  exists document',
    result (fetchWithRetry transport requestBody retries delay s) =
      Returned (Some {| status := status r; json := Returned document' |})
    /\ message_content document' = Some (JStr (trim (strip_think content))).
Proof.
  intros Hpos Ht Hne Hlt Hj Hc Hcontent.
  exists (assign_content (JStr (trim (strip_think content))) document).
  split; [|now apply (message_content_assign _ (JStr content))].
  destruct retries as [|n]; [lia|].
  unfold fetchWithRetry, bind at 1, emit. cbn [attempts].
  unfold bind at 1, try_catch.
  assert (attempt transport requestBody 0 delay s =
          ([StatusBar setGenerating; request_of s requestBody; StatusBar setSuccess], s,
           Returned (inl {| status := status r;
                            json := Returned (assign_content
                                                (JStr (trim (strip_think content)))
                                                document) |}))) as ->.
  { unfold attempt, bind, emit, read, await, ret. rewrite Ht.
    apply N.eqb_neq in Hne. rewrite Hne.
    assert ((400 <=? status r) = false) as -> by (apply N.leb_gt; assumption).
    unfold clean_think, bind, await, ret, throw. rewrite Hj.
    fold (message_content document). rewrite Hc.
    destruct content; [contradiction | reflexivity]. }
  reflexivity.
Qed.

End RetryMore.

(** ** More on the stream manager *)

Section StreamMore.
Context `{JSNumber} `{!JSONParser}.
Import StreamManager.

Lemma on_line_returns (onToken : Callback json) (onReasoning : option (Callback json))
    (line : jsstring) (fullText : locals) :
  result (on_line onToken onReasoning line fullText) = Returned tt.
Proof.
  unfold on_line. destruct (_ || _); [reflexivity|].
  destruct (startsWith _ _); [|reflexivity].
  unfold try_catch.
  match goal with |- context [match ?m fullText with _ => _ end] =>
    destruct (m fullText) as [[t s1] [[[]|e]|]] end; reflexivity.
Qed.

Lemma on_line_v1_returns (onToken : Callback json) (line : jsstring) (fullText : locals) :
  result (on_line_v1 onToken line fullText) = Returned tt.
Proof.
  unfold on_line_v1. destruct (_ || _); [reflexivity|].
  destruct (startsWith _ _); [|reflexivity].
  unfold try_catch.
  match goal with |- context [match ?m fullText with _ => _ end] =>
    destruct (m fullText) as [[t s1] [[[]|e]|]] end; reflexivity.
Qed.

(** X14. Whatever the callbacks do, the handling of one line ends normally
    in both revisions: an exception thrown by [onToken] or [onReasoning]
    is caught by the [try] around [JSON.parse] and never leaves the loop. *)
Theorem line_handlers_never_throw (onToken : Callback json)
    (onReasoning : option (Callback json)) (line : jsstring) (fullText : locals) :
  result (on_line onToken onReasoning line fullText) = Returned tt
  /\ result (on_line_v1 onToken line fullText) = Returned tt.
Proof. split; [apply on_line_returns | apply on_line_v1_returns]. Qed.

(** X15. The text is accumulated before the callback is called, and the
    callback runs inside the [try] meant for [JSON.parse]: when [onToken]
    throws on a well-formed text frame, the token is part of [fullText]
    all the same and the line is reported as one that failed to parse. *)
Theorem throwing_token_callback_is_logged (onToken : Callback json)
    (onReasoning : option (Callback json)) (line token : jsstring)
    (fullText : locals) (t : list effect) (e : error) :
  well_formed (TextFrame line token) = true ->
  onToken (JStr token) tt = (t, tt, Thrown e) ->
  on_line onToken onReasoning line fullText =
  (t ++ [ConsoleWarn line], fullText ++ token, Returned tt).
Proof.
  unfold well_formed. intros W Hcb. apply andb_true_iff in W as [_ W].
  destruct (data_payload line) as [text|] eqn:Ep; [|discriminate].
  destruct (JSON_parse text) as [data|] eqn:Ej; [|discriminate].
  destruct (frame_delta data) as [delta|] eqn:Ed; [|discriminate].
  apply andb_true_iff in W as [W Wr]. apply andb_true_iff in W as [Wd Wc].
  apply is_text_Some in Wc as [Ec Tc].
  apply data_payload_Some in Ep as (E1 & E2 & E3).
  unfold on_line. rewrite E1, E2, E3, Ej.
  unfold try_catch, bind at 1. unfold lift_option, ret. unfold bind at 1.
  destruct (member_data (S := locals) data delta fullText Ed) as [-> ->].
  unfold when_truthy at 1. rewrite Wd. unfold bind at 1.
  rewrite Ec. unfold when_truthy at 1. rewrite <- Ec, Tc.
  unfold append_fullText, bind, lift_option, ret, modify, call, emit.
  cbn [ToString]. rewrite Hcb. reflexivity.
Qed.

Lemma for_of_ext {S A} (l : list A) (f g : A -> Eff S unit) s :
  (forall a s', f a s' = g a s') -> for_of l f s = for_of l g s.
Proof.
  intros E. revert s. induction l as [|x l IH]; intros s; simpl; [reflexivity|].
  unfold bind. rewrite E.
  destruct (g x s) as [[t s1] [[[]|e]|]]; [|reflexivity|reflexivity].
  now rewrite IH.
Qed.

Lemma read_loop_ext (f g : jsstring -> Eff locals unit) chunks rejection decoder buffer s :
  (forall line s', f line s' = g line s') ->
  read_loop f chunks rejection decoder buffer s =
  read_loop g chunks rejection decoder buffer s.
Proof.
  intros E. revert decoder buffer s.
  induction chunks as [|value rest IH]; intros decoder buffer s; [reflexivity|].
  cbn [read_loop]. destruct (TextDecoder.decode decoder value) as [decoder' chunk].
  unfold bind. rewrite (for_of_ext _ f g s E).
  destruct (for_of _ g s) as [[t s1] [[[]|e]|]]; [|reflexivity|reflexivity].
  now rewrite IH.
Qed.

Lemma bind_pure {S A B} (m : Eff S A) (f : A -> Eff S B) a s :
  m s = ([], s, Returned a) -> bind m f s = f a s.
Proof. intros E. unfold bind. rewrite E. now destruct (f a s) as [[t s'] r]. Qed.

Lemma bind_thrown {S A B} (m : Eff S A) (f : A -> Eff S B) t s s1 e :
  m s = (t, s1, Thrown e) -> bind m f s = (t, s1, Thrown e).
Proof. intros E. unfold bind. now rewrite E. Qed.

(** The [if (!response.ok)] block always ends in a [throw]. *)
Lemma not_ok_throws (r : response) (s : locals) :
  exists msg,
    bind (api_error_message r) (fun errorMsg => throw (A := unit) (Error errorMsg)) s =
    ([], s, Thrown (Error msg)).
Proof.
  destruct (api_error_message_quiet r s) as [msg E]. exists msg.
  now rewrite (bind_pure _ _ _ _ E).
Qed.

(** Without a reasoning callback the newer line handler is the older one. *)
Lemma on_line_without_reasoning (onToken : Callback json) line s :
  on_line onToken None line s = on_line_v1 onToken line s.
Proof.
  unfold on_line, on_line_v1. destruct (_ || _); [reflexivity|].
  destruct (startsWith _ _); [|reflexivity].
  apply try_catch_cong. unfold lift_option.
  destruct (JSON_parse _) as [data|]; [|reflexivity].
  rewrite !bind_ret_l.
  assert (data = JNull \/
          forall s' : locals,
            member (Some data) (lit "choices") s' =
            ([], s', Returned (get data (lit "choices")))) as [-> | Hm].
  { destruct data; auto. }
  { reflexivity. }
  rewrite !(bind_pure _ _ _ _ (Hm s)).
  set (choices := get data (lit "choices")).
  assert (forall s' : locals,
            (choices0 <- member (Some data) (lit "choices") ;;
             (if truthy (opt_get (opt_index0 choices0) (lit "finish_reason"))
              then ret tt else ret tt)) s' = ([], s', Returned tt)) as Hk.
  { intros s'. unfold bind. rewrite Hm. now destruct (truthy _). }
  destruct (opt_get (opt_index0 choices) (lit "delta")) as [delta|] eqn:Ed.
  - destruct (truthy (Some delta)) eqn:Td.
    + rewrite (opt_get_truthy _ _ Td). unfold when_truthy at 1. rewrite Td.
      apply bind_ext. intros _ s'. now rewrite Hk.
    + rewrite when_truthy_false by exact Td.
      assert (opt_get (Some delta) (lit "content") = None) as ->
        by (destruct delta; simpl in *; congruence).
      erewrite bind_pure by reflexivity. now rewrite Hk.
  - rewrite when_truthy_false by reflexivity.
    unfold opt_get at 1. erewrite bind_pure by reflexivity. now rewrite Hk.
Qed.

(** Whether [streamRequest] reaches the single-document branch. *)
Definition takes_fallback (net : outcome response) : bool :=
  match net with
  | Returned r =>
      ok r && match body r with Some _ => true | None => false end && declares_json r
  | Thrown _ => false
  end.

(** X16. The two revisions agree wherever the older one is defined: called
    without a reasoning callback, on an answer that does not lead to the
    single-document branch, [streamRequest] of the newer file does exactly
    what [streamRequest] of [src/streamManager.ts] does, for any callbacks
    and any body. *)
Theorem revisions_agree_without_reasoning (net : outcome response)
    (url apiKey : jsstring) (requestBody : list (jsstring * json))
    (onToken onComplete : Callback json) (onError : Callback error) (s : locals) :
  takes_fallback net = false ->
  streamRequest net url apiKey requestBody onToken onError onComplete None s =
  streamRequest_v1 net url apiKey requestBody onToken onError onComplete s.
Proof.
  intros Hf. unfold streamRequest, streamRequest_v1.
  apply try_catch_cong, bind_ext. intros _ s0.
  destruct net as [r|e]; [|reflexivity].
  rewrite !bind_await. cbn [takes_fallback] in Hf.
  destruct (ok r) eqn:Hok; cbn [negb andb] in *.
  - apply bind_ext. intros _ s1.
    destruct (body r) as [stream|]; [|reflexivity].
    cbn [andb] in Hf. cbv zeta.
    destruct (includes _ _) eqn:E; [change (declares_json r = true) in E; congruence|].
    apply bind_cong_l, read_loop_ext. intros line s'. apply on_line_without_reasoning.
  - destruct (not_ok_throws r s0) as [msg E].
    now rewrite !(bind_thrown _ _ _ _ _ _ E).
Qed.

(** [errorJson?.error?.message] *)
Definition stream_error_message (document : json) : option json :=
  opt_get (opt_get (Some document) (lit "error")) (lit "message").

Lemma stream_api_error_message_cases (r : response) (s : locals) :
  let prefix := lit "API Error " ++ of_N (Fetch.status r) in
  exists msg,
    api_error_message r s = ([], s, Returned msg)
    /\ startsWith prefix msg = true
    /\ (forall document m, json_body r = Returned document ->
          stream_error_message document = Some (JStr m) -> m <> [] ->
          msg = prefix ++ lit ": " ++ m)
    /\ (forall e, json_body r = Thrown e -> msg = prefix ++ lit ": " ++ statusText r)
    /\ (forall document, json_body r = Returned document ->
          truthy (stream_error_message document) = false -> msg = prefix).
Proof.
  intros prefix.
  unfold api_error_message, try_catch, bind, await, ret, lift_option, throw.
  fold prefix.
  assert (startsWith prefix prefix = true) as Hp
    by (rewrite <- (app_nil_r prefix) at 2; apply startsWith_app).
  destruct (json_body r) as [document|e].
  - fold (stream_error_message document).
    destruct (stream_error_message document) as [m|] eqn:Em.
    + destruct (truthy (Some m)) eqn:Tm.
      * destruct (ToString m) as [text|] eqn:Et.
        -- exists (prefix ++ lit ": " ++ text). split; [reflexivity|].
           split; [apply startsWith_app|]. split; [|split].
           ++ intros d m' [= <-] Hm' _. rewrite Em in Hm'. injection Hm' as ->.
              simpl in Et. now injection Et as <-.
           ++ discriminate.
           ++ intros d [= <-] Hf. rewrite Em in Hf. congruence.
        -- exists (prefix ++ lit ": " ++ statusText r). split; [reflexivity|].
           split; [apply startsWith_app|]. split; [|split].
           ++ intros d m' [= <-] Hm' _. rewrite Em in Hm'. injection Hm' as ->.
              discriminate Et.
           ++ discriminate.
           ++ intros d [= <-] Hf. rewrite Em in Hf. congruence.
      * exists prefix. split; [reflexivity|]. split; [exact Hp|]. split; [|split].
        -- intros d m' [= <-] Hm' Hne. rewrite Em in Hm'. injection Hm' as ->.
           destruct m'; [contradiction | discriminate Tm].
        -- discriminate.
        -- reflexivity.
    + exists prefix. split; [reflexivity|]. split; [exact Hp|].
      split; [|split]; [intros d m' [= <-] Hm'; rewrite Em in Hm'; discriminate
                       | discriminate | reflexivity].
  - exists (prefix ++ lit ": " ++ statusText r). split; [reflexivity|].
    split; [apply startsWith_app|].
    split; [|split]; [discriminate | reflexivity | discriminate].
Qed.

(** X17. An answer that is not [ok] is reported through [onError] and
    through nothing else: after the request the only calls are
    [console.error] and [onError], both with an [Error] whose message
    starts with [API Error <status>]; it goes on with [: ] and the
    [error.message] of the JSON body when that is a non-empty string, and
    with [: ] and the status text when the body cannot be read.  No token,
    reasoning or completion callback is made, whatever the body holds. *)
Theorem stream_api_error_is_reported (r : response) (url apiKey : jsstring)
    (requestBody : list (jsstring * json))
    (onToken onComplete : Callback json) (onError : Callback error)
    (onReasoning : option (Callback json)) (s : locals) :
  ok r = false ->
  let prefix := lit "API Error " ++ of_N (Fetch.status r) in
  exists msg,
    streamRequest (Returned r) url apiKey requestBody
      onToken onError onComplete onReasoning s =
    (let '(t, _, out) := onError (Error msg) tt in
     (stream_request_of url apiKey requestBody :: ConsoleError (Error msg) :: t, s, out))
    /\ startsWith prefix msg = true
    /\ (forall document m, json_body r = Returned document ->
          stream_error_message document = Some (JStr m) -> m <> [] ->
          msg = prefix ++ lit ": " ++ m)
    /\ (forall e, json_body r = Thrown e -> msg = prefix ++ lit ": " ++ statusText r).
Proof.
  intros Hok prefix.
  destruct (stream_api_error_message_cases r s) as (msg & Em & Hs & Hm & Ht & _).
  exists msg. split; [|now repeat split].
  unfold streamRequest, try_catch. unfold bind at 1. unfold emit at 1.
  rewrite bind_await, Hok. cbn [negb].
  assert (bind (api_error_message r) (fun errorMsg => throw (A := unit) (Error errorMsg)) s
          = ([], s, Thrown (Error msg))) as E
    by now rewrite (bind_pure _ _ _ _ Em).
  rewrite (bind_thrown _ _ _ _ _ _ E).
  unfold on_failure. cbn [name Error].
  change (JSString.eqb (lit "Error") (lit "AbortError")) with false. cbv iota.
  unfold bind, emit, call. now destruct (onError (Error msg) tt) as [[t u] out].
Qed.

(** A computation that throws objects only, never [null] or [undefined]. *)
Definition throws_objects {S A} (m : Eff S A) : Prop :=
  forall s, result (m s) <> ThrownNullish.

Lemma throws_objects_bind {S A B} (m : Eff S A) (f : A -> Eff S B) :
  throws_objects m -> (forall a, throws_objects (f a)) -> throws_objects (bind m f).
Proof.
  intros Hm Hf s. unfold bind. specialize (Hm s).
  destruct (m s) as [[t s1] [[a|e]|]]; unfold result in *; cbn [snd] in *;
    [|discriminate|contradiction].
  specialize (Hf a s1). now destruct (f a s1) as [[t' s2] r].
Qed.

Lemma throws_objects_settled {S A} (m : Eff S A) :
  (forall s, exists o : outcome A, result (m s) = o) -> throws_objects m.
Proof. intros Hm s. destruct (Hm s) as [o ->]. discriminate. Qed.

Lemma throws_objects_call {S A} (f : Callback A) (a : A) :
  result (f a tt) <> ThrownNullish -> throws_objects (S := S) (call f a).
Proof. intros Hf s. unfold call. now destruct (f a tt) as [[t u] r]. Qed.

Lemma throws_objects_when_truthy {S} (o : option json) (f : json -> Eff S unit) :
  (forall v, throws_objects (f v)) -> throws_objects (when_truthy o f).
Proof.
  intros Hf. unfold when_truthy. destruct o as [v|]; [|now intros s].
  destruct (truthy (Some v)); [apply Hf | now intros s].
Qed.

Lemma throws_objects_member {S} (o : option json) k : throws_objects (S := S) (member o k).
Proof. now destruct o as [[]|]. Qed.

Lemma throws_objects_for_of {S A} (l : list A) (f : A -> Eff S unit) :
  (forall a, throws_objects (f a)) -> throws_objects (for_of l f).
Proof.
  intros Hf. induction l as [|x l IH]; simpl; [now intros s|].
  apply throws_objects_bind; [apply Hf | intros _; exact IH].
Qed.

Lemma throws_objects_read_loop (f : jsstring -> Eff locals unit)
    chunks rejection decoder buffer :
  (forall line, throws_objects (f line)) ->
  throws_objects (read_loop f chunks rejection decoder buffer).
Proof.
  intros Hf. revert decoder buffer.
  induction chunks as [|value rest IH]; intros decoder buffer; cbn [read_loop].
  - destruct rejection; now intros s.
  - destruct (TextDecoder.decode decoder value) as [decoder' chunk].
    apply throws_objects_bind; [now apply throws_objects_for_of | intros _; apply IH].
Qed.

Lemma throws_objects_not_ok (r : response) :
  throws_objects
    (bind (api_error_message r) (fun errorMsg => throw (A := unit) (Error errorMsg))).
Proof. intros s. destruct (not_ok_throws r s) as [msg ->]. discriminate. Qed.

(** The callbacks of a call throw objects only. *)
Definition callbacks_throw_objects (onToken onComplete : Callback json)
    (onReasoning : option (Callback json)) : Prop :=
  (forall v, result (onToken v tt) <> ThrownNullish)
  /\ (forall v, result (onComplete v tt) <> ThrownNullish)
  /\ (forall f v, onReasoning = Some f -> result (f v tt) <> ThrownNullish).

Lemma throws_objects_fallback (r : response) (onToken onComplete : Callback json)
    (onReasoning : option (Callback json)) :
  callbacks_throw_objects onToken onComplete onReasoning ->
  throws_objects (fallback r onToken onComplete onReasoning).
Proof.
  intros (Ht & Hc & Hr). unfold fallback.
  apply throws_objects_bind; [intros s0; unfold await; now destruct (json_body r)|]. intros document.
  apply throws_objects_bind; [apply throws_objects_member|]. intros choices.
  apply throws_objects_when_truthy. intros choice.
  apply throws_objects_bind; [|intros _; apply throws_objects_bind].
  - destruct (truthy (Some _)); destruct onReasoning as [f|];
      try (apply throws_objects_call; now apply (Hr f)).
    all: apply throws_objects_bind;
      [ unfold content_includes_think; destruct (or_else _ _); now intros ?
      | intros found; destruct found; [|now intros ?];
        apply throws_objects_bind;
        [ unfold content_match_think; destruct (or_else _ _); now intros ?
        | intros [inner|]; try (now intros ?);
          try (apply throws_objects_call; now apply (Hr f)) ] ].
  - apply throws_objects_when_truthy. intros v. apply throws_objects_call, Ht.
  - intros _. apply throws_objects_call, Hc.
Qed.

(** The [try] block of either revision throws objects only, when the
    callbacks do. *)
Lemma throws_objects_stream (net : outcome response) (url apiKey : jsstring)
    (requestBody : list (jsstring * json))
    (onToken onComplete : Callback json) (onReasoning : option (Callback json)) :
  callbacks_throw_objects onToken onComplete onReasoning ->
  throws_objects
    (emit (stream_request_of url apiKey requestBody) ;;;
     response <- await net ;;
     (if negb (ok response) then
        errorMsg <- api_error_message response ;; throw (Error errorMsg)
      else ret tt) ;;;
     match body response with
     | None => throw (Error (lit "No response body"))
     | Some stream =>
         if declares_json response then
           fallback response onToken onComplete onReasoning
         else
           read_loop (on_line onToken onReasoning) (chunks stream) (rejection stream)
             TextDecoder.fresh [] ;;;
           fullText <- read ;;
           call onComplete (JStr fullText)
     end)%eff
  /\ throws_objects
       (emit (stream_request_of url apiKey requestBody) ;;;
        response <- await net ;;
        (if negb (ok response) then
           errorMsg <- api_error_message response ;; throw (Error errorMsg)
         else ret tt) ;;;
        match body response with
        | None => throw (Error (lit "No response body"))
        | Some stream =>
            read_loop (on_line_v1 onToken) (chunks stream) (rejection stream)
              TextDecoder.fresh [] ;;;
            fullText <- read ;;
            call onComplete (JStr fullText)
        end)%eff.
Proof.
  intros Hcb. pose proof Hcb as (Ht & Hc & Hr).
  assert (forall stream (handler : jsstring -> Eff locals unit),
            (forall line fullText, result (handler line fullText) = Returned tt) ->
            throws_objects
              (read_loop handler (chunks stream) (rejection stream) TextDecoder.fresh [] ;;;
               fullText <- read ;;
               call onComplete (JStr fullText))%eff) as Hloop.
  { intros stream handler Hh.
    apply throws_objects_bind.
    - apply throws_objects_read_loop. intros line fullText. rewrite Hh. discriminate.
    - intros _. apply throws_objects_bind; [now intros s|].
      intros fullText. apply throws_objects_call, Hc. }
  split.
  - apply throws_objects_bind; [now intros s|]. intros _.
    apply throws_objects_bind; [intros s0; unfold await; now destruct net|]. intros response.
    apply throws_objects_bind.
    + destruct (negb _); [apply throws_objects_not_ok | now intros s].
    + intros _. destruct (body response) as [stream|]; [|now intros s].
      destruct (declares_json response); [now apply throws_objects_fallback|].
      apply Hloop. intros line fullText. apply on_line_returns.
  - apply throws_objects_bind; [now intros s|]. intros _.
    apply throws_objects_bind; [intros s0; unfold await; now destruct net|]. intros response.
    apply throws_objects_bind.
    + destruct (negb _); [apply throws_objects_not_ok | now intros s].
    + intros _. destruct (body response) as [stream|]; [|now intros s].
      apply Hloop. intros line fullText. apply on_line_v1_returns.
Qed.

(** A [try] that throws objects only and whose handler returns on every
    object, returns. *)
Lemma try_catch_returns {S} (m : Eff S unit) (h : thrown -> Eff S unit) s :
  result (m s) <> ThrownNullish ->
  (forall (e : error) s', result (h e s') = Returned tt) ->
  result (try_catch m h s) = Returned tt.
Proof.
  intros Hm Hh. unfold try_catch.
  destruct (m s) as [[t s1] [[[]|e]|]]; [reflexivity | | now unfold result in Hm].
  specialize (Hh e s1). now destruct (h e s1) as [[t' s2] r].
Qed.

Lemma on_failure_returns (onError : Callback error) (e : error) (s : locals) :
  (forall e, result (onError e tt) = Returned tt) ->
  result (on_failure onError e s) = Returned tt.
Proof.
  intros Hcb. unfold on_failure.
  destruct (JSString.eqb _ _); [reflexivity|].
  unfold bind, emit, call. specialize (Hcb e).
  now destruct (onError e tt) as [[t u] r].
Qed.

(** With recording callbacks the older revision always returns. *)
Lemma recorded_stream_returns (net : outcome response) (url apiKey : jsstring)
    (requestBody : list (jsstring * json)) (s : locals) :
  result (streamRequest_v1 net url apiKey requestBody
            record_token record_error record_complete s) = Returned tt.
Proof.
  destruct (throws_objects_stream net url apiKey requestBody record_token record_complete
              None) as [_ H1].
  { repeat split; try discriminate. }
  apply try_catch_returns; [apply H1|].
  intros e s'. now apply on_failure_returns.
Qed.

(** X18. The promise [streamRequest] returns is never rejected, in either
    revision, as long as [onError] does not throw and no callback throws
    [null] or [undefined]: whatever the network answers, whatever the body
    holds and whatever objects the other callbacks throw, the call ends
    normally.  (The outer [catch] reads [error.name]: on a thrown [null] or
    [undefined] that read throws in turn, see
    [null_thrown_by_onComplete_rejects].) *)
Theorem streamRequest_never_rejects (net : outcome response) (url apiKey : jsstring)
    (requestBody : list (jsstring * json))
    (onToken onComplete : Callback json) (onError : Callback error)
    (onReasoning : option (Callback json)) (s : locals) :
  (forall e, result (onError e tt) = Returned tt) ->
  (forall v, result (onToken v tt) <> ThrownNullish) ->
  (forall v, result (onComplete v tt) <> ThrownNullish) ->
  (forall f v, onReasoning = Some f -> result (f v tt) <> ThrownNullish) ->
  result (streamRequest net url apiKey requestBody
            onToken onError onComplete onReasoning s) = Returned tt
  /\ result (streamRequest_v1 net url apiKey requestBody
               onToken onError onComplete s) = Returned tt.
Proof.
  intros Hcb Ht Hc Hr.
  destruct (throws_objects_stream net url apiKey requestBody onToken onComplete
              onReasoning (conj Ht (conj Hc Hr))) as [H2 H1].
  split; apply try_catch_returns;
    [apply H2 | intros e s'; now apply on_failure_returns
    |apply H1 | intros e s'; now apply on_failure_returns].
Qed.

(** The text of the tokens handed to [onToken]. *)
Definition token_text (x : effect) : jsstring :=
  match x with
  | OnToken v => match ToString v with Some text => text | None => [] end
  | _ => []
  end.

(** A line handler that appends to [fullText] what it hands to [onToken],
    and reports no end. *)
Definition accumulates (handler : jsstring -> Eff locals unit) : Prop :=
  forall line fullText, exists t,
    handler line fullText = (t, fullText ++ flat_map token_text t, Returned tt)
    /\ no_terminal t = true.

Lemma accumulates_intro (run : list effect * locals * completion unit) fullText t f :
  run = (t, f, Returned tt) ->
  f = fullText ++ flat_map token_text t ->
  no_terminal t = true ->
  exists t, run = (t, fullText ++ flat_map token_text t, Returned tt)
            /\ no_terminal t = true.
Proof. intros -> -> Q. now exists t. Qed.

Ltac accumulated :=
  eapply accumulates_intro;
  [ reflexivity
  | cbn [app flat_map token_text];
    repeat match goal with E : ToString _ = _ |- _ => rewrite E end;
    rewrite ?app_nil_r; reflexivity
  | reflexivity ].

Lemma on_line_accumulates (onReasoning : option (Callback json)) :
  onReasoning = None \/ onReasoning = Some record_reasoning ->
  accumulates (on_line record_token onReasoning).
Proof.
  intros HR line fullText.
  unfold on_line, try_catch, bind, lift_option, member, when_truthy, append_fullText,
    call, record_token, emit, ret, throw, modify.
  destruct (negb _ || _); [accumulated|].
  destruct (startsWith _ _); [|accumulated].
  destruct (JSON_parse _) as [data|]; [|accumulated].
  destruct data; try accumulated.
  all: cbn [get].
  all: try (destruct (opt_get _ _) as [delta|]; [|accumulated];
            destruct (truthy (Some delta)); [|accumulated];
            destruct (get delta (lit "content")) as [content|];
            [destruct (truthy (Some content));
             [destruct (ToString content) eqn:Et; [|accumulated]|]|];
            destruct HR as [-> | ->]; try accumulated;
            unfold record_reasoning, emit;
            destruct (get delta (lit "reasoning")) as [reasoning|];
            try destruct (truthy (Some reasoning)); accumulated).
Qed.

Lemma on_line_v1_accumulates : accumulates (on_line_v1 record_token).
Proof.
  intros line fullText.
  destruct (on_line_accumulates None (or_introl eq_refl) line fullText) as (t & E & Q).
  exists t. now rewrite <- on_line_without_reasoning.
Qed.

Lemma for_of_accumulates handler lines fullText :
  accumulates handler ->
  exists t,
    for_of lines handler fullText = (t, fullText ++ flat_map token_text t, Returned tt)
    /\ no_terminal t = true.
Proof.
  intros Ha. revert fullText.
  induction lines as [|line lines IH]; intros fullText; simpl.
  - exists []. unfold ret. simpl. now rewrite app_nil_r.
  - destruct (Ha line fullText) as (t1 & E1 & Q1).
    destruct (IH (fullText ++ flat_map token_text t1)) as (t2 & E2 & Q2).
    exists (t1 ++ t2). unfold bind. rewrite E1, E2. split.
    + now rewrite flat_map_app, app_assoc.
    + now rewrite no_terminal_app, Q1, Q2.
Qed.

Lemma read_loop_accumulates handler chunks rejection decoder buffer fullText :
  accumulates handler ->
  exists t,
    read_loop handler chunks rejection decoder buffer fullText =
    (t, fullText ++ flat_map token_text t,
     match rejection with Some e => Thrown e | None => Returned tt end)
    /\ no_terminal t = true.
Proof.
  intros Ha. revert decoder buffer fullText.
  induction chunks as [|value chunks IH]; intros decoder buffer fullText; cbn [read_loop].
  - exists []. simpl. rewrite app_nil_r. now destruct rejection.
  - destruct (TextDecoder.decode decoder value) as [decoder' chunk].
    destruct (for_of_accumulates handler (removelast (split 10 (buffer ++ chunk)))
                fullText Ha) as (t1 & E1 & Q1).
    destruct (IH decoder' (List.last (split 10 (buffer ++ chunk)) [])
                (fullText ++ flat_map token_text t1)) as (t2 & E2 & Q2).
    exists (t1 ++ t2). unfold bind. rewrite E1, E2. split.
    + now rewrite flat_map_app, app_assoc.
    + now rewrite no_terminal_app, Q1, Q2.
Qed.

(** How a streamed call ends, after the effects [t] of its lines. *)
Definition stream_end (rejection : option error) (t : list effect) : list effect :=
  match rejection with
  | None => [OnComplete (JStr (flat_map token_text t))]
  | Some e =>
      if JSString.eqb (name e) (lit "AbortError")
      then [ConsoleLog (lit "Stream aborted")]
      else [ConsoleError e; OnError e]
  end.

(** X19. On the streaming path, for any bytes whatsoever in the body: the
    text handed to [onComplete] is the concatenation, in order, of the
    tokens handed to [onToken] before it; and when a read fails, the tokens
    delivered so far are followed by [onError] with the failure alone, or
    by nothing but a log line when the failure is an abort.  The same holds
    for the revision of [src/streamManager.ts]. *)
Theorem completion_text_is_the_tokens (r : response) (stream : body_stream)
    (url apiKey : jsstring) (requestBody : list (jsstring * json))
    (onReasoning : option (Callback json)) :
  onReasoning = None \/ onReasoning = Some record_reasoning ->
  ok r = true ->
  body r = Some stream ->
  declares_json r = false ->
  (exists t,
     no_terminal t = true
     /\ streamRequest (Returned r) url apiKey requestBody
          record_token record_error record_complete onReasoning initial =
        (stream_request_of url apiKey requestBody :: t ++ stream_end (rejection stream) t,
         flat_map token_text t, Returned tt))
  /\ (exists t,
        no_terminal t = true
        /\ streamRequest_v1 (Returned r) url apiKey requestBody
             record_token record_error record_complete initial =
           (stream_request_of url apiKey requestBody :: t ++ stream_end (rejection stream) t,
            flat_map token_text t, Returned tt)).
Proof.
  intros HR Hok Hb Hct. split.
  - destruct (read_loop_accumulates _ (chunks stream) (rejection stream)
                TextDecoder.fresh [] initial (on_line_accumulates onReasoning HR))
      as (t & E & Q).
    exists t. split; [exact Q|].
    unfold streamRequest, try_catch, bind, emit, await, ret.
    rewrite Hok, Hb.
    destruct (includes _ _) eqn:Ei; [change (declares_json r = true) in Ei; congruence|].
    cbn [negb]. rewrite E. unfold stream_end, on_failure.
    destruct (rejection stream) as [e|]; [|reflexivity].
    now destruct (JSString.eqb (name e) (lit "AbortError")).
  - destruct (read_loop_accumulates _ (chunks stream) (rejection stream)
                TextDecoder.fresh [] initial on_line_v1_accumulates)
      as (t & E & Q).
    exists t. split; [exact Q|].
    unfold streamRequest_v1, try_catch, bind, emit, await, ret.
    rewrite Hok, Hb. cbn [negb]. rewrite E. unfold stream_end, on_failure.
    destruct (rejection stream) as [e|]; [|reflexivity].
    now destruct (JSString.eqb (name e) (lit "AbortError")).
Qed.

Lemma split_newline_free sep x :
  forallb (fun c => negb (c =? sep)) x = true -> split sep x = [x].
Proof.
  induction x as [|c x IH]; simpl; [reflexivity|].
  intros Hc. apply andb_true_iff in Hc as [Hc Hx].
  apply negb_true_iff in Hc. now rewrite Hc, (IH Hx).
Qed.

Lemma last_split_newline_free sep x :
  forallb (fun c => negb (c =? sep)) (List.last (split sep x) []) = true.
Proof.
  induction x as [|c x IH]; simpl; [reflexivity|].
  pose proof (split_not_nil sep x) as Hne.
  destruct (c =? sep) eqn:E.
  - destruct (split sep x) as [|p rest]; [contradiction | exact IH].
  - destruct (split sep x) as [|p [|q rest]]; [contradiction | |exact IH].
    simpl in *. now rewrite E.
Qed.

(** Text after the last line feed adds no line. *)
Lemma complete_lines_app (x tail : jsstring) :
  newline_free tail = true ->
  removelast (split 10 (x ++ tail)) = removelast (split 10 x).
Proof.
  intros Ht. rewrite split_app.
  rewrite (split_newline_free 10 (List.last (split 10 x) [] ++ tail)).
  - now rewrite removelast_last.
  - unfold newline_free in Ht. rewrite forallb_app, Ht, andb_true_r.
    apply last_split_newline_free.
Qed.

(** The loop over one chunk: the handler runs on the complete lines, what
    follows the last line feed stays in [buffer] and is never looked at. *)
Lemma read_loop_single handler (chunk : list byte) rejection fullText :
  read_loop handler [chunk] rejection TextDecoder.fresh [] fullText =
  (for_of (removelast (split 10 (snd (TextDecoder.decode TextDecoder.fresh chunk)))) handler ;;;
   match rejection with
   | Some e => throw e
   | None => ret tt
   end)%eff fullText.
Proof.
  cbn [read_loop]. now destruct (TextDecoder.decode TextDecoder.fresh chunk) as [st decoded].
Qed.

Lemma read_loop_tail handler chunks chunks' (tail : jsstring) rejection fullText :
  newline_free tail = true ->
  snd (TextDecoder.decode TextDecoder.fresh (concat chunks')) =
    snd (TextDecoder.decode TextDecoder.fresh (concat chunks)) ++ tail ->
  read_loop handler chunks' rejection TextDecoder.fresh [] fullText =
  read_loop handler chunks rejection TextDecoder.fresh [] fullText.
Proof.
  intros Ht Hd.
  rewrite (read_loop_concat handler chunks'), (read_loop_concat handler chunks).
  rewrite !read_loop_single, Hd. now rewrite complete_lines_app.
Qed.

(** X20. A last line that is not ended by a line feed is dropped: text
    that follows the last line feed of the body changes nothing to what
    [streamRequest] does, in either revision, even when it is a complete
    [data:] frame.  The loop keeps it in [buffer] and never reads the
    buffer once the stream is done. *)
Theorem unterminated_last_line_is_dropped (r : response)
    (chunks chunks' : list (list byte)) (tail : jsstring) (rejection : option error)
    (url apiKey : jsstring) (requestBody : list (jsstring * json))
    (onToken onComplete : Callback json) (onError : Callback error)
    (onReasoning : option (Callback json)) (s : locals) :
  newline_free tail = true ->
  snd (TextDecoder.decode TextDecoder.fresh (concat chunks')) =
    snd (TextDecoder.decode TextDecoder.fresh (concat chunks)) ++ tail ->
  streamRequest (Returned (with_chunks r chunks' rejection)) url apiKey requestBody
    onToken onError onComplete onReasoning s =
  streamRequest (Returned (with_chunks r chunks rejection)) url apiKey requestBody
    onToken onError onComplete onReasoning s
  /\ streamRequest_v1 (Returned (with_chunks r chunks' rejection)) url apiKey requestBody
       onToken onError onComplete s =
     streamRequest_v1 (Returned (with_chunks r chunks rejection)) url apiKey requestBody
       onToken onError onComplete s.
Proof.
  intros Ht Hd. split.
  - unfold streamRequest. apply try_catch_cong, bind_ext. intros _ s0.
    rewrite !bind_await.
    change (api_error_message (with_chunks r chunks' rejection))
      with (api_error_message (with_chunks r chunks rejection)).
    apply bind_ext. intros _ s'.
    cbn [with_chunks Fetch.body Fetch.chunks Fetch.rejection Fetch.content_type].
    destruct (includes _ _); [reflexivity|].
    apply bind_cong_l. now apply (read_loop_tail _ _ _ tail).
  - unfold streamRequest_v1. apply try_catch_cong, bind_ext. intros _ s0.
    rewrite !bind_await.
    change (api_error_message (with_chunks r chunks' rejection))
      with (api_error_message (with_chunks r chunks rejection)).
    apply bind_ext. intros _ s'.
    cbn [with_chunks Fetch.body Fetch.chunks Fetch.rejection].
    apply bind_cong_l. now apply (read_loop_tail _ _ _ tail).
Qed.

Lemma own_set_own_other (k k' : jsstring) (v : json) props :
  k' <> k -> own k' (set_own k v props) = own k' props.
Proof.
  intros Hne. induction props as [|[k0 v0] props IH]; simpl.
  - destruct (JSString.eqb k' k) eqn:E; [apply eqb_eq in E; contradiction | reflexivity].
  - destruct (JSString.eqb k k0) eqn:E; simpl.
    + apply eqb_eq in E. subst k0.
      destruct (JSString.eqb k' k) eqn:E'; [apply eqb_eq in E'; contradiction | reflexivity].
    + destruct (JSString.eqb k' k0); [reflexivity | exact IH].
Qed.

(** X21. Both revisions start with one POST to [url], authorized with
    [Bearer ] followed by the key, whose payload is the request body with
    [stream] set to [true]: a [stream] entry of the caller is overridden,
    every other entry is sent as given. *)
Theorem request_forces_stream_flag (net : outcome response) (url apiKey : jsstring)
    (requestBody : list (jsstring * json))
    (onToken onComplete : Callback json) (onError : Callback error)
    (onReasoning : option (Callback json)) (s : locals) :
  exists sent rest rest_v1,
    effects (streamRequest net url apiKey requestBody
               onToken onError onComplete onReasoning s) =
      HttpRequest (lit "POST") url (lit "Bearer " ++ apiKey) (Some (JObj sent)) :: rest
    /\ effects (streamRequest_v1 net url apiKey requestBody
                  onToken onError onComplete s) =
      HttpRequest (lit "POST") url (lit "Bearer " ++ apiKey) (Some (JObj sent)) :: rest_v1
    /\ own (lit "stream") sent = Some (JBool true)
    /\ (forall k, k <> lit "stream" -> own k sent = own k requestBody).
Proof.
  assert (forall (k : unit -> Eff locals unit) (h : thrown -> Eff locals unit) x,
            exists rest, effects (try_catch (bind (emit x) k) h s) = x :: rest) as Hhead.
  { intros k h x. unfold try_catch, bind at 1, emit.
    destruct (k tt s) as [[t s1] [[a|e]|]]; [now exists t| |].
    - destruct (h e s1) as [[t' s2] r']. now exists (t ++ t').
    - destruct (h Nullish s1) as [[t' s2] r']. now exists (t ++ t'). }
  exists (with_stream requestBody).
  destruct (Hhead (fun _ =>
              response <- await net ;;
              (if negb (ok response) then
                 errorMsg <- api_error_message response ;; throw (Error errorMsg)
               else ret tt) ;;;
              match body response with
              | None => throw (Error (lit "No response body"))
              | Some stream =>
                  if includes (lit "application/json")
                       match content_type response with
                       | Some (c :: t) => c :: t
                       | _ => []
                       end
                  then fallback response onToken onComplete onReasoning
                  else
                    read_loop (on_line onToken onReasoning) (chunks stream)
                      (rejection stream) TextDecoder.fresh [] ;;;
                    fullText <- read ;;
                    call onComplete (JStr fullText)
              end)%eff
             (on_failure onError) (stream_request_of url apiKey requestBody))
    as [rest Hrest].
  destruct (Hhead (fun _ =>
              response <- await net ;;
              (if negb (ok response) then
                 errorMsg <- api_error_message response ;; throw (Error errorMsg)
               else ret tt) ;;;
              match body response with
              | None => throw (Error (lit "No response body"))
              | Some stream =>
                  read_loop (on_line_v1 onToken) (chunks stream)
                    (rejection stream) TextDecoder.fresh [] ;;;
                  fullText <- read ;;
                  call onComplete (JStr fullText)
              end)%eff
             (on_failure onError) (stream_request_of url apiKey requestBody))
    as [rest_v1 Hrest_v1].
  exists rest, rest_v1. split; [exact Hrest|]. split; [exact Hrest_v1|]. split.
  - apply own_set_own.
  - intros k Hk. now apply own_set_own_other.
Qed.

End StreamMore.

(** ** The plugin's streaming method and its credits *)

Section ProviderMore.
Context `{JSNumber} `{!JSONParser}.
Import StreamManager.

(** What [OpenRouterProvider.streamRequest] adds around each callback. *)
Definition decorate (x : effect) : list effect :=
  match x with
  | OnToken _ => [StatusBar updateProgress; x]
  | OnError _ => [StatusBar (setError (lit "Stream Error")); x]
  | OnComplete _ => [StatusBar setSuccess; x]
  | _ => [x]
  end.

(** [m'] does what [m] does, with every callback decorated. *)
Definition decorated {S A} (m m' : Eff S A) : Prop :=
  forall s, m' s = let '(t, s1, out) := m s in (flat_map decorate t, s1, out).

(** A computation without effects. *)
Definition silent {S A} (m : Eff S A) : Prop := forall s, effects (m s) = [].

Lemma decorated_silent {S A} (m : Eff S A) : silent m -> decorated m m.
Proof.
  intros Hm s. specialize (Hm s). destruct (m s) as [[t s1] out].
  unfold effects in Hm. simpl in Hm. now subst t.
Qed.

Lemma decorated_emit {S} (x : effect) :
  decorate x = [x] -> decorated (S := S) (emit x) (emit x).
Proof. intros E s. unfold emit. simpl. now rewrite E. Qed.

Lemma decorated_bind {S A B} (m m' : Eff S A) (f f' : A -> Eff S B) :
  decorated m m' -> (forall a, decorated (f a) (f' a)) ->
  decorated (bind m f) (bind m' f').
Proof.
  intros Hm Hf s. unfold bind. rewrite Hm.
  destruct (m s) as [[t s1] [[a|e]|]]; [|reflexivity|reflexivity].
  rewrite Hf. destruct (f a s1) as [[t' s2] r]. now rewrite flat_map_app.
Qed.

Lemma decorated_try_catch {S A} (m m' : Eff S A) (h h' : thrown -> Eff S A) :
  decorated m m' -> (forall e, decorated (h e) (h' e)) ->
  decorated (try_catch m h) (try_catch m' h').
Proof.
  intros Hm Hh s. unfold try_catch. rewrite Hm.
  destruct (m s) as [[t s1] [[a|e]|]]; [reflexivity| |].
  - rewrite Hh. destruct (h e s1) as [[t' s2] r]. now rewrite flat_map_app.
  - rewrite Hh. destruct (h Nullish s1) as [[t' s2] r]. now rewrite flat_map_app.
Qed.

Lemma decorated_when_truthy {S} (o : option json) (f f' : json -> Eff S unit) :
  (forall v, decorated (f v) (f' v)) -> decorated (when_truthy o f) (when_truthy o f').
Proof.
  intros Hf. unfold when_truthy. destruct o as [v|]; [|now intros s].
  destruct (truthy (Some v)); [apply Hf | now intros s].
Qed.

Lemma decorated_for_of {S A} (l : list A) (f f' : A -> Eff S unit) :
  (forall a, decorated (f a) (f' a)) -> decorated (for_of l f) (for_of l f').
Proof.
  intros Hf. induction l as [|x l IH]; simpl; [now intros s|].
  apply decorated_bind; [apply Hf | intros _; exact IH].
Qed.

Lemma decorated_read_loop (f f' : jsstring -> Eff locals unit)
    chunks rejection decoder buffer :
  (forall line, decorated (f line) (f' line)) ->
  decorated (read_loop f chunks rejection decoder buffer)
            (read_loop f' chunks rejection decoder buffer).
Proof.
  intros Hf. revert decoder buffer.
  induction chunks as [|value rest IH]; intros decoder buffer; cbn [read_loop].
  - destruct rejection; now intros s.
  - destruct (TextDecoder.decode decoder value) as [decoder' chunk].
    apply decorated_bind; [now apply decorated_for_of | intros _; apply IH].
Qed.

Lemma silent_bind {S A B} (m : Eff S A) (f : A -> Eff S B) :
  silent m -> (forall a, silent (f a)) -> silent (bind m f).
Proof.
  intros Hm Hf s. unfold bind. specialize (Hm s).
  destruct (m s) as [[t s1] [[a|e]|]]; unfold effects in *; simpl in *;
    [|exact Hm|exact Hm].
  specialize (Hf a s1). destruct (f a s1) as [[t' s2] r]. simpl in *. now subst.
Qed.

Lemma silent_lift_option {S A} (o : option A) e : silent (S := S) (lift_option o e).
Proof. now destruct o. Qed.

Lemma silent_member {S} (o : option json) k : silent (S := S) (member o k).
Proof. now destruct o as [[]|]. Qed.

Lemma silent_append_fullText (v : json) : silent (append_fullText v).
Proof.
  unfold append_fullText. apply silent_bind; [apply silent_lift_option | now intros a s].
Qed.

Lemma silent_api_error_message (r : response) : silent (api_error_message r).
Proof. intros s. now destruct (api_error_message_quiet r s) as [msg ->]. Qed.

(** The callbacks the plugin hands to the stream manager, around recording
    callbacks of the caller. *)
Definition progress_token : Callback json :=
  fun token => (emit (StatusBar updateProgress) ;;; call record_token token)%eff.
Definition failed_stream : Callback error :=
  fun error =>
    (emit (StatusBar (setError (lit "Stream Error"))) ;;; call record_error error)%eff.
Definition finished_stream : Callback json :=
  fun fullText => (emit (StatusBar setSuccess) ;;; call record_complete fullText)%eff.

Lemma decorated_on_line_v1 line :
  decorated (on_line_v1 record_token line) (on_line_v1 progress_token line).
Proof.
  unfold on_line_v1. destruct (_ || _); [now intros s|].
  destruct (startsWith _ _); [|now intros s].
  apply decorated_try_catch; [|intros e; now apply decorated_emit].
  apply decorated_bind; [apply decorated_silent, silent_lift_option|]. intros data.
  apply decorated_bind; [apply decorated_silent, silent_member|]. intros choices.
  apply decorated_bind.
  - apply decorated_when_truthy. intros delta.
    apply decorated_bind; [apply decorated_silent, silent_append_fullText|].
    intros _ s. reflexivity.
  - intros _. apply decorated_silent, silent_bind; [apply silent_member|].
    intros c. now destruct (truthy _).
Qed.

Lemma decorated_streamRequest_v1 (net : outcome response) (url apiKey : jsstring)
    (requestBody : list (jsstring * json)) :
  decorated
    (streamRequest_v1 net url apiKey requestBody record_token record_error record_complete)
    (streamRequest_v1 net url apiKey requestBody
       progress_token failed_stream finished_stream).
Proof.
  unfold streamRequest_v1. apply decorated_try_catch.
  - apply decorated_bind; [now apply decorated_emit|]. intros _.
    apply decorated_bind; [apply decorated_silent; now intros s|]. intros response.
    apply decorated_bind.
    + apply decorated_silent. destruct (negb _); [|now intros s].
      apply silent_bind; [apply silent_api_error_message | now intros a s].
    + intros _. destruct (body response) as [stream|]; [|now intros s].
      apply decorated_bind;
        [apply decorated_read_loop; intros line; apply decorated_on_line_v1|].
      intros _. apply decorated_bind; [apply decorated_silent; now intros s|].
      intros fullText s. reflexivity.
  - intros [e|]; unfold on_failure; [|now intros s].
    destruct (JSString.eqb _ _); [now apply decorated_emit|].
    apply decorated_bind; [now apply decorated_emit|]. intros _ s. reflexivity.
Qed.

(** X22. With an API key, [OpenRouterProvider.streamRequest] is the stream
    manager of [src/streamManager.ts] with the status bar driven from its
    callbacks: [setConnecting] first, [setThinking] when the model name
    contains [deepseek] or [reasoner], then the calls of the stream manager
    in their order, each token preceded by [updateProgress], the completion
    by [setSuccess] and an error by [setError].  The settings are not
    written and the call does not throw. *)
Theorem provider_stream_drives_status_bar (net : outcome response)
    (requestBody : OpenRouterProvider.RequestBody)
    (s : OpenRouterProvider.OpenRouterSettings) :
  OpenRouterProvider.apiKey s <> [] ->
  OpenRouterProvider.streamRequest net requestBody
    record_token record_complete record_error s =
  (StatusBar setConnecting
     :: (if includes (lit "deepseek") (OpenRouterProvider.model requestBody)
            || includes (lit "reasoner") (OpenRouterProvider.model requestBody)
         then [StatusBar setThinking] else [])
     ++ flat_map decorate
          (effects (streamRequest_v1 net (OpenRouterProvider.apiUrl s)
                      (OpenRouterProvider.apiKey s) (OpenRouterProvider.payload requestBody)
                      record_token record_error record_complete initial)),
   s, Returned tt).
Proof.
  intros Hkey. unfold OpenRouterProvider.streamRequest.
  rewrite (bind_pure _ _ s s eq_refl).
  destruct (OpenRouterProvider.apiKey s) as [|c key] eqn:Ek; [contradiction|].
  cbn [truthy negb]. unfold bind at 1. unfold emit at 1.
  assert (forall m : Eff locals unit,
            decorated (streamRequest_v1 net (OpenRouterProvider.apiUrl s) (c :: key)
                         (OpenRouterProvider.payload requestBody)
                         record_token record_error record_complete) m ->
            invoke (S := OpenRouterProvider.OpenRouterSettings) m initial s =
            (flat_map decorate
               (effects (streamRequest_v1 net (OpenRouterProvider.apiUrl s) (c :: key)
                           (OpenRouterProvider.payload requestBody)
                           record_token record_error record_complete initial)),
             s, Returned tt)) as Hinv.
  { intros m Hm. unfold invoke. rewrite Hm.
    pose proof (recorded_stream_returns net (OpenRouterProvider.apiUrl s) (c :: key)
                  (OpenRouterProvider.payload requestBody) initial) as Hr.
    destruct (streamRequest_v1 _ _ _ _ _ _ _ initial) as [[t f] out].
    unfold result, effects in *. simpl in *. now subst out. }
  unfold bind at 1.
  pose proof (Hinv _ (decorated_streamRequest_v1 net (OpenRouterProvider.apiUrl s)
                        (c :: key) (OpenRouterProvider.payload requestBody))) as E.
  unfold progress_token, failed_stream, finished_stream in E.
  destruct (includes _ _ || includes _ _); [unfold emit at 1 | unfold ret at 1];
    cbv iota beta; rewrite E; reflexivity.
Qed.

(** X23. Without an API key neither [streamRequest] nor [fetchCredits]
    reaches the network: the first shows the notice that the key is
    missing and calls none of its callbacks, the second answers [null];
    both leave the settings alone. *)
Theorem no_key_no_request (net : outcome response)
    (requestBody : OpenRouterProvider.RequestBody)
    (onToken onComplete : Callback json) (onError : Callback error)
    (credit_figure : OpenRouterProvider.RequestUrlResponse ->
                     OpenRouterProvider.RequestUrlResponse -> outcome jsstring)
    (answers : outcome (OpenRouterProvider.RequestUrlResponse *
                        OpenRouterProvider.RequestUrlResponse))
    (s : OpenRouterProvider.OpenRouterSettings) :
  OpenRouterProvider.apiKey s = [] ->
  OpenRouterProvider.streamRequest net requestBody onToken onComplete onError s =
    ([Notice ApiKeyMissingNotice], s, Returned tt)
  /\ OpenRouterProvider.fetchCredits credit_figure answers s = ([], s, Returned None).
Proof.
  intros Hkey. split.
  - unfold OpenRouterProvider.streamRequest. rewrite (bind_pure _ _ s s eq_refl).
    now rewrite Hkey.
  - unfold OpenRouterProvider.fetchCredits. rewrite (bind_pure _ _ s s eq_refl).
    now rewrite Hkey.
Qed.

(** X24. [fetchCredits] never throws and never writes the settings.  With
    a key it sends the two GET requests, and it answers a figure only when
    both were answered and the figure could be computed; any failure is
    logged and answered with [null]. *)
Theorem fetchCredits_never_throws
    (credit_figure : OpenRouterProvider.RequestUrlResponse ->
                     OpenRouterProvider.RequestUrlResponse -> outcome jsstring)
    (answers : outcome (OpenRouterProvider.RequestUrlResponse *
                        OpenRouterProvider.RequestUrlResponse))
    (s : OpenRouterProvider.OpenRouterSettings) :
  exists t out,
    OpenRouterProvider.fetchCredits credit_figure answers s = (t, s, Returned out)
    /\ requests t = match OpenRouterProvider.apiKey s with [] => 0%nat | _ => 2%nat end
    /\ saves t = 0%nat
    /\ (forall figure, out = Some figure ->
          exists both, answers = Returned both
                       /\ credit_figure (fst both) (snd both) = Returned figure)
    /\ (out = None -> OpenRouterProvider.apiKey s <> [] ->
          exists e, List.last t SaveData = ConsoleError e).
Proof.
  unfold OpenRouterProvider.fetchCredits. rewrite (bind_pure _ _ s s eq_refl).
  destruct (OpenRouterProvider.apiKey s) as [|c key] eqn:Ek.
  - exists [], None. repeat split; try reflexivity; [discriminate | congruence].
  - cbn [truthy negb]. unfold try_catch, bind, emit, await, ret.
    destruct answers as [both|e].
    + destruct (credit_figure both.1 both.2) as [figure|e] eqn:Ef.
      * eexists _, _. split; [reflexivity|]. repeat split; try reflexivity.
        -- intros f [= <-]. now exists both.
        -- discriminate.
      * eexists _, _. split; [reflexivity|]. repeat split; try reflexivity.
        -- discriminate.
        -- intros _ _. now exists e.
    + eexists _, _. split; [reflexivity|]. repeat split; try reflexivity.
      * discriminate.
      * intros _ _. now exists e.
Qed.

End ProviderMore.

(** ** Removing think blocks *)

Section ThinkBlocks.

Lemma strip_think_from_sublist fuel (s : jsstring) :
  sublist (strip_think_from fuel s) s.
Proof.
  revert s. induction fuel as [|fuel IH]; intros s; cbn [strip_think_from]; [reflexivity|].
  destruct (indexOf_ci (lit "<THINK>") s) as [i|]; [|reflexivity].
  destruct (indexOf_ci (lit "</THINK>") (drop (i + 7) s)) as [j|]; [|reflexivity].
  rewrite <- (take_drop i s) at 3. apply sublist_app; [reflexivity|].
  etransitivity; [apply IH|]. rewrite drop_drop.
  rewrite <- (Nat.add_assoc i 7 (j + 8)), <- drop_drop. apply sublist_drop.
Qed.

(** X25. Cleaning only deletes: the result of removing the think blocks
    is a subsequence of the content, so no character is added, changed or
    moved, and the result is never longer than the content. *)
Theorem strip_think_only_deletes (s : jsstring) :
  sublist (strip_think s) s /\ (length (strip_think s) <= length s)%nat.
Proof.
  pose proof (strip_think_from_sublist (length s) s) as Hs.
  split; [exact Hs | now apply sublist_length].
Qed.

Lemma indexOf_ci_drop p (s : jsstring) n :
  indexOf_ci p s = None -> indexOf_ci p (drop n s) = None.
Proof.
  revert s. induction n as [|n IH]; intros s; [now rewrite drop_0|].
  destruct s as [|c s]; [now rewrite drop_nil|].
  cbn [indexOf_ci drop]. destruct (startsWith_ci p (c :: s)); [discriminate|].
  destruct (indexOf_ci p s) eqn:E; [discriminate|]. intros _. now apply IH.
Qed.

(** X26. Content without a complete think block is left as it is: when no
    opening tag occurs, or no closing tag (in any letter case), nothing is
    removed, an unclosed opening tag included. *)
Theorem strip_think_without_block (s : jsstring) :
  indexOf_ci (lit "<THINK>") s = None \/ indexOf_ci (lit "</THINK>") s = None ->
  strip_think s = s.
Proof.
  unfold strip_think. destruct (length s) as [|fuel]; [reflexivity|].
  cbn [strip_think_from]. intros [Ho | Hc].
  - now rewrite Ho.
  - destruct (indexOf_ci (lit "<THINK>") s) as [i|]; [|reflexivity].
    now rewrite (indexOf_ci_drop _ s (i + 7) Hc).
Qed.

End ThinkBlocks.

(** ** The model selector and the store

    [ModelSelectorModal] keeps a copy of the favourites, taken when the
    modal is built, and calls the store without awaiting it.  Every
    assignment of [addFavorite], [removeFavorite] and [setModel] precedes
    their first [await], so the state they leave is in place when the call
    returns; the handlers are modelled on that state and, besides, on the
    text of the notice they show.  The rendering of the lists reads the
    state and writes none of it. *)

Module ModelSelector.
Section ModelSelector.
Context `{JSNumber}.
Import OpenRouterProvider.

(** The fields of [ModelInfo] the handlers read. *)
Record ModelInfo := {
  id : jsstring;
  context_length : number
}.

Record ModelSelectorModal := {
  pluginId : jsstring;
  models : list ModelInfo;
  favorites : list jsstring
}.

(** [this.models.find(m => m.id === id)?.context_length || null] *)
Definition context_length_of (models : list ModelInfo) (modelId : jsstring)
    : option number :=
  match List.find (fun m => JSString.eqb (id m) modelId) models with
  | Some modelData =>
      if number_is_zero (context_length modelData) then None
      else Some (context_length modelData)
  | None => None
  end.

Definition with_favorites (modal : ModelSelectorModal) (l : list jsstring)
    : ModelSelectorModal :=
  {| pluginId := pluginId modal; models := models modal; favorites := l |}.

(** The state after the call, and the text of the notice. *)
Definition toggleFavorite (modelId : jsstring) (modal : ModelSelectorModal)
    (s : OpenRouterSettings) : ModelSelectorModal * OpenRouterSettings * jsstring :=
  let '(modal', s') :=
    if array_includes (favorites modal) modelId then
      (with_favorites modal
         (List.filter (fun x => negb (JSString.eqb x modelId)) (favorites modal)),
       final (removeFavorite modelId s))
    else
      let s1 := final (addFavorite modelId (context_length_of (models modal) modelId) s) in
      (with_favorites modal (favorites modal ++ [modelId]),   (* push *)
       if negb (JSString.eqb (pluginId modal) [])
          && negb (JSString.eqb (pluginId modal) (lit "settings"))
       then final (setModel (pluginId modal) modelId s1)
       else s1) in
  (modal', s',
   if array_includes (favorites modal') modelId
   then lit "Saved model" else lit "Removed model").

(** The [drop] listener of the saved list; [modelId] is what
    [e.dataTransfer?.getData] gives, and the notice is [None] when none is
    shown. *)
Definition drop (modelId : option jsstring) (modal : ModelSelectorModal)
    (s : OpenRouterSettings)
    : ModelSelectorModal * OpenRouterSettings * option jsstring :=
  match modelId with
  | Some (c :: t) =>
      if negb (array_includes (favorites modal) (c :: t)) then
        let '(modal', s', shown) := toggleFavorite (c :: t) modal s in
        (modal', s', Some shown)
      else (modal, s, Some (lit "Model already in favorites"))
  | _ => (modal, s, None)
  end.

End ModelSelector.
End ModelSelector.

Section ModelSelectorStore.
Context `{JSNumber}.
Import OpenRouterProvider.
Import ModelSelector.

Lemma setModel_favorites pluginId modelId s :
  favoriteModels (final (setModel pluginId modelId s)) = favoriteModels s.
Proof. reflexivity. Qed.

Lemma toggleFavorite_favorites modelId modal s :
  let '(modal', s', _) := toggleFavorite modelId modal s in
  favorites modal' =
    (if array_includes (favorites modal) modelId
     then List.filter (fun x => negb (JSString.eqb x modelId)) (favorites modal)
     else favorites modal ++ [modelId])
  /\ favoriteModels s' =
    (if array_includes (favorites modal) modelId
     then List.filter (fun x => negb (JSString.eqb x modelId)) (favoriteModels s)
     else if array_includes (favoriteModels s) modelId then favoriteModels s
          else favoriteModels s ++ [modelId]).
Proof.
  unfold toggleFavorite.
  destruct (array_includes (favorites modal) modelId); [now split|].
  split; [reflexivity|].
  destruct (_ && _); [rewrite setModel_favorites|]; apply favorites_addFavorite.
Qed.

(** X27. The copy of the favourites the modal keeps and the list of the
    store stay in step: if they are equal before [toggleFavorite] they are
    equal after it, whichever way the toggle goes. *)
Theorem toggleFavorite_keeps_lists_in_step (modelId : jsstring)
    (modal : ModelSelectorModal) (s : OpenRouterSettings) :
  favorites modal = favoriteModels s ->
  let '(modal', s', _) := toggleFavorite modelId modal s in
  favorites modal' = favoriteModels s'.
Proof.
  intros Hsync. pose proof (toggleFavorite_favorites modelId modal s) as Ht.
  destruct (toggleFavorite modelId modal s) as [[modal' s'] shown].
  destruct Ht as [-> ->]. rewrite <- Hsync.
  now destruct (array_includes (favorites modal) modelId).
Qed.

Lemma filter_snoc_absent (l : list jsstring) modelId :
  ~ In modelId l ->
  List.filter (fun x => negb (JSString.eqb x modelId)) (l ++ [modelId]) = l.
Proof.
  intros Hnot. rewrite List.filter_app, (filter_absent l modelId Hnot). simpl.
  rewrite eqb_refl. simpl. apply app_nil_r.
Qed.

(** X28. Saving a model and removing it again, through the modal, brings
    both lists of favourites back to where they were, with the notices
    [Saved model] and [Removed model]; but the selection made on the way
    stays: opened for a plugin other than the settings tab (and whose
    identifier is not [__proto__], at which nothing can be stored), the
    modal leaves that plugin with the removed model selected. *)
Theorem toggle_twice_keeps_selection (modelId : jsstring)
    (modal : ModelSelectorModal) (s : OpenRouterSettings) :
  ~ In modelId (favorites modal) ->
  favorites modal = favoriteModels s ->
  pluginId modal <> [] ->
  pluginId modal <> lit "settings" ->
  pluginId modal <> lit "__proto__" ->
  let '(modal1, s1, shown1) := toggleFavorite modelId modal s in
  let '(modal2, s2, shown2) := toggleFavorite modelId modal1 s1 in
  favorites modal2 = favorites modal
  /\ favoriteModels s2 = favoriteModels s
  /\ shown1 = lit "Saved model"
  /\ shown2 = lit "Removed model"
  /\ pluginModels s2 !! pluginId modal = Some modelId.
Proof.
  intros Hnot Hsync Hp Hs Hproto.
  assert (array_includes (favorites modal) modelId = false) as Hinc.
  { destruct (array_includes _ _) eqn:E; [|reflexivity].
    apply array_includes_In in E. contradiction. }
  assert (array_includes (favorites modal ++ [modelId]) modelId = true) as Hinc'.
  { apply array_includes_In, in_app_iff. right. now left. }
  assert (array_includes
            (List.filter (fun x => negb (JSString.eqb x modelId))
               (favorites modal ++ [modelId])) modelId = false) as Hinc2.
  { rewrite (filter_snoc_absent _ _ Hnot). exact Hinc. }
  assert (negb (JSString.eqb (pluginId modal) [])
          && negb (JSString.eqb (pluginId modal) (lit "settings")) = true) as Hguard.
  { apply andb_true_iff. split; apply negb_true_iff.
    - destruct (JSString.eqb _ _) eqn:E; [apply eqb_eq in E; contradiction | reflexivity].
    - destruct (JSString.eqb _ _) eqn:E; [apply eqb_eq in E; contradiction | reflexivity]. }
  unfold toggleFavorite at 1. rewrite Hinc, Hguard.
  cbn [with_favorites favorites]. rewrite Hinc'.
  unfold toggleFavorite. cbn [with_favorites favorites pluginId models].
  rewrite Hinc'. cbn [with_favorites favorites]. rewrite Hinc2.
  split; [now apply filter_snoc_absent|]. split; [|split; [reflexivity|]].
  - rewrite favorites_removeFavorite, setModel_favorites, favorites_addFavorite.
    rewrite <- Hsync, Hinc. now apply filter_snoc_absent.
  - split; [reflexivity|].
    cbn [removeFavorite setModel final bind modify saveSettings emit fst snd pluginModels].
    now apply object_set_lookup.
Qed.

(** X29. Dropping a model on the saved list never removes one: both lists
    of favourites keep their entries in their order, and a non-empty
    identifier that was dropped is among the modal's favourites afterwards. *)
Theorem drop_never_removes (modelId : option jsstring)
    (modal : ModelSelectorModal) (s : OpenRouterSettings) :
  let '(modal', s', _) := ModelSelector.drop modelId modal s in
  sublist (favorites modal) (favorites modal')
  /\ sublist (favoriteModels s) (favoriteModels s')
  /\ (forall dropped, modelId = Some dropped -> dropped <> [] ->
        In dropped (favorites modal')).
Proof.
  unfold ModelSelector.drop.
  destruct modelId as [[|c t]|].
  - repeat split; try reflexivity. intros d [= <-] Hd. contradiction.
  - destruct (array_includes (favorites modal) (c :: t)) eqn:Hinc; cbn [negb].
    + repeat split; try reflexivity. intros d [= <-] _. now apply array_includes_In.
    + pose proof (toggleFavorite_favorites (c :: t) modal s) as Ht.
      destruct (toggleFavorite (c :: t) modal s) as [[modal' s'] shown].
      destruct Ht as [-> ->]. rewrite Hinc. split; [|split].
      * now apply sublist_inserts_r.
      * destruct (array_includes (favoriteModels s) (c :: t)); [reflexivity|].
        now apply sublist_inserts_r.
      * intros d [= <-] _. apply in_app_iff. right. now left.
  - repeat split; try reflexivity. discriminate.
Qed.

End ModelSelectorStore.

(** ** One end per call *)

Section Terminals.
Context `{JSNumber} `{!JSONParser}.
Import StreamManager.

(** X30. Whatever the network does, on every path of both revisions: the
    token and reasoning callbacks come before the terminal callback, at
    most one of [onComplete] and [onError] is called, and nothing is called
    after it.  In the revision of [src/streamManager.ts] exactly one is
    called unless the call was aborted, and none when it was. *)
Theorem at_most_one_terminal_callback (net : outcome response) (url apiKey : jsstring)
    (requestBody : list (jsstring * json)) (onReasoning : option (Callback json)) :
  onReasoning = None \/ onReasoning = Some record_reasoning ->
  let t := effects (streamRequest net url apiKey requestBody
                      record_token record_error record_complete onReasoning initial) in
  let t_v1 := effects (streamRequest_v1 net url apiKey requestBody
                         record_token record_error record_complete initial) in
  disciplined t = true
  /\ (length (terminals t) <= 1)%nat
  /\ disciplined t_v1 = true
  /\ length (terminals t_v1) = if aborted_v1 net then 0%nat else 1%nat.
Proof.
  intros HR.
  pose proof (terminal_callback_discipline net url apiKey requestBody onReasoning HR)
    as [H1 H2].
  pose proof (terminal_callback_v1 net url apiKey requestBody) as [H3 H4].
  cbv zeta in *. repeat split; assumption.
Qed.

End Terminals.

(** ** The further properties on concrete inputs *)

Section StoreInstances.
Import Platform.
Import OpenRouterProvider.

(** The default settings after [ai-flashcards] selected a model and the
    context length of [x/model] was recorded. *)
Definition settled_settings : OpenRouterSettings :=
  {| apiKey := lit "sk-or-1";
     apiUrl := apiUrl DEFAULT_SETTINGS;
     favoriteModels := favoriteModels DEFAULT_SETTINGS;
     modelContextLengths := <[lit "x/model" := 8000%Z]> ∅;
     pluginModels := <[lit "ai-flashcards" := lit "openai/gpt-4o-mini"]> ∅ |}.

Lemma x_model_is_new : ~ In (lit "x/model") (favoriteModels DEFAULT_SETTINGS).
Proof. intros [E | [E | [E | []]]]; vm_compute in E; discriminate E. Defined.

Lemma setModel_leaves_other_plugins_witness :
  result ((setModel (lit "ai-flashcards") (lit "openai/gpt-4o-mini") ;;;
           getModel (lit "notes")) DEFAULT_SETTINGS)
  = result (getModel (lit "notes") DEFAULT_SETTINGS).
Proof.
  apply (setModel_leaves_other_plugins DEFAULT_SETTINGS (lit "ai-flashcards")
           (lit "notes") (lit "openai/gpt-4o-mini")).
  intros E. vm_compute in E. discriminate E.
Defined.

Lemma removeFavorite_keeps_selection_witness :
  result ((removeFavorite (lit "openai/gpt-4o-mini") ;;; getModel (lit "ai-flashcards"))
            settled_settings)
  = Returned (Own (lit "openai/gpt-4o-mini")).
Proof.
  apply (removeFavorite_keeps_selection settled_settings (lit "ai-flashcards")
           (lit "openai/gpt-4o-mini")).
  - apply lookup_insert_eq.
  - intros E. vm_compute in E. discriminate E.
Defined.

Lemma addFavorite_removeFavorite_roundtrip_witness :
  let s' := final ((addFavorite (lit "x/model") (Some 8000%Z) ;;;
                    removeFavorite (lit "x/model")) DEFAULT_SETTINGS) in
  favoriteModels s' = favoriteModels DEFAULT_SETTINGS
  /\ modelContextLengths s' !! lit "x/model" = Some 8000%Z.
Proof.
  destruct (addFavorite_removeFavorite_roundtrip (H := integers) DEFAULT_SETTINGS
              (lit "x/model") 8000%Z x_model_is_new eq_refl) as (H1 & H2 & _).
  split; [exact H1|]. apply H2. intros E. vm_compute in E. discriminate E.
Defined.

Lemma context_lengths_never_forgotten_witness :
  is_Some (modelContextLengths
             (final (for_of [Remove (H := integers) (lit "x/model");
                             Add (lit "y/model") None;
                             Add (lit "x/model") None] perform settled_settings))
           !! lit "x/model").
Proof.
  apply (context_lengths_never_forgotten settled_settings).
  exists 8000%Z. apply lookup_insert_eq.
Defined.

(** A transport that is never reached. *)
Definition offline : nat -> outcome RequestUrlResponse :=
  fun _ => Thrown (Error (lit "net::ERR_INTERNET_DISCONNECTED")).

Lemma fetchWithRetry_gives_up_witness :
  let run := fetchWithRetry_default offline hello_request DEFAULT_SETTINGS in
  result run = Thrown (Error (lit "net::ERR_INTERNET_DISCONNECTED"))
  /\ requests (effects run) = 3%nat
  /\ waits (effects run) = [2000; 2000 * (3 # 2)]%Q
  /\ List.last (effects run) SaveData = StatusBar (setError (lit "API Failed")).
Proof.
  apply (fetchWithRetry_gives_up offline
           (fun _ => Error (lit "net::ERR_INTERNET_DISCONNECTED"))
           hello_request 3 2000 DEFAULT_SETTINGS); [lia | reflexivity].
Defined.

Definition server_error : RequestUrlResponse :=
  {| status := 500;
     json := Returned (JObj [(lit "error",
                              JObj [(lit "message", JStr (lit "overloaded"))])]) |}.

Lemma fetchWithRetry_api_error_witness :
  let run := fetchWithRetry_default (fun _ => Returned server_error) hello_request
               DEFAULT_SETTINGS in
  result run = Thrown (Error (lit "API Error 500: overloaded"))
  /\ requests (effects run) = 3%nat.
Proof.
  destruct (fetchWithRetry_api_error server_error hello_request 3 2000 DEFAULT_SETTINGS)
    as (msg & H1 & H2 & _ & H4 & _); [lia | discriminate | discriminate |].
  rewrite (H4 _ (lit "overloaded") eq_refl eq_refl) in H1
    by (intros E; vm_compute in E; discriminate E).
  exact (conj H1 H2).
Defined.

Lemma fetchWithRetry_first_success_witness :
  let run := fetchWithRetry_default twice_rate_limited hello_request DEFAULT_SETTINGS in
  (exists response, result run = Returned (Some response))
  /\ requests (effects run) = 3%nat
  /\ List.last (effects run) SaveData = StatusBar setSuccess.
Proof.
  apply (fetchWithRetry_first_success twice_rate_limited hello_request 3 2 2000
           DEFAULT_SETTINGS); [lia | reflexivity |].
  intros [|[|j]] Hj; [reflexivity | reflexivity | lia].
Defined.

Definition thinking_answer : RequestUrlResponse :=
  {| status := 200;
     json := Returned
               (JObj [(lit "choices",
                       JArr [JObj [(lit "message",
                                    JObj [(lit "content",
                                           JStr (lit "<think>plan</think> Hello "))])]])]) |}.

Lemma fetchWithRetry_returns_cleaned_content_witness :
  exists document',
    result (fetchWithRetry_default (fun _ => Returned thinking_answer) hello_request
              DEFAULT_SETTINGS)
    = Returned (Some {| status := 200; json := Returned document' |})
    /\ message_content document' = Some (JStr (lit "Hello")).
Proof.
  destruct (fetchWithRetry_returns_cleaned_content (fun _ => Returned thinking_answer)
              thinking_answer
              (JObj [(lit "choices",
                      JArr [JObj [(lit "message",
                                   JObj [(lit "content",
                                          JStr (lit "<think>plan</think> Hello "))])]])])
              (lit "<think>plan</think> Hello ") hello_request 3 2000 DEFAULT_SETTINGS)
    as (document' & H1 & H2);
    [lia | reflexivity | discriminate | reflexivity | reflexivity | reflexivity
     | intros E; vm_compute in E; discriminate E |].
  exists document'. split; [exact H1 | exact H2].
Defined.

Lemma strip_think_without_block_witness :
  strip_think (lit "<think>never closed") = lit "<think>never closed".
Proof.
  apply (strip_think_without_block (lit "<think>never closed")).
  right. reflexivity.
Defined.

End StoreInstances.

Section StreamMoreInstances.
Import Platform.
Import StreamManager.

(** A caller whose token callback fails. *)
Definition failing_token : Callback json := fun _ => throw (Error (lit "render failed")).

Lemma throwing_token_callback_is_logged_witness :
  on_line failing_token None (text "data: {'choices':[{'delta':{'content':'!'}}]}") []
  = ([ConsoleWarn (text "data: {'choices':[{'delta':{'content':'!'}}]}")],
     lit "!", Returned tt).
Proof.
  apply (throwing_token_callback_is_logged failing_token None
           (text "data: {'choices':[{'delta':{'content':'!'}}]}") (lit "!") [] []
           (Error (lit "render failed"))); [vm_compute|]; reflexivity.
Defined.

Lemma revisions_agree_without_reasoning_witness :
  streamRequest (Returned stream_response) (lit "u") (lit "k") []
    record_token record_error record_complete None StreamManager.initial
  = streamRequest_v1 (Returned stream_response) (lit "u") (lit "k") []
      record_token record_error record_complete StreamManager.initial.
Proof.
  apply (revisions_agree_without_reasoning (Returned stream_response)).
  vm_compute. reflexivity.
Defined.

Definition unauthorized : response :=
  {| Fetch.status := 401; statusText := lit "Unauthorized";
     content_type := Some (lit "text/html");
     json_body := Thrown SyntaxError;
     body := Some {| chunks := stream_chunks; rejection := None |} |}.

Lemma stream_api_error_is_reported_witness :
  streamRequest (Returned unauthorized) (lit "u") (lit "k") []
    record_token record_error record_complete (Some record_reasoning) StreamManager.initial
  = ([stream_request_of (lit "u") (lit "k") [];
      ConsoleError (Error (lit "API Error 401: Unauthorized"));
      OnError (Error (lit "API Error 401: Unauthorized"))],
     StreamManager.initial, Returned tt).
Proof.
  destruct (stream_api_error_is_reported unauthorized (lit "u") (lit "k") []
              record_token record_complete record_error (Some record_reasoning)
              StreamManager.initial eq_refl) as (msg & H1 & _ & _ & H4).
  rewrite (H4 SyntaxError eq_refl) in H1. exact H1.
Defined.

Lemma streamRequest_never_rejects_witness :
  result (streamRequest (Thrown (Error (lit "offline"))) (lit "u") (lit "k") []
            failing_token record_error record_complete None StreamManager.initial)
  = Returned tt.
Proof.
  destruct (streamRequest_never_rejects (Thrown (Error (lit "offline")))
              (lit "u") (lit "k") [] failing_token record_complete record_error None
              StreamManager.initial (fun _ => eq_refl)) as [H1 _];
    [discriminate | discriminate | discriminate |].
  exact H1.
Defined.

(** A completion callback that throws [null]. *)
Definition null_thrower : Callback json := fun _ => rethrow Nullish.

(** The outer [catch] cannot read the name of a thrown [null]: the call on
    an empty event stream is rejected with a [TypeError], and [onError] is
    not called. *)
Example null_thrown_by_onComplete_rejects :
  streamRequest
    (Returned {| Fetch.status := 200; statusText := lit "OK";
                 content_type := Some (lit "text/event-stream");
                 json_body := Thrown SyntaxError;
                 body := Some {| chunks := []; rejection := None |} |})
    (lit "u") (lit "k") []
    record_token record_error null_thrower (Some record_reasoning) StreamManager.initial
  = ([stream_request_of (lit "u") (lit "k") []], StreamManager.initial, Thrown TypeError).
Proof. reflexivity. Qed.

Lemma completion_text_is_the_tokens_witness :
  exists t,
    no_terminal t = true
    /\ streamRequest (Returned stream_response) (lit "u") (lit "k") []
         record_token record_error record_complete (Some record_reasoning)
         StreamManager.initial
       = (stream_request_of (lit "u") (lit "k") []
            :: t ++ [OnComplete (JStr (flat_map token_text t))],
          flat_map token_text t, Returned tt).
Proof.
  destruct (completion_text_is_the_tokens stream_response
              {| chunks := stream_chunks; rejection := None |}
              (lit "u") (lit "k") [] (Some record_reasoning)
              (or_intror eq_refl) eq_refl eq_refl eq_refl) as [Hrun _].
  exact Hrun.
Defined.

(** The event stream of [stream_chunks] followed by a frame that no line
    feed ends. *)
Definition unterminated_frame : jsstring :=
  text "data: {'choices':[{'delta':{'content':' lost'}}]}".

Lemma unterminated_last_line_is_dropped_witness :
  streamRequest
    (Returned (with_chunks stream_response
                 (stream_chunks ++ [ascii_bytes unterminated_frame]) None))
    (lit "u") (lit "k") []
    record_token record_error record_complete (Some record_reasoning) StreamManager.initial
  = streamRequest (Returned (with_chunks stream_response stream_chunks None))
      (lit "u") (lit "k") []
      record_token record_error record_complete (Some record_reasoning)
      StreamManager.initial.
Proof.
  destruct (unterminated_last_line_is_dropped stream_response stream_chunks
              (stream_chunks ++ [ascii_bytes unterminated_frame]) unterminated_frame None
              (lit "u") (lit "k") []
              record_token record_complete record_error (Some record_reasoning)
              StreamManager.initial) as [H1 _].
  - vm_compute. reflexivity.
  - vm_compute. reflexivity.
  - exact H1.
Defined.

Lemma at_most_one_terminal_callback_witness :
  let t := effects (streamRequest (Returned stream_response) (lit "u") (lit "k") []
                      record_token record_error record_complete None
                      StreamManager.initial) in
  disciplined t = true /\ (length (terminals t) <= 1)%nat.
Proof.
  destruct (at_most_one_terminal_callback (Returned stream_response) (lit "u") (lit "k") []
              None (or_introl eq_refl)) as (H1 & H2 & _).
  exact (conj H1 H2).
Defined.

(** Settings with a key. *)
Definition keyed_settings : OpenRouterProvider.OpenRouterSettings :=
  {| OpenRouterProvider.apiKey := lit "sk-or-1";
     OpenRouterProvider.apiUrl := lit "https://openrouter.ai/api/v1/chat/completions";
     OpenRouterProvider.favoriteModels := [];
     OpenRouterProvider.modelContextLengths := ∅;
     OpenRouterProvider.pluginModels := ∅ |}.

Definition reasoner_request : OpenRouterProvider.RequestBody :=
  {| OpenRouterProvider.model := lit "deepseek/deepseek-r1";
     OpenRouterProvider.extra := [] |}.

Lemma provider_stream_drives_status_bar_witness :
  OpenRouterProvider.streamRequest (Returned stream_response) reasoner_request
    record_token record_complete record_error keyed_settings
  = ([StatusBar setConnecting; StatusBar setThinking;
      stream_request_of (lit "https://openrouter.ai/api/v1/chat/completions")
        (lit "sk-or-1") [(lit "model", JStr (lit "deepseek/deepseek-r1"))];
      StatusBar updateProgress; OnToken (JStr (lit "caf" ++ [233]));
      ConsoleWarn (text "data: {'choices':[{'delta'");
      StatusBar updateProgress; OnToken (JStr (lit "!"));
      StatusBar setSuccess; OnComplete (JStr (lit "caf" ++ [233] ++ lit "!"))],
     keyed_settings, Returned tt).
Proof.
  rewrite (provider_stream_drives_status_bar (Returned stream_response) reasoner_request
             keyed_settings)
    by (intros E; vm_compute in E; discriminate E).
  vm_compute. reflexivity.
Defined.

Lemma no_key_no_request_witness :
  OpenRouterProvider.streamRequest (Returned stream_response) reasoner_request
    record_token record_complete record_error OpenRouterProvider.DEFAULT_SETTINGS
  = ([Notice ApiKeyMissingNotice], OpenRouterProvider.DEFAULT_SETTINGS, Returned tt).
Proof.
  destruct (no_key_no_request (Returned stream_response) reasoner_request
              record_token record_complete record_error
              (fun _ _ => Thrown TypeError) (Thrown TypeError)
              OpenRouterProvider.DEFAULT_SETTINGS eq_refl) as [H1 _].
  exact H1.
Defined.

End StreamMoreInstances.

Section ModalInstances.
Import Platform.
Import OpenRouterProvider.
Import ModelSelector.

(** The modal as [ai-flashcards] opens it on the default settings, once the
    catalogue is loaded. *)
Definition flashcards_modal : ModelSelectorModal :=
  {| pluginId := lit "ai-flashcards";
     models := [{| id := lit "x/model"; context_length := 8000%Z |}];
     favorites := favoriteModels DEFAULT_SETTINGS |}.

Lemma toggleFavorite_keeps_lists_in_step_witness :
  let '(modal', s', _) := toggleFavorite (lit "x/model") flashcards_modal DEFAULT_SETTINGS in
  favorites modal' = favoriteModels s'.
Proof.
  apply (toggleFavorite_keeps_lists_in_step (lit "x/model") flashcards_modal
           DEFAULT_SETTINGS eq_refl).
Defined.

Lemma toggle_twice_keeps_selection_witness :
  let '(modal1, s1, shown1) :=
    toggleFavorite (lit "x/model") flashcards_modal DEFAULT_SETTINGS in
  let '(modal2, s2, shown2) := toggleFavorite (lit "x/model") modal1 s1 in
  favorites modal2 = favorites flashcards_modal
  /\ favoriteModels s2 = favoriteModels DEFAULT_SETTINGS
  /\ shown1 = lit "Saved model"
  /\ shown2 = lit "Removed model"
  /\ pluginModels s2 !! lit "ai-flashcards" = Some (lit "x/model").
Proof.
  apply (toggle_twice_keeps_selection (lit "x/model") flashcards_modal DEFAULT_SETTINGS
           x_model_is_new eq_refl);
    intros E; vm_compute in E; discriminate E.
Defined.

(** A modal opened for the plugin id [__proto__]: the model is saved as a
    favourite, but no selection is stored. *)
Example toggle_for_proto_selects_nothing :
  let '(_, s1, _) :=
    toggleFavorite (lit "x/model")
      {| pluginId := lit "__proto__"; models := [];
         favorites := favoriteModels DEFAULT_SETTINGS |} DEFAULT_SETTINGS in
  pluginModels s1 = ∅ /\ In (lit "x/model") (favoriteModels s1).
Proof.
  unfold toggleFavorite. cbn [favorites].
  assert (array_includes (favoriteModels DEFAULT_SETTINGS) (lit "x/model") = false) as ->
    by (vm_compute; reflexivity).
  cbn [pluginId].
  assert (negb (JSString.eqb (lit "__proto__") [])
          && negb (JSString.eqb (lit "__proto__") (lit "settings")) = true) as ->
    by (vm_compute; reflexivity).
  split.
  - unfold setModel, final, bind, modify, saveSettings, emit.
    cbn [fst snd pluginModels]. now apply object_set_proto.
  - rewrite setModel_favorites, favorites_addFavorite.
    assert (array_includes (favoriteModels DEFAULT_SETTINGS) (lit "x/model") = false) as ->
      by (vm_compute; reflexivity).
    apply in_app_iff. right. now left.
Qed.

End ModalInstances.
